(** * reddit-worker: a shallow embedding of the fetch / transform / ingest core

    The development follows the source files:
    - [Fetcher]   : src/reddit/fetcher.js  (flattenComments, extractPostData,
                    fetchPosts, countComments)
    - [VectorDB]  : src/ingestion/vectordb.js (transformPostToVectorFormat,
                    transformCommentsToVectorFormat, ingestItem, ingestPosts)
    - [Client]    : src/reddit/client.js (ensureAuthenticated, waitForRateLimit,
                    makeRequest)
    - [Jobs]      : jobManager.js (createJob, startJob, deleteJob)

    JavaScript strings are [string], integers (scores, epoch seconds, counters)
    are [Z], arrays are [list], the job [Map] is a [gmap].  Network peers are
    oracles: a function from the number of requests made so far to the
    response of the next one, so every sequence of responses is covered. *)

From Stdlib Require Import ZArith String Ascii List Lia Bool.
From stdpp Require Import base option list gmap strings pretty.

Set Warnings "-register-all".

Open Scope Z_scope.
Open Scope string_scope.
Open Scope list_scope.

(** ** JavaScript truthiness and string helpers *)

(** A string is truthy unless it is empty. *)
Definition truthyStr (s : string) : bool :=
  match s with
  | EmptyString => false
  | String _ _ => true
  end.

(** [a || b] on strings. *)
Definition orStr (a b : string) : string := if truthyStr a then a else b.

(** [a || b] where [a] may be undefined/null. *)
Definition orOptStr (a : option string) (b : string) : string :=
  match a with
  | Some s => orStr s b
  | None => b
  end.

(** The template literal [`${a}_${b}`]. *)
Definition underscoreJoin (a b : string) : string := a +:+ "_" +:+ b.

Lemma truthyStr_true_iff s : truthyStr s = true <-> s <> "".
Proof. destruct s; simpl; split; intros; congruence. Qed.

Lemma orStr_truthy a b : a <> "" -> orStr a b = a.
Proof. unfold orStr. destruct a; simpl; congruence. Qed.

Lemma orStr_empty b : orStr "" b = b.
Proof. reflexivity. Qed.

(** A call that either returns a value or throws an [Error] with a message. *)
Inductive outcome (A : Type) : Type :=
| Ok (value : A)
| Thrown (message : string).
Arguments Ok {A} value.
Arguments Thrown {A} message.

(** ** Fetcher: the comment tree *)

Module Fetcher.

(** The upstream JSON.  A value handed to [flattenComments] is either falsy /
    not an object ([Absent]: null, undefined, or the empty string the API uses
    for "no replies") or an object with a [kind] and [data.children].  A child
    is dispatched on its [kind]: 't1' carries a comment, 'more' a placeholder
    with a count, anything else is ignored. *)
Inductive jsListing : Type :=
| Absent
| Object (kind : string) (children : list jsThing)
with jsThing : Type :=
| T1 (id author body : string) (score created_utc : Z)
     (permalink parent_id : string) (replies : jsListing)
| More (count : Z)
| OtherKind (kind : string).

(** The object built at fetcher.js:49-59. *)
Inductive comment : Type :=
| Comment (id author body : string) (score created_utc : Z) (depth : nat)
          (permalink parent_id : string) (replies : list comment).

Definition c_id (c : comment) : string :=
  match c with Comment i _ _ _ _ _ _ _ _ => i end.
Definition c_author (c : comment) : string :=
  match c with Comment _ a _ _ _ _ _ _ _ => a end.
Definition c_body (c : comment) : string :=
  match c with Comment _ _ b _ _ _ _ _ _ => b end.
Definition c_score (c : comment) : Z :=
  match c with Comment _ _ _ s _ _ _ _ _ => s end.
Definition c_created_utc (c : comment) : Z :=
  match c with Comment _ _ _ _ t _ _ _ _ => t end.
Definition c_depth (c : comment) : nat :=
  match c with Comment _ _ _ _ _ d _ _ _ => d end.
Definition c_permalink (c : comment) : string :=
  match c with Comment _ _ _ _ _ _ p _ _ => p end.
Definition c_parent_id (c : comment) : string :=
  match c with Comment _ _ _ _ _ _ _ p _ => p end.
Definition c_replies (c : comment) : list comment :=
  match c with Comment _ _ _ _ _ _ _ _ r => r end.

(** fetcher.js:45 — the deleted / removed sentinel test. *)
Definition isDeletedComment (author body : string) : bool :=
  String.eqb author "[deleted]" || String.eqb body "[deleted]"
  || String.eqb body "[removed]".

(** fetcher.js:33-75.  The inner [loop] is the [for ... of] over
    [commentData.data.children]; [continue] moves to the next child without
    pushing and without looking at [comment.replies]. *)
Fixpoint flattenComments (commentData : jsListing) (depth : nat) {struct commentData}
  : list comment :=
  match commentData with
  | Absent => []
  | Object kind children =>
      if String.eqb kind "Listing" then
        (fix loop (items : list jsThing) : list comment :=
           match items with
           | [] => []
           | item :: rest =>
               match item with
               | T1 id author body score created_utc permalink parent_id replies =>
                   if isDeletedComment author body then loop rest
                   else Comment id author body score created_utc depth permalink
                          parent_id (flattenComments replies (S depth))
                        :: loop rest
               | More _ => loop rest
               | OtherKind _ => loop rest
               end
           end) children
      else []
  end.

(** The loop of [flattenComments] on its own, for statements about a list of
    children. *)
Fixpoint flattenItems (items : list jsThing) (depth : nat) : list comment :=
  match items with
  | [] => []
  | item :: rest =>
      match item with
      | T1 id author body score created_utc permalink parent_id replies =>
          if isDeletedComment author body then flattenItems rest depth
          else Comment id author body score created_utc depth permalink parent_id
                 (flattenComments replies (S depth))
               :: flattenItems rest depth
      | More _ => flattenItems rest depth
      | OtherKind _ => flattenItems rest depth
      end
  end.

(** fetcher.js:210-218.  [countUnder c] is [countComments(c.replies)]; the
    recursion goes through the comment, whose [replies] it descends into. *)
Fixpoint countUnder (c : comment) : nat :=
  match c with
  | Comment _ _ _ _ _ _ _ _ replies =>
      (length replies + list_sum (map countUnder replies))%nat
  end.

Definition countComments (comments : list comment) : nat :=
  (length comments + list_sum (map countUnder comments))%nat.

(** Every id that occurs in a tree of fetched comments, parents before
    children, siblings in order. *)
Fixpoint idsUnder (c : comment) : list string :=
  match c with
  | Comment id _ _ _ _ _ _ _ replies => id :: flat_map idsUnder replies
  end.

Definition commentIds (comments : list comment) : list string :=
  flat_map idsUnder comments.

(** Induction on a comment with the hypothesis for every reply. *)
Lemma comment_forest_ind (P : comment -> Prop) :
  (forall id author body score created depth permalink parent replies,
      Forall P replies ->
      P (Comment id author body score created depth permalink parent replies)) ->
  forall c, P c.
Proof.
  intros step. fix IH 1. intros [i a b s t d p q replies].
  apply step. induction replies as [|r rs IHrs]; constructor.
  - apply IH.
  - exact IHrs.
Qed.

Lemma countComments_nil : countComments [] = 0%nat.
Proof. reflexivity. Qed.

Lemma countComments_cons c rest :
  countComments (c :: rest) =
  S (countComments (c_replies c) + countComments rest).
Proof. destruct c. unfold countComments. simpl. lia. Qed.

Lemma commentIds_cons c rest :
  commentIds (c :: rest) = c_id c :: commentIds (c_replies c) ++ commentIds rest.
Proof. destruct c. reflexivity. Qed.

Lemma flattenComments_Object kind children depth :
  flattenComments (Object kind children) depth =
  if String.eqb kind "Listing" then flattenItems children depth else [].
Proof.
  simpl. destruct (String.eqb kind "Listing"); [|reflexivity].
  induction children as [|item rest IH]; [reflexivity|].
  destruct item; simpl; rewrite IH; reflexivity.
Qed.

End Fetcher.

(** ** Posts as the fetcher hands them to the ingestor *)

Module Post.

(** [postData.data] of a feed child, the fields the code reads.  [selftext]
    is absent or empty on link posts; [all_awardings] is kept as its length
    when present. *)
Record rawPost : Type := mkRawPost {
  r_id : string;
  r_title : string;
  r_author : string;
  r_selftext : option string;
  r_permalink : string;
  r_created_utc : Z;
  r_score : Z;
  r_num_comments : Z;
  r_all_awardings : option Z;
  r_link_flair_text : option string;
  r_is_self : bool;
  r_domain : string
}.

(** [postObj] of fetcher.js:84-98 ([upvote_ratio], a float that nothing
    downstream reads, is left out). *)
Record post : Type := mkPost {
  p_id : string;
  p_title : string;
  p_author : string;
  p_content : string;
  p_url : string;
  p_created_utc : Z;
  p_score : Z;
  p_num_comments : Z;
  p_awards : Z;
  p_flair : string;
  p_is_self : bool;
  p_domain : string
}.

(** The element pushed at fetcher.js:166-177 ([metadata] reduced to
    [test_mode]; the fetch time stamp is wall-clock text). *)
Record redditPost : Type := mkRedditPost {
  rp_id : string;
  rp_source : string;
  rp_subreddit : string;
  rp_post : post;
  rp_comments : list Fetcher.comment;
  rp_test_mode : bool
}.

(** fetcher.js:84-98. *)
Definition buildPostObj (raw : rawPost) : post :=
  {| p_id := r_id raw;
     p_title := r_title raw;
     p_author := r_author raw;
     p_content := orOptStr (r_selftext raw) "";
     p_url := "https://reddit.com" +:+ r_permalink raw;
     p_created_utc := r_created_utc raw;
     p_score := r_score raw;
     p_num_comments := r_num_comments raw;
     p_awards := default 0 (r_all_awardings raw);
     p_flair := orOptStr (r_link_flair_text raw) "";
     p_is_self := r_is_self raw;
     p_domain := r_domain raw |}.

(** The outcome of [client.fetchPostComments]: the parsed body, an array of
    listings, or a thrown error. *)
Inductive commentsResponse : Type :=
| CommentsOk (body : list Fetcher.jsListing)
| CommentsThrew (message : string).

(** fetcher.js:80-119: the comments are [flattenComments(commentData[1])]
    when the array has more than one element, and stay [[]] otherwise or when
    the request throws. *)
Definition extractPostData (raw : rawPost) (resp : commentsResponse)
  : post * list Fetcher.comment :=
  let comments :=
    match resp with
    | CommentsOk body =>
        if (1 <? length body)%nat
        then Fetcher.flattenComments (nth 1 body Fetcher.Absent) 0
        else []
    | CommentsThrew _ => []
    end in
  (buildPostObj raw, comments).

End Post.

(** ** VectorDB: transformation and ingestion *)

Module VectorDB.
Import Fetcher Post.

(** The item sent to the store.  [timestamp] is the text [toISOString]
    returned, kept as the epoch milliseconds it stands for; [comments] is
    present on the root document only. *)
Record document : Type := mkDocument {
  d_platform : string;
  d_source : string;
  d_id : string;
  d_timestamp : Z;
  d_deeplink : string;
  d_author : string;
  d_title : string;
  d_body : string;
  d_isComment : bool;
  d_comments : option Z;
  d_likes : Z
}.

(** [platformName || subreddit]. *)
Definition platformOf (platformName : option string) (subreddit : string) : string :=
  orOptStr platformName subreddit.

(** vectordb.js:65: [parentCommentId ? `${postId}_${comment.id}` : comment.id],
    with [parentCommentId] null at the top level and the parent's id below. *)
Definition commentDocId (postId : string) (parentCommentId : option string)
  (commentId : string) : string :=
  match parentCommentId with
  | Some parent =>
      if truthyStr parent then underscoreJoin postId commentId else commentId
  | None => commentId
  end.

(** [new Date(ms).toISOString()] on a time [ms] in epoch milliseconds: a
    RangeError ('Invalid time value') when [ms] lies outside the range of a
    [Date], 8.64e15 ms either side of the epoch. *)
Definition MAX_DATE : Z := 8640000000000000.

Definition invalidTimeMessage : string := "Invalid time value".

Definition toISOString (ms : Z) : outcome Z :=
  if (- MAX_DATE <=? ms)%Z && (ms <=? MAX_DATE)%Z then Ok ms
  else Thrown invalidTimeMessage.

(** vectordb.js:62-73, the object literal once [toISOString] has returned
    [timestamp]. *)
Definition commentItem (postId subreddit : string) (parentCommentId : option string)
  (c : comment) (timestamp : Z) : document :=
  {| d_platform := subreddit;
     d_source := "Reddit";
     d_id := commentDocId postId parentCommentId (c_id c);
     d_timestamp := timestamp;
     d_deeplink := "https://reddit.com" +:+ c_permalink c;
     d_author := c_author c;
     d_title := "";
     d_body := c_body c;
     d_isComment := true;
     d_comments := None;
     d_likes := c_score c |}.

(** The [for ... of] of vectordb.js:61-87: the items of each element are
    pushed in turn; the first throw ends the loop and the call. *)
Fixpoint collect {A B : Type} (f : A -> outcome (list B)) (l : list A)
  : outcome (list B) :=
  match l with
  | [] => Ok []
  | x :: rest =>
      match f x with
      | Thrown message => Thrown message
      | Ok items =>
          match collect f rest with
          | Thrown message => Thrown message
          | Ok more => Ok (items ++ more)
          end
      end
  end.

(** vectordb.js:58-90, one turn of the loop: the comment's item, then the
    items of its replies with this comment as parent. *)
Fixpoint transformComment (postId subreddit : string)
  (parentCommentId : option string) (c : comment) : outcome (list document) :=
  match c with
  | Comment id _ _ _ created_utc _ _ _ replies =>
      match toISOString (created_utc * 1000) with
      | Thrown message => Thrown message
      | Ok timestamp =>
          match collect (transformComment postId subreddit (Some id)) replies with
          | Thrown message => Thrown message
          | Ok replyItems =>
              Ok (commentItem postId subreddit parentCommentId c timestamp
                  :: replyItems)
          end
      end
  end.

(** vectordb.js:58-90. *)
Definition transformCommentsToVectorFormat (comments : list comment)
  (postId subreddit : string) (parentCommentId : option string)
  : outcome (list document) :=
  collect (transformComment postId subreddit parentCommentId) comments.

(** vectordb.js:26-38, the object literal once [toISOString] has returned
    [timestamp]. *)
Definition postItem (rp : redditPost) (platformName : option string)
  (timestamp : Z) : document :=
  let post := rp_post rp in
  {| d_platform := platformOf platformName (rp_subreddit rp);
     d_source := "Reddit";
     d_id := p_id post;
     d_timestamp := timestamp;
     d_deeplink := p_url post;
     d_author := p_author post;
     d_title := p_title post;
     d_body := orStr (p_content post) (p_title post);
     d_isComment := false;
     d_comments := Some (p_num_comments post);
     d_likes := p_score post |}.

(** vectordb.js:21-53: the post's item, then the items of its comments; what
    [toISOString] throws on the way is not caught here. *)
Definition transformPostToVectorFormat (rp : redditPost)
  (platformName : option string) : outcome (list document) :=
  match toISOString (p_created_utc (rp_post rp) * 1000) with
  | Thrown message => Thrown message
  | Ok timestamp =>
      match transformCommentsToVectorFormat (rp_comments rp) (p_id (rp_post rp))
              (platformOf platformName (rp_subreddit rp)) None with
      | Thrown message => Thrown message
      | Ok commentItems => Ok (postItem rp platformName timestamp :: commentItems)
      end
  end.

(** *** The store *)

(** What [axios.post] to [/ingest] yields: a 2xx body, or an error whose
    [response?.status] is absent on a network failure. *)
Inductive storeResponse : Type :=
| StoreOk (base_id : string) (chunks_created : Z)
| StoreError (status : option Z) (message : string) (data : string).

Inductive storeEvent : Type :=
| Posted (docId : string)
| Slept (ms : Z).

(** The ingestor's view of the world: how many requests went out, and the
    trace of requests and sleeps. *)
Record storeState : Type := mkStoreState {
  requests : nat;
  trace : list storeEvent
}.

Definition initialStore : storeState := {| requests := 0; trace := [] |}.

Definition recordPost (docId : string) (st : storeState) : storeState :=
  {| requests := S (requests st); trace := trace st ++ [Posted docId] |}.

Definition recordSleep (ms : Z) (st : storeState) : storeState :=
  {| requests := requests st; trace := trace st ++ [Slept ms] |}.

(** The object [ingestItem] returns. *)
Record ingestResult : Type := mkIngestResult {
  ir_success : bool;
  ir_id : string;
  ir_chromaId : option string;
  ir_chunks : option Z;
  ir_error : option string;
  ir_details : option string
}.

Inductive ingestOutcome : Type :=
| Returned (r : ingestResult)
| Threw (message : string).

Definition maxRetries : nat := 3.

Definition authFailedMessage : string :=
  "Vector DB authentication failed. Check your API token.".

Definition isStatus (status : option Z) (code : Z) : bool :=
  match status with
  | Some s => Z.eqb s code
  | None => false
  end.

Definition statusAtLeast (status : option Z) (code : Z) : bool :=
  match status with
  | Some s => Z.leb code s
  | None => false
  end.

Section Store.

(** The store's answer to the [n]-th request of the run. *)
Variable respond : nat -> storeResponse.

(** vectordb.js:98-157: the [for] loop from [attempt] with [remaining] turns
    left. *)
Fixpoint ingestAttempts (item : document) (remaining attempt : nat)
  (st : storeState) : ingestOutcome * storeState :=
  match remaining with
  | O =>
      (Returned {| ir_success := false; ir_id := d_id item; ir_chromaId := None;
                   ir_chunks := None;
                   ir_error := Some "Max retries (3) exceeded";
                   ir_details := None |}, st)
  | S k =>
      let st1 := recordPost (d_id item) st in
      match respond (requests st) with
      | StoreOk base_id chunks =>
          (Returned {| ir_success := true; ir_id := d_id item;
                       ir_chromaId := Some base_id; ir_chunks := Some chunks;
                       ir_error := None; ir_details := None |}, st1)
      | StoreError status message data =>
          if isStatus status 401 || isStatus status 403 then
            (Threw authFailedMessage, st1)
          else if isStatus status 422 then
            (Returned {| ir_success := false; ir_id := d_id item;
                         ir_chromaId := None; ir_chunks := None;
                         ir_error := Some "Validation error";
                         ir_details := Some data |}, st1)
          else if isStatus status 429 || statusAtLeast status 500 then
            ingestAttempts item k (S attempt)
              (recordSleep (2 ^ Z.of_nat attempt * 1000) st1)
          else
            (Returned {| ir_success := false; ir_id := d_id item;
                         ir_chromaId := None; ir_chunks := None;
                         ir_error := Some message; ir_details := None |}, st1)
      end
  end.

(** vectordb.js:95-158. *)
Definition ingestItem (item : document) (st : storeState)
  : ingestOutcome * storeState :=
  ingestAttempts item maxRetries 0 st.

(** An entry of [results.errors]. *)
Record errorEntry : Type := mkErrorEntry {
  e_id : string;
  e_error : option string;
  e_details : option string
}.

(** [results] of vectordb.js:164-171. *)
Record results : Type := mkResults {
  total : Z;
  successful : Z;
  failed : Z;
  posts : Z;
  comments : Z;
  errors : list errorEntry
}.

Definition emptyResults : results :=
  {| total := 0; successful := 0; failed := 0; posts := 0; comments := 0;
     errors := [] |}.

(** vectordb.js:187-201. *)
Definition tally (item : document) (r : ingestResult) (res : results) : results :=
  if ir_success r then
    {| total := total res;
       successful := successful res + 1;
       failed := failed res;
       posts := if d_isComment item then posts res else posts res + 1;
       comments := if d_isComment item then comments res + 1 else comments res;
       errors := errors res |}
  else
    {| total := total res;
       successful := successful res;
       failed := failed res + 1;
       posts := posts res;
       comments := comments res;
       errors := errors res ++
                 [{| e_id := d_id item; e_error := ir_error r;
                     e_details := ir_details r |}] |}.

(** vectordb.js:184-205, the loop over one post's items inside the [try]:
    [Some message] when [ingestItem] threw, with [results] as mutated so far. *)
Fixpoint ingestItems (items : list document) (st : storeState) (res : results)
  : option string * storeState * results :=
  match items with
  | [] => (None, st, res)
  | item :: rest =>
      match ingestItem item st with
      | (Threw message, st1) => (Some message, st1, res)
      | (Returned r, st1) =>
          ingestItems rest (recordSleep 100 st1) (tally item r res)
      end
  end.

(** vectordb.js:207-214, the [catch] of the per-post [try]. *)
Definition recordPostFailure (rp : redditPost) (message : string) (res : results)
  : results :=
  {| total := total res;
     successful := successful res;
     failed := failed res + 1;
     posts := posts res;
     comments := comments res;
     errors := errors res ++
               [{| e_id := p_id (rp_post rp); e_error := Some message;
                   e_details := None |}] |}.

Definition addTotal (n : nat) (res : results) : results :=
  {| total := total res + Z.of_nat n;
     successful := successful res;
     failed := failed res;
     posts := posts res;
     comments := comments res;
     errors := errors res |}.

(** vectordb.js:175-215, the loop over the posts: a throw of the
    transformation is caught before [total] is touched, a throw of
    [ingestItem] after. *)
Fixpoint ingestPostsFrom (redditPosts : list redditPost)
  (platformName : option string) (st : storeState) (res : results)
  : storeState * results :=
  match redditPosts with
  | [] => (st, res)
  | rp :: rest =>
      match transformPostToVectorFormat rp platformName with
      | Thrown message =>
          ingestPostsFrom rest platformName st (recordPostFailure rp message res)
      | Ok items =>
          match ingestItems items st (addTotal (length items) res) with
          | (None, st1, res1) => ingestPostsFrom rest platformName st1 res1
          | (Some message, st1, res1) =>
              ingestPostsFrom rest platformName st1
                (recordPostFailure rp message res1)
          end
      end
  end.

(** vectordb.js:163-224.  The function has no [throw] of its own and catches
    what the loop body throws, so it always returns [results]. *)
Definition ingestPosts (redditPosts : list redditPost)
  (platformName : option string) (st : storeState) : storeState * results :=
  ingestPostsFrom redditPosts platformName st emptyResults.

End Store.

(** The ids of the documents sent, in order. *)
Definition postedIds (tr : list storeEvent) : list string :=
  flat_map (fun e => match e with Posted i => [i] | Slept _ => [] end) tr.

End VectorDB.

(** ** Client: authentication, pacing and retry *)

Module Client.

(** The argument of [setTimeout]: a number of milliseconds, or the text of a
    response header handed over as it came. *)
Inductive jsDelay : Type :=
| DelayNum (ms : Z)
| DelayStr (text : string).

Definition digitValue (c : ascii) : option Z :=
  let n := Z.of_nat (nat_of_ascii c) in
  if (48 <=? n)%Z && (n <=? 57)%Z then Some (n - 48) else None.

Fixpoint parseDigits (s : string) (acc : Z) : option Z :=
  match s with
  | EmptyString => Some acc
  | String c rest =>
      match digitValue c with
      | Some d => parseDigits rest (10 * acc + d)
      | None => None
      end
  end.

(** JavaScript's string-to-number conversion on the two forms a retry-after
    header takes, a run of decimal digits (its value; the empty string is 0)
    and an HTTP date (NaN, given as [None]).  Other spellings of a number
    ('1e3', ' 2 ', '0x10') are not among them and come out as [None] here. *)
Definition toNumber (s : string) : option Z := parseDigits s 0.

Definition TIMEOUT_MAX : Z := 2147483647.

(** The delay a Node timer really uses: the argument as a number, replaced
    by 1 when that is NaN or outside [1, TIMEOUT_MAX]. *)
Definition timeoutMs (d : jsDelay) : Z :=
  let clamp n := if (1 <=? n)%Z && (n <=? TIMEOUT_MAX)%Z then n else 1 in
  match d with
  | DelayNum n => clamp n
  | DelayStr s =>
      match toNumber s with
      | Some n => clamp n
      | None => 1
      end
  end.

(** What the token endpoint and the API answer. *)
Inductive authResponse : Type :=
| AuthOk (access_token : string) (expires_in : Z)
| AuthFailed (message : string).

Inductive apiResponse (Data : Type) : Type :=
| ApiOk (data : Data)
| ApiError (status : option Z) (retryAfter : option string) (message : string).
Arguments ApiOk {Data} data.
Arguments ApiError {Data} status retryAfter message.

Inductive clientEvent : Type :=
| CallEnsureAuthenticated
| CallWaitForRateLimit
| AuthPost
| HttpGet (attempt : nat)
| Sleep (delay : jsDelay).

(** The fields of [RedditClient] that change, with the clock and the trace of
    what the client did.  Time passes in sleeps; the latency of a request is
    left at zero, and nothing below depends on it. *)
Record client : Type := mkClient {
  accessToken : option string;
  tokenExpiry : Z;
  lastRequestTime : Z;
  minRequestInterval : Z;
  now : Z;
  authRequests : nat;
  apiRequests : nat;
  events : list clientEvent
}.

(** client.js:13-22 at time [t]. *)
Definition newClient (t : Z) : client :=
  {| accessToken := None; tokenExpiry := 0; lastRequestTime := 0;
     minRequestInterval := 1000; now := t; authRequests := 0;
     apiRequests := 0; events := [] |}.

Definition emit (e : clientEvent) (c : client) : client :=
  {| accessToken := accessToken c; tokenExpiry := tokenExpiry c;
     lastRequestTime := lastRequestTime c;
     minRequestInterval := minRequestInterval c; now := now c;
     authRequests := authRequests c; apiRequests := apiRequests c;
     events := events c ++ [e] |}.

(** [await new Promise(resolve => setTimeout(resolve, d))]. *)
Definition sleep (d : jsDelay) (c : client) : client :=
  {| accessToken := accessToken c; tokenExpiry := tokenExpiry c;
     lastRequestTime := lastRequestTime c;
     minRequestInterval := minRequestInterval c;
     now := now c + timeoutMs d;
     authRequests := authRequests c; apiRequests := apiRequests c;
     events := events c ++ [Sleep d] |}.

Section Upstream.

Context {Data : Type}.

(** The answers to the [n]-th token request and to the [n]-th API request. *)
Variable authRespond : nat -> authResponse.
Variable apiRespond : nat -> apiResponse Data.

(** The arguments [url] and [retries] of [makeRequest]. *)
Variable url : string.
Variable retries : nat.

(** client.js:135. *)
Definition maxRetriesMessage : string :=
  "Max retries (" +:+ pretty retries +:+ ") exceeded for " +:+ url.

(** client.js:28-54. *)
Definition authenticate (c : client) : outcome unit * client :=
  let c1 := emit AuthPost c in
  match authRespond (authRequests c) with
  | AuthOk token expires_in =>
      (Ok tt,
       {| accessToken := Some token;
          tokenExpiry := now c1 + (expires_in - 300) * 1000;
          lastRequestTime := lastRequestTime c1;
          minRequestInterval := minRequestInterval c1; now := now c1;
          authRequests := S (authRequests c1); apiRequests := apiRequests c1;
          events := events c1 |})
  | AuthFailed message =>
      (Thrown ("Reddit authentication failed: " +:+ message),
       {| accessToken := accessToken c1; tokenExpiry := tokenExpiry c1;
          lastRequestTime := lastRequestTime c1;
          minRequestInterval := minRequestInterval c1; now := now c1;
          authRequests := S (authRequests c1); apiRequests := apiRequests c1;
          events := events c1 |})
  end.

Definition hasToken (c : client) : bool :=
  match accessToken c with
  | Some t => truthyStr t
  | None => false
  end.

(** client.js:59-63. *)
Definition ensureAuthenticated (c : client) : outcome unit * client :=
  let c1 := emit CallEnsureAuthenticated c in
  if negb (hasToken c1) || (tokenExpiry c1 <=? now c1)%Z
  then authenticate c1
  else (Ok tt, c1).

(** client.js:68-78. *)
Definition waitForRateLimit (c : client) : client :=
  let c1 := emit CallWaitForRateLimit c in
  let timeSinceLastRequest := now c1 - lastRequestTime c1 in
  let c2 :=
    if (timeSinceLastRequest <? minRequestInterval c1)%Z
    then sleep (DelayNum (minRequestInterval c1 - timeSinceLastRequest)) c1
    else c1 in
  {| accessToken := accessToken c2; tokenExpiry := tokenExpiry c2;
     lastRequestTime := now c2;
     minRequestInterval := minRequestInterval c2; now := now c2;
     authRequests := authRequests c2; apiRequests := apiRequests c2;
     events := events c2 |}.

Definition recordGet (attempt : nat) (c : client) : client :=
  {| accessToken := accessToken c; tokenExpiry := tokenExpiry c;
     lastRequestTime := lastRequestTime c;
     minRequestInterval := minRequestInterval c; now := now c;
     authRequests := authRequests c; apiRequests := S (apiRequests c);
     events := events c ++ [HttpGet attempt] |}.

(** client.js:108: [headers['retry-after'] || Math.pow(2, attempt) * 1000]. *)
Definition retryAfterDelay (header : option string) (attempt : nat) : jsDelay :=
  match header with
  | Some text =>
      if truthyStr text then DelayStr text
      else DelayNum (2 ^ Z.of_nat attempt * 1000)
  | None => DelayNum (2 ^ Z.of_nat attempt * 1000)
  end.

Definition backoffDelay (attempt : nat) : jsDelay :=
  DelayNum (2 ^ Z.of_nat attempt * 1000).

(** client.js:87-135: the [for] loop from [attempt] with [remaining] turns
    left ([retries - attempt] of them), and the [throw] after it. *)
Fixpoint requestLoop (remaining attempt : nat) (c : client)
  : outcome Data * client :=
  match remaining with
  | O => (Thrown maxRetriesMessage, c)
  | S k =>
      let c1 := recordGet attempt c in
      match apiRespond (apiRequests c) with
      | ApiOk data => (Ok data, c1)
      | ApiError status retryAfter message =>
          if VectorDB.isStatus status 429 then
            requestLoop k (S attempt)
              (sleep (retryAfterDelay retryAfter attempt) c1)
          else if VectorDB.isStatus status 401 then
            match authenticate c1 with
            | (Ok _, c2) => requestLoop k (S attempt) c2
            | (Thrown m, c2) => (Thrown m, c2)
            end
          else if VectorDB.statusAtLeast status 500 then
            requestLoop k (S attempt) (sleep (backoffDelay attempt) c1)
          else (Thrown message, c1)
      end
  end.

(** client.js:83-136. *)
Definition makeRequest (c : client) : outcome Data * client :=
  match ensureAuthenticated c with
  | (Thrown m, c1) => (Thrown m, c1)
  | (Ok _, c1) =>
      let c2 := waitForRateLimit c1 in
      requestLoop retries 0 c2
  end.

End Upstream.

(** How often an event of a kind occurs in a trace. *)
Definition isEnsure (e : clientEvent) : bool :=
  match e with CallEnsureAuthenticated => true | _ => false end.
Definition isWait (e : clientEvent) : bool :=
  match e with CallWaitForRateLimit => true | _ => false end.
Definition isGet (e : clientEvent) : bool :=
  match e with HttpGet _ => true | _ => false end.

Definition countEvents (p : clientEvent -> bool) (tr : list clientEvent) : nat :=
  length (List.filter p tr).

End Client.

(** ** Fetcher: the cutoff walk over the feed *)

Module Feed.
Import Fetcher Post.

(** A child of a feed page: its [kind] ('t3' for a post) and [data]. *)
Record feedChild : Type := mkFeedChild {
  fc_kind : string;
  fc_data : rawPost
}.

(** What [client.fetchNewPosts] yields: a page with its children (none when
    the field is missing) and the [after] token, or a thrown error. *)
Inductive pageResponse : Type :=
| PageOk (children : list feedChild) (after : option string)
| PageThrew (message : string).

(** How a run of [fetchPosts] ends.  [AwaitingPage] is the model's own: the
    loop is about to request a page beyond the responses supplied. *)
Inductive fetchOutcome : Type :=
| Fetched (posts : list redditPost)
| FetchThrew (message : string)
| AwaitingPage.

(** fetcher.js:15-28: the cutoff in epoch seconds, from the clock in
    milliseconds; [None] is the thrown 'Must specify either hours or days'.
    [hours] and [days] are whole numbers, as the command line parses them,
    and the arithmetic is that of the integers, which is what the code
    computes as long as the clock and the window are whole numbers that
    JavaScript holds exactly (below 2^53). *)
Definition calculateTimeWindow (nowMs : Z) (hours days : option Z) : option Z :=
  let truthy o := match o with Some n => negb (n =? 0)%Z | None => false end in
  if truthy hours then Some ((nowMs - default 0 hours * 60 * 60 * 1000) / 1000)
  else if truthy days then Some ((nowMs - default 0 days * 24 * 60 * 60 * 1000) / 1000)
  else None.

(** fetcher.js:129 and the two tests against it: [maxPosts] is 5 in test
    mode and [Infinity] otherwise. *)
Definition maxPosts : nat := 5.
Definition belowMax (testMode : bool) (n : nat) : bool :=
  if testMode then (n <? maxPosts)%nat else true.

(** fetcher.js:158. *)
Definition isDeletedPost (raw : rawPost) : bool :=
  String.eqb (r_author raw) "[deleted]"
  || match r_selftext raw with
     | Some t => String.eqb t "[removed]"
     | None => false
     end.

Definition truthyOpt (o : option string) : bool :=
  match o with
  | Some s => truthyStr s
  | None => false
  end.

Section Walk.

Variable subreddit : string.
Variable cutoffTime : Z.
Variable testMode : bool.

(** The answer to the [n]-th comments request of the run; one goes out per
    post pushed, so [n] is [posts.length] at the time. *)
Variable commentsRespond : nat -> commentsResponse.

(** fetcher.js:166-177. *)
Definition makeEntry (raw : rawPost) (resp : commentsResponse) : redditPost :=
  let full := extractPostData raw resp in
  {| rp_id := "reddit_post_" +:+ p_id (fst full);
     rp_source := "reddit";
     rp_subreddit := subreddit;
     rp_post := fst full;
     rp_comments := snd full;
     rp_test_mode := testMode |}.

(** fetcher.js:146-186, the [for ... of] over one page: the posts so far and
    whether [beforeReachedCutoff] was set on the way out. *)
Fixpoint scanPage (children : list feedChild) (posts : list redditPost)
  : list redditPost * bool :=
  match children with
  | [] => (posts, false)
  | postData :: rest =>
      if String.eqb (fc_kind postData) "t3" then
        if (r_created_utc (fc_data postData) <? cutoffTime)%Z then (posts, true)
        else if isDeletedPost (fc_data postData) then scanPage rest posts
        else
          let posts1 :=
            posts ++ [makeEntry (fc_data postData)
                        (commentsRespond (length posts))] in
          if testMode && negb (length posts1 <? maxPosts)%nat then (posts1, true)
          else scanPage rest posts1
      else scanPage rest posts
  end.

(** fetcher.js:138-196, the [while] loop; [requested] lists the [after]
    argument of every page request made. *)
Fixpoint pageLoop (responses : list pageResponse) (beforeReachedCutoff : bool)
  (after : option string) (posts : list redditPost)
  (requested : list (option string))
  : fetchOutcome * list (option string) :=
  if negb beforeReachedCutoff && belowMax testMode (length posts) then
    match responses with
    | [] => (AwaitingPage, requested)
    | PageThrew message :: _ => (FetchThrew message, requested ++ [after])
    | PageOk children next :: more =>
        match children with
        | [] => (Fetched posts, requested ++ [after])
        | _ :: _ =>
            let '(posts1, before1) := scanPage children posts in
            if truthyOpt next
            then pageLoop more before1 next posts1 (requested ++ [after])
            else (Fetched posts1, requested ++ [after])
        end
    end
  else (Fetched posts, requested).

(** fetcher.js:124-205, from the computed cutoff on: authenticate, then walk.
    The [catch] logs and rethrows. *)
Definition fetchPosts (authenticated : outcome unit)
  (responses : list pageResponse) : fetchOutcome * list (option string) :=
  match authenticated with
  | Thrown message => (FetchThrew message, [])
  | Ok _ => pageLoop responses false None [] []
  end.

End Walk.

End Feed.

(** ** Jobs: the registry and the run of a job *)

Module Jobs.

Inductive jobStatus : Type :=
| Pending
| Running
| Completed.

#[export] Instance jobStatus_eq_dec : EqDecision jobStatus.
Proof. solve_decision. Defined.

(** The numbers of a channel's [stats] that [startJob] adds up (the worker
    also attaches its list of errors, which is only passed on). *)
Record stats : Type := mkStats {
  s_posts : Z;
  s_comments : Z;
  s_successful : Z;
  s_failed : Z
}.

Definition zeroStats : stats :=
  {| s_posts := 0; s_comments := 0; s_successful := 0; s_failed := 0 |}.

Definition plusStats (a b : stats) : stats :=
  {| s_posts := s_posts a + s_posts b;
     s_comments := s_comments a + s_comments b;
     s_successful := s_successful a + s_successful b;
     s_failed := s_failed a + s_failed b |}.

(** An element of [job.channels].  Its [status] is 'pending', 'completed',
    'failed' or whatever a progress message carried. *)
Record channelRun : Type := mkChannelRun {
  ch_subreddit : string;
  ch_status : string;
  ch_stats : option stats;
  ch_error : option string;
  ch_postsCount : option Z
}.

Record jobParams : Type := mkJobParams {
  jp_hours : option Z;
  jp_days : option Z;
  jp_testMode : bool
}.

(** Time stamps are the clock reading they were taken at. *)
Record job : Type := mkJob {
  j_id : Z;
  j_status : jobStatus;
  j_channels : list channelRun;
  j_params : jobParams;
  j_createdAt : Z;
  j_startedAt : option Z;
  j_completedAt : option Z;
  j_totalStats : stats
}.

(** An enabled channel of the configuration. *)
Record channelConfig : Type := mkChannelConfig {
  cc_subreddit : string;
  cc_clientId : string;
  cc_clientSecret : string
}.

(** What [notifySubscribers] is called with; a summary is the job as it is
    at that moment, or null. *)
Inductive event : Type :=
| job_created (summary : option job)
| job_started (summary : option job)
| job_completed (summary : option job)
| channel_progress (jobId : Z) (subreddit status : string) (postsCount : option Z)
| channel_completed (jobId : Z) (subreddit : string) (st : stats)
| channel_error (jobId : Z) (subreddit error : string)
| job_deleted (jobId : Z).

(** [JobManager]: the [jobs] map, the id counter, and the events handed to
    [notifySubscribers], oldest first.  Every subscriber is called once with
    each of them, and what a subscriber throws is caught. *)
Record manager : Type := mkManager {
  jobs : gmap Z job;
  nextJobId : Z;
  published : list event
}.

Definition newManager : manager :=
  {| jobs := ∅; nextJobId := 1; published := [] |}.

(** jobManager.js:29-37. *)
Definition notifySubscribers (e : event) (m : manager) : manager :=
  {| jobs := jobs m; nextJobId := nextJobId m; published := published m ++ [e] |}.

(** jobManager.js:209-223. *)
Definition getJobSummary (m : manager) (jobId : Z) : option job := jobs m !! jobId.

Definition setJob (jobId : Z) (j : job) (m : manager) : manager :=
  {| jobs := <[jobId := j]> (jobs m); nextJobId := nextJobId m;
     published := published m |}.

(** jobManager.js:42-74, at clock reading [t]. *)
Definition createJob (channels : list channelConfig) (hours days : option Z)
  (testMode : bool) (t : Z) (m : manager) : Z * manager :=
  let jobId := nextJobId m in
  let j :=
    {| j_id := jobId;
       j_status := Pending;
       j_channels :=
         map (fun ch => {| ch_subreddit := cc_subreddit ch; ch_status := "pending";
                           ch_stats := None; ch_error := None;
                           ch_postsCount := None |}) channels;
       j_params := {| jp_hours := hours; jp_days := days; jp_testMode := testMode |};
       j_createdAt := t;
       j_startedAt := None;
       j_completedAt := None;
       j_totalStats := zeroStats |} in
  let m1 := {| jobs := <[jobId := j]> (jobs m); nextJobId := nextJobId m + 1;
               published := published m |} in
  (jobId, notifySubscribers (job_created (getJobSummary m1 jobId)) m1).

(** What a worker thread makes the manager see: its three messages, an
    'error' event of the thread, and its 'exit'. *)
Inductive workerEvent : Type :=
| msg_progress (subreddit status : string) (postsCount : option Z)
| msg_complete (subreddit : string) (st : stats)
| msg_error (subreddit error : string)
| thread_error (message : string)
| thread_exit (code : Z).

Definition withStatus (status : string) (ch : channelRun) : channelRun :=
  {| ch_subreddit := ch_subreddit ch; ch_status := status; ch_stats := ch_stats ch;
     ch_error := ch_error ch; ch_postsCount := ch_postsCount ch |}.
Definition withStats (st : stats) (ch : channelRun) : channelRun :=
  {| ch_subreddit := ch_subreddit ch; ch_status := ch_status ch; ch_stats := Some st;
     ch_error := ch_error ch; ch_postsCount := ch_postsCount ch |}.
Definition withError (e : string) (ch : channelRun) : channelRun :=
  {| ch_subreddit := ch_subreddit ch; ch_status := ch_status ch; ch_stats := ch_stats ch;
     ch_error := Some e; ch_postsCount := ch_postsCount ch |}.
Definition withPostsCount (n : option Z) (ch : channelRun) : channelRun :=
  {| ch_subreddit := ch_subreddit ch; ch_status := ch_status ch; ch_stats := ch_stats ch;
     ch_error := ch_error ch;
     ch_postsCount :=
       match n with
       | Some k => if (k =? 0)%Z then ch_postsCount ch else Some k
       | None => ch_postsCount ch
       end |}.

(** jobManager.js:147-202: the effect of one worker event on
    [job.channels[channelIndex]] and the event published, if any. *)
Definition handle (jobId : Z) (w : workerEvent) (ch : channelRun)
  : channelRun * list event :=
  match w with
  | msg_progress subreddit status postsCount =>
      (withPostsCount postsCount (withStatus status ch),
       [channel_progress jobId subreddit status postsCount])
  | msg_complete subreddit st =>
      (withStats st (withStatus "completed" ch),
       [channel_completed jobId subreddit st])
  | msg_error subreddit error =>
      (withError error (withStatus "failed" ch),
       [channel_error jobId subreddit error])
  | thread_error message =>
      (withError message (withStatus "failed" ch), [])
  | thread_exit code =>
      if negb (code =? 0)%Z && negb (String.eqb (ch_status ch) "completed")
      then (withError ("Worker stopped with exit code " +:+ pretty code)
              (withStatus "failed" ch), [])
      else (ch, [])
  end.

(** One worker event of the channel at [channelIndex].  The handlers write to
    [job.channels[channelIndex]]; with no such element that is a TypeError
    inside the handler, given as [None]. *)
Definition deliver (jobId : Z) (channelIndex : nat) (w : workerEvent)
  (st : list channelRun * list event) : option (list channelRun * list event) :=
  match fst st !! channelIndex with
  | Some ch =>
      let '(ch1, evs) := handle jobId w ch in
      Some (<[channelIndex := ch1]> (fst st), snd st ++ evs)
  | None => None
  end.

Fixpoint deliverAll (jobId : Z) (ws : list (nat * workerEvent))
  (st : list channelRun * list event) : option (list channelRun * list event) :=
  match ws with
  | [] => Some st
  | (i, w) :: rest =>
      match deliver jobId i w st with
      | Some st1 => deliverAll jobId rest st1
      | None => None
      end
  end.

(** jobManager.js:109-116. *)
Definition addChannel (acc : stats) (ch : channelRun) : stats :=
  match ch_stats ch with
  | Some st => plusStats acc st
  | None => acc
  end.

Inductive startOutcome : Type :=
| JobNotFound
| HandlerTypeError
| Settled (j : job) (m : manager).

(** jobManager.js:79-126.  [ws] is every event of the job's workers in the
    order the event loop saw them, up to the moment all of them have settled;
    [tStart] and [tEnd] are the clock readings for [startedAt] and
    [completedAt].  The job is in state 'running' throughout, so no
    [deleteJob] can take it out of the map meanwhile. *)
Definition startJob (jobId : Z) (ws : list (nat * workerEvent)) (tStart tEnd : Z)
  (m : manager) : startOutcome :=
  match jobs m !! jobId with
  | None => JobNotFound
  | Some j =>
      let j1 :=
        {| j_id := j_id j; j_status := Running; j_channels := j_channels j;
           j_params := j_params j; j_createdAt := j_createdAt j;
           j_startedAt := Some tStart; j_completedAt := j_completedAt j;
           j_totalStats := j_totalStats j |} in
      let m1 := setJob jobId j1 m in
      let m2 := notifySubscribers (job_started (getJobSummary m1 jobId)) m1 in
      match deliverAll jobId ws (j_channels j1, published m2) with
      | None => HandlerTypeError
      | Some (chans, evs) =>
          let j2 :=
            {| j_id := j_id j1; j_status := Completed; j_channels := chans;
               j_params := j_params j1; j_createdAt := j_createdAt j1;
               j_startedAt := j_startedAt j1; j_completedAt := Some tEnd;
               j_totalStats := fold_left addChannel chans (j_totalStats j1) |} in
          let m3 := {| jobs := <[jobId := j2]> (jobs m2); nextJobId := nextJobId m2;
                       published := evs |} in
          Settled j2 (notifySubscribers (job_completed (getJobSummary m3 jobId)) m3)
      end
  end.

(** jobManager.js:244-261. *)
Definition deleteJob (jobId : Z) (m : manager) : outcome bool * manager :=
  match jobs m !! jobId with
  | None => (Ok false, m)
  | Some j =>
      if decide (j_status j = Running)
      then (Thrown "Cannot delete a running job", m)
      else
        (Ok true,
         notifySubscribers (job_deleted jobId)
           {| jobs := delete jobId (jobs m); nextJobId := nextJobId m;
              published := published m |})
  end.

(** The element-wise sum of a list of stats. *)
Definition sumStats (l : list stats) : stats := foldr plusStats zeroStats l.

End Jobs.

(** ** Loader: the enabled channels of the configuration *)

Module Loader.

(** A value of the configuration object: [enabled] is [Some b] when the field
    holds the boolean [b] and [None] when it is missing or holds anything
    else, [platform] is the field when it is there. *)
Record channelEntry : Type := mkChannelEntry {
  ce_enabled : option bool;
  ce_platform : option string
}.

(** The configuration as [Object.entries] walks it. *)
Definition config : Type := list (string * channelEntry).

(** The variables read from [process.env]. *)
Record env : Type := mkEnv {
  REDDIT_CLIENT_ID : option string;
  REDDIT_CLIENT_SECRET : option string;
  VECTORDB_API_TOKEN : option string
}.

(** The channel objects of [getEnabledChannels]. *)
Record channel : Type := mkChannel {
  lc_subreddit : string;
  lc_platform : string;
  lc_clientId : string;
  lc_clientSecret : string
}.

Definition truthy (o : option string) : bool :=
  match o with
  | Some s => truthyStr s
  | None => false
  end.

(** loader.js, getEnabledChannels: nothing without both credentials;
    otherwise one channel per entry whose [enabled] is exactly [true]. *)
Definition getEnabledChannels (e : env) (cfg : config) : list channel :=
  match REDDIT_CLIENT_ID e, REDDIT_CLIENT_SECRET e with
  | Some clientId, Some clientSecret =>
      if negb (truthyStr clientId) || negb (truthyStr clientSecret) then []
      else
        flat_map
          (fun entry =>
             match ce_enabled (snd entry) with
             | Some true =>
                 [{| lc_subreddit := fst entry;
                     lc_platform := orOptStr (ce_platform (snd entry)) (fst entry);
                     lc_clientId := clientId;
                     lc_clientSecret := clientSecret |}]
             | _ => []
             end) cfg
  | _, _ => []
  end.

(** The argument of [validateChannelConfig], an object that may lack either
    field. *)
Record credentials : Type := mkCredentials {
  clientId : option string;
  clientSecret : option string
}.

(** loader.js, validateChannelConfig. *)
Definition validateChannelConfig (c : credentials) : outcome bool :=
  if negb (truthy (clientId c)) then Thrown "Missing required field: clientId"
  else if negb (truthy (clientSecret c)) then
    Thrown "Missing required field: clientSecret"
  else Ok true.

Definition credentialsOf (ch : channel) : credentials :=
  {| clientId := Some (lc_clientId ch); clientSecret := Some (lc_clientSecret ch) |}.

End Loader.

(** ** Names of subreddits, and the time window of a run *)

Module Names.

(** [s.startsWith('r/')]. *)
Definition startsWithR (s : string) : bool := String.prefix "r/" s.

(** client.js:11: the name the client puts into its urls. *)
Definition clientSubreddit (subreddit : string) : string :=
  if startsWithR subreddit
  then String.substring 2 (String.length subreddit - 2) subreddit
  else subreddit.

(** The name under which POST /api/channels files a channel. *)
Definition normalizedSubreddit (subreddit : string) : string :=
  if startsWithR subreddit then subreddit else "r/" +:+ subreddit.

(** client.js:142 and 160: the urls of the two listings. *)
Definition newPostsUrl (subreddit : string) : string :=
  "https://oauth.reddit.com/r/" +:+ clientSubreddit subreddit +:+ "/new.json".

Definition commentsUrl (subreddit postId : string) : string :=
  "https://oauth.reddit.com/r/" +:+ clientSubreddit subreddit +:+ "/comments/"
  +:+ postId +:+ ".json".

(** A number option is truthy when it is there and not zero. *)
Definition given (o : option Z) : bool :=
  match o with
  | Some n => negb (n =? 0)%Z
  | None => false
  end.

(** The checks on [hours] and [days] that the command line makes before
    anything runs (index.js:99-117): the message of the first check that
    fails.  The parser of the command line makes the two options whole
    numbers, or NaN, which is falsy like a missing option and given as
    [None].  POST /api/jobs makes the same checks on whatever numbers the
    request holds, fractions among them, which this type leaves out. *)
Definition windowError (hours days : option Z) : option string :=
  if negb (given hours) && negb (given days) then
    Some "Must specify either hours or days"
  else if given hours && given days then
    Some "Cannot specify both hours and days"
  else if given hours && (default 0 hours <=? 0)%Z then
    Some "hours must be a positive number"
  else if given days && (default 0 days <=? 0)%Z then
    Some "days must be a positive number"
  else None.

(** POST /api/channels, from the request body to the reply and the
    configuration written back (the file is taken to hold what was last
    written to it).  [subreddit] is the body's field when it is a string and
    [None] when it is missing or null; a body whose [subreddit] is of another
    type is not covered.  [enabledIsFalse] tells whether the body's [enabled]
    is the boolean [false]. *)
Inductive channelReply : Type :=
| ReplyError (status : Z) (error : string)
| ReplyAdded (subreddit : string) (enabled : bool).

Definition hasChannel (cfg : Loader.config) (name : string) : bool :=
  existsb (fun entry => String.eqb (fst entry) name) cfg.

Definition addChannel (subreddit : option string) (enabledIsFalse : bool)
  (cfg : Loader.config) : channelReply * Loader.config :=
  match subreddit with
  | None => (ReplyError 400 "Missing required field: subreddit", cfg)
  | Some name =>
      if negb (truthyStr name) then
        (ReplyError 400 "Missing required field: subreddit", cfg)
      else
        let normalized := normalizedSubreddit name in
        if hasChannel cfg normalized then
          (ReplyError 400 "Channel already exists", cfg)
        else
          (ReplyAdded normalized (negb enabledIsFalse),
           cfg ++ [(normalized,
                    {| Loader.ce_enabled := Some (negb enabledIsFalse);
                       Loader.ce_platform := None |})])
  end.

End Names.

(** ** Worker: one channel from fetch to report *)

Module Worker.
Import Post VectorDB Feed Jobs.

(** [workerData] as the worker destructures it; [platform] is what the
    thread was given under that name, if anything. *)
Record workerData : Type := mkWorkerData {
  wd_clientId : string;
  wd_clientSecret : string;
  wd_subreddit : string;
  wd_platform : option string;
  wd_hours : option Z;
  wd_days : option Z;
  wd_testMode : bool
}.

(** The [workerData] both launchers build (jobManager.js:136-145 and
    index.js:26-35): the channel's credentials and name and the run's
    parameters, and no [platform]. *)
Definition workerDataFor (ch : Loader.channel) (hours days : option Z)
  (testMode : bool) : workerData :=
  {| wd_clientId := Loader.lc_clientId ch;
     wd_clientSecret := Loader.lc_clientSecret ch;
     wd_subreddit := Loader.lc_subreddit ch;
     wd_platform := None;
     wd_hours := hours;
     wd_days := days;
     wd_testMode := testMode |}.

(** What GET /health yields. *)
Inductive healthResponse : Type :=
| HealthOk (status : string)
| HealthThrew (message : string).

(** vectordb.js:229-243. *)
Definition testConnection (h : healthResponse) : bool :=
  match h with
  | HealthOk status => String.eqb status "healthy"
  | HealthThrew _ => false
  end.

(** vectordb.js:7-16, called without arguments: the token comes from the
    environment and must be there. *)
Definition newVectorDB (token : option string) : outcome unit :=
  if Loader.truthy token then Ok tt
  else Thrown "Vector DB API token is required. Set VECTORDB_API_TOKEN environment variable.".

(** fetcher.js:124-205 with its first line: the cutoff is computed from the
    clock, which throws when neither [hours] nor [days] is given. *)
Definition fetchPostsSince (nowMs : Z) (subreddit : string) (hours days : option Z)
  (testMode : bool) (commentsRespond : nat -> commentsResponse)
  (authenticated : outcome unit) (responses : list pageResponse)
  : fetchOutcome * list (option string) :=
  match calculateTimeWindow nowMs hours days with
  | None => (FetchThrew "Must specify either hours or days", [])
  | Some cutoffTime =>
      fetchPosts subreddit cutoffTime testMode commentsRespond authenticated responses
  end.

(** Everything outside the worker that its run depends on. *)
Record world : Type := mkWorld {
  w_now : Z;
  w_token : option string;
  w_authenticated : outcome unit;
  w_pages : list pageResponse;
  w_comments : nat -> commentsResponse;
  w_health : healthResponse;
  w_store : nat -> storeResponse
}.

(** What a run leaves behind: the messages posted to the parent, how often
    the store's health was asked, and the trace of the ingestion. *)
Record run : Type := mkRun {
  messages : list workerEvent;
  healthChecks : nat;
  store : storeState
}.

(** The numbers of the 'complete' message (its list of errors is passed on
    as it is). *)
Definition statsOf (res : results) : stats :=
  {| s_posts := posts res; s_comments := comments res;
     s_successful := successful res; s_failed := failed res |}.

(** channelWorker.js:11-101.  [None] is the model's own: the feed responses
    supplied ran out before the fetch was over. *)
Definition processChannel (wd : workerData) (w : world) : option run :=
  let subreddit := wd_subreddit wd in
  let opening := [msg_progress subreddit "started" None;
                  msg_progress subreddit "fetching" None] in
  let failure message checks :=
    Some {| messages := opening ++ [msg_error subreddit message];
            healthChecks := checks; store := initialStore |} in
  match fst (fetchPostsSince (w_now w) subreddit (wd_hours wd) (wd_days wd)
               (wd_testMode wd) (w_comments w) (w_authenticated w) (w_pages w)) with
  | AwaitingPage => None
  | FetchThrew message => failure message 0%nat
  | Fetched [] =>
      Some {| messages := opening ++ [msg_complete subreddit zeroStats];
              healthChecks := 0; store := initialStore |}
  | Fetched ((_ :: _) as fetched) =>
      match newVectorDB (w_token w) with
      | Thrown message => failure message 0%nat
      | Ok _ =>
          if testConnection (w_health w) then
            let out := ingestPosts (w_store w) fetched (wd_platform wd) initialStore in
            Some {| messages :=
                      opening
                      ++ [msg_progress subreddit "ingesting"
                            (Some (Z.of_nat (length fetched)));
                          msg_complete subreddit (statsOf (snd out))];
                    healthChecks := 1; store := fst out |}
          else failure "Vector DB connection test failed" 1%nat
      end
  end.

End Worker.

(** ** Cli: the command line run and its summary *)

Module Cli.
Import Jobs.

(** [result] of index.js:37-42. *)
Record result : Type := mkResult {
  r_subreddit : string;
  r_success : bool;
  r_stats : option stats;
  r_error : option string
}.

(** The promise of [runChannelWorker]: not settled yet, resolved with the
    [result] object (which later handlers still write to), or rejected. *)
Inductive promiseState : Type :=
| Unsettled
| Resolved
| Rejected (message : string).

(** [resolve] and [reject] have an effect on an unsettled promise only. *)
Definition settle (to : promiseState) (p : promiseState) : promiseState :=
  match p with
  | Unsettled => to
  | _ => p
  end.

(** index.js:44-76, one event of the worker thread. *)
Definition onEvent (st : result * promiseState) (w : workerEvent)
  : result * promiseState :=
  let '(r, p) := st in
  match w with
  | msg_progress _ _ _ => (r, p)
  | msg_complete _ stats =>
      ({| r_subreddit := r_subreddit r; r_success := true;
          r_stats := Some stats; r_error := r_error r |}, p)
  | msg_error _ error =>
      ({| r_subreddit := r_subreddit r; r_success := r_success r;
          r_stats := r_stats r; r_error := Some error |}, p)
  | thread_error message =>
      ({| r_subreddit := r_subreddit r; r_success := r_success r;
          r_stats := r_stats r; r_error := Some message |},
       settle (Rejected message) p)
  | thread_exit code =>
      if negb (code =? 0)%Z && negb (Loader.truthy (r_error r)) then
        let message := "Worker stopped with exit code " +:+ pretty code in
        ({| r_subreddit := r_subreddit r; r_success := r_success r;
            r_stats := r_stats r; r_error := Some message |},
         settle (Rejected message) p)
      else (r, settle Resolved p)
  end.

(** index.js:22-77 over the events of the thread, in order. *)
Definition runChannelWorker (subreddit : string) (ws : list workerEvent)
  : result * promiseState :=
  fold_left onEvent ws
    ({| r_subreddit := subreddit; r_success := false; r_stats := None;
        r_error := None |}, Unsettled).

(** An entry of what [Promise.allSettled] returns. *)
Inductive settled : Type :=
| Fulfilled (value : result)
| RejectedWith (reason : string).

(** The entry for a worker, once its promise is settled. *)
Definition settledOf (st : result * promiseState) : option settled :=
  match snd st with
  | Unsettled => None
  | Resolved => Some (Fulfilled (fst st))
  | Rejected message => Some (RejectedWith message)
  end.

(** The counters of index.js:169-174. *)
Record summary : Type := mkSummary {
  totals : stats;
  successfulChannels : nat;
  failedChannels : nat
}.

Definition emptySummary : summary :=
  {| totals := zeroStats; successfulChannels := 0; failedChannels := 0 |}.

(** index.js:176-203, one result; [None] is the TypeError of reading the
    numbers of a missing [stats]. *)
Definition count (acc : option summary) (r : settled) : option summary :=
  match acc with
  | None => None
  | Some a =>
      let failedOne :=
        Some {| totals := totals a; successfulChannels := successfulChannels a;
                failedChannels := S (failedChannels a) |} in
      match r with
      | Fulfilled value =>
          if r_success value then
            match r_stats value with
            | Some st =>
                Some {| totals := plusStats (totals a) st;
                        successfulChannels := S (successfulChannels a);
                        failedChannels := failedChannels a |}
            | None => None
            end
          else failedOne
      | RejectedWith _ => failedOne
      end
  end.

Definition summarize (results : list settled) : option summary :=
  fold_left count results (Some emptySummary).

(** index.js:212-226: the exit code after the summary; an exception on the
    way is caught as a fatal error. *)
Definition exitCode (results : list settled) : Z :=
  match summarize results with
  | None => 1
  | Some s => if (failedChannels s =? length results)%nat then 1 else 0
  end.

End Cli.

(** * The vocabulary of the statements *)

Module Spec.
Import Fetcher Post VectorDB.

(** The replies of a tree in depth-first order: a reply, then the replies
    below it, then its later siblings. *)
Fixpoint preorderFrom (c : comment) : list comment :=
  c :: flat_map preorderFrom (c_replies c).

Definition preorder (comments : list comment) : list comment :=
  flat_map preorderFrom comments.

(** The same walk, each reply paired with the id of the reply it sits under,
    if any. *)
Fixpoint withParentFrom (parent : option string) (c : comment)
  : list (option string * comment) :=
  match c with
  | Comment id _ _ _ _ _ _ _ replies =>
      (parent, c) :: flat_map (withParentFrom (Some id)) replies
  end.

Definition withParent (comments : list comment) : list (option string * comment) :=
  flat_map (withParentFrom None) comments.

(** The reply ids in the words of the specification: [replyId] directly
    under the root, [rootItemId_replyId] when nested under another reply. *)
Fixpoint replyIdsFrom (rootItemId : string) (nested : bool) (c : comment)
  : list string :=
  match c with
  | Comment id _ _ _ _ _ _ _ replies =>
      (if nested then underscoreJoin rootItemId id else id)
      :: flat_map (replyIdsFrom rootItemId true) replies
  end.

Definition replyIds (rootItemId : string) (comments : list comment) : list string :=
  flat_map (replyIdsFrom rootItemId false) comments.

(** A time in epoch seconds that [toISOString] accepts once it is put in
    milliseconds. *)
Definition validDate (seconds : Z) : bool :=
  (- MAX_DATE <=? seconds * 1000)%Z && (seconds * 1000 <=? MAX_DATE)%Z.

(** The times of a post and of every reply below it are such. *)
Definition timesValid (rp : redditPost) : bool :=
  validDate (p_created_utc (rp_post rp))
  && forallb (fun c => validDate (c_created_utc c)) (preorder (rp_comments rp)).

(** The document of the post and the document of a reply, the latter given
    the id of the reply it sits under. *)
Definition rootDoc (rp : redditPost) (platformName : option string) : document :=
  postItem rp platformName (p_created_utc (rp_post rp) * 1000).

Definition replyDoc (postId platform : string) (pc : option string * comment)
  : document :=
  commentItem postId platform (fst pc) (snd pc) (c_created_utc (snd pc) * 1000).

(** Whether a character of the string is an underscore. *)
Fixpoint hasUnderscore (s : string) : bool :=
  match s with
  | EmptyString => false
  | String c rest => Ascii.eqb c "_" || hasUnderscore rest
  end.

(** What the test on [parentCommentId] at vectordb.js:65 sees as nested:
    a parent whose id is a non-empty string. *)
Definition nestedUnder (parent : option string) : bool :=
  match parent with
  | Some p => truthyStr p
  | None => false
  end.

(** The store answered 401 or 403. *)
Definition isAuthStatus (r : storeResponse) : bool :=
  match r with
  | StoreOk _ _ => false
  | StoreError status _ _ => isStatus status 401 || isStatus status 403
  end.

(** A post is in the window of a cutoff when it was created at or after it. *)
Definition inWindow (cutoffTime : Z) (rp : redditPost) : Prop :=
  cutoffTime <= p_created_utc (rp_post rp).

(** "Before each HTTP attempt both calls are made": scanning a trace, every
    [HttpGet] must have seen [ensureAuthenticated] and [waitForRateLimit]
    since the previous [HttpGet] (or since the start). *)
Fixpoint guardedGets (ensured waited : bool) (tr : list Client.clientEvent) : bool :=
  match tr with
  | [] => true
  | Client.CallEnsureAuthenticated :: rest => guardedGets true waited rest
  | Client.CallWaitForRateLimit :: rest => guardedGets ensured true rest
  | Client.HttpGet _ :: rest => ensured && waited && guardedGets false false rest
  | _ :: rest => guardedGets ensured waited rest
  end.



(** The shape of the attempts of one call, from the request numbered [n] and
    the attempt numbered [a] on: an attempt is followed by another one only
    after a new token was asked for, when it was answered 401, or after a
    sleep, when it was answered 429 or 5xx; and by nothing else. *)
Inductive retryTrace {Data : Type} (apiRespond : nat -> Client.apiResponse Data)
  : nat -> nat -> list Client.clientEvent -> Prop :=
| rt_done n a : retryTrace apiRespond n a []
| rt_last n a : retryTrace apiRespond n a [Client.HttpGet a]
| rt_unauthorized n a status header message rest :
    apiRespond n = Client.ApiError status header message ->
    isStatus status 401 = true ->
    (rest = [] \/ exists next, rest = Client.HttpGet (S a) :: next) ->
    retryTrace apiRespond (S n) (S a) rest ->
    retryTrace apiRespond n a (Client.HttpGet a :: Client.AuthPost :: rest)
| rt_waited n a status header message delay rest :
    apiRespond n = Client.ApiError status header message ->
    isStatus status 429 || statusAtLeast status 500 = true ->
    (rest = [] \/ exists next, rest = Client.HttpGet (S a) :: next) ->
    retryTrace apiRespond (S n) (S a) rest ->
    retryTrace apiRespond n a (Client.HttpGet a :: Client.Sleep delay :: rest).

End Spec.

(** * Sample data *)

Section Samples.
Import Fetcher Post VectorDB Client Feed Jobs.

(** A live reply "c1" ... *)
Definition liveReply : jsThing :=
  T1 "c1" "alice" "still here" 5 101 "/r/x/comments/1/_/c1" "t1_p1" Absent.

(** ... below a removed comment "p1", the only child of its listing. *)
Definition removedParent : jsThing :=
  T1 "p1" "[deleted]" "[removed]" 0 100 "/r/x/comments/1/_/p1" "t3_1"
     (Object "Listing" [liveReply]).

Definition removedParentListing : jsListing := Object "Listing" [removedParent].

(** A post with two top-level replies, the first of which has a reply. *)
Definition sampleComments : list comment :=
  [Comment "k1" "ann" "first" 3 1700000100 0 "/r/x/comments/abc/_/k1" "t3_abc"
     [Comment "k2" "bob" "nested" 1 1700000200 1 "/r/x/comments/abc/_/k2" "t1_k1" []];
   Comment "k3" "cy" "second" 2 1700000300 0 "/r/x/comments/abc/_/k3" "t3_abc" []].

Definition samplePost : redditPost :=
  {| rp_id := "reddit_post_abc";
     rp_source := "reddit";
     rp_subreddit := "r/x";
     rp_post :=
       {| p_id := "abc"; p_title := "A title"; p_author := "op"; p_content := "";
          p_url := "https://reddit.com/r/x/comments/abc/a_title";
          p_created_utc := 1700000000; p_score := 10; p_num_comments := 3;
          p_awards := 0; p_flair := ""; p_is_self := false;
          p_domain := "example.org" |};
     rp_comments := sampleComments;
     rp_test_mode := false |}.

(** A post "a" whose replies have the ids "a_b", "c" and, below "c", "b":
    four nodes with four different ids. *)
Definition collidingPost : redditPost :=
  {| rp_id := "reddit_post_a";
     rp_source := "reddit";
     rp_subreddit := "r/x";
     rp_post :=
       {| p_id := "a"; p_title := "t"; p_author := "op"; p_content := "";
          p_url := "https://reddit.com/r/x/comments/a/t";
          p_created_utc := 1700000000; p_score := 1; p_num_comments := 3;
          p_awards := 0; p_flair := ""; p_is_self := true; p_domain := "self.x" |};
     rp_comments :=
       [Comment "a_b" "u1" "x" 1 1700000001 0 "/p1" "t3_a" [];
        Comment "c" "u2" "y" 1 1700000002 0 "/p2" "t3_a"
          [Comment "b" "u3" "z" 1 1700000003 1 "/p3" "t1_c" []]];
     rp_test_mode := false |}.

(** A store that rejects the first request with a 401 and accepts every
    later one. *)
Definition rejectsFirst (n : nat) : storeResponse :=
  match n with
  | O => StoreError (Some 401) "Request failed with status code 401" ""
  | S _ => StoreOk "base" 1
  end.

(** A token endpoint that always grants a token for an hour. *)
Definition grantsToken (n : nat) : authResponse := AuthOk "token" 3600.

(** The url of the listing of new posts of "r/x". *)
Definition newUrl : string := "https://oauth.reddit.com/r/x/new.json".

(** An API that answers the first request with a 500 and the next ones with
    a body. *)
Definition failsOnce (n : nat) : apiResponse string :=
  match n with
  | O => ApiError (Some 500) None "Request failed with status code 500"
  | S _ => ApiOk "body"
  end.

(** An API that answers the first request with a 429 whose retry-after
    header is "2", and the next ones with a body. *)
Definition limitsOnce (n : nat) : apiResponse string :=
  match n with
  | O => ApiError (Some 429) (Some "2") "Request failed with status code 429"
  | S _ => ApiOk "body"
  end.

(** A text post of the feed with the given id and creation time. *)
Definition feedPost (id : string) (created : Z) : feedChild :=
  {| fc_kind := "t3";
     fc_data := {| r_id := id; r_title := "title of " +:+ id; r_author := "op";
                   r_selftext := Some "text"; r_permalink := "/r/x/comments/" +:+ id;
                   r_created_utc := created; r_score := 1; r_num_comments := 0;
                   r_all_awardings := None; r_link_flair_text := None;
                   r_is_self := true; r_domain := "self.x" |} |}.

(** A newest-first feed of three pages crossing the cutoff 100 on its second
    page: the page before, the page split at "p3", the page after. *)
Definition sampleFeed : list pageResponse :=
  [PageOk [feedPost "p1" 200] (Some "t3_p1")]
  ++ PageOk ([feedPost "p2" 150] ++ feedPost "p3" 50 :: [feedPost "p4" 40])
       (Some "t3_p4")
  :: [PageOk [feedPost "p5" 30] None].

(** Every comments request comes back with an empty array. *)
Definition noComments (n : nat) : commentsResponse := CommentsOk [].

(** The post ids of a returned fetch. *)
Definition postIds (out : fetchOutcome) : list string :=
  match out with
  | Fetched posts => map (fun rp => p_id (rp_post rp)) posts
  | _ => []
  end.

(** Two enabled channels. *)
Definition twoChannels : list channelConfig :=
  [{| cc_subreddit := "r/alpha"; cc_clientId := "id1"; cc_clientSecret := "s1" |};
   {| cc_subreddit := "r/beta"; cc_clientId := "id2"; cc_clientSecret := "s2" |}].

(** The registry after one [createJob]. *)
Definition oneJob : manager :=
  snd (createJob twoChannels (Some 24) None false 5 newManager).

(** The job that registry holds under id 1. *)
Definition createdJob : job :=
  {| j_id := 1; j_status := Pending;
     j_channels :=
       [{| ch_subreddit := "r/alpha"; ch_status := "pending"; ch_stats := None;
           ch_error := None; ch_postsCount := None |};
        {| ch_subreddit := "r/beta"; ch_status := "pending"; ch_stats := None;
           ch_error := None; ch_postsCount := None |}];
     j_params := {| jp_hours := Some 24; jp_days := None; jp_testMode := false |};
     j_createdAt := 5; j_startedAt := None; j_completedAt := None;
     j_totalStats := zeroStats |}.

(** The first channel ingests two posts and three comments, one document
    failing; the second channel fails. *)
Definition mixedRun : list (nat * workerEvent) :=
  [(0%nat, msg_progress "r/alpha" "started" None);
   (1%nat, msg_progress "r/beta" "started" None);
   (1%nat, msg_error "r/beta" "Reddit authentication failed: 401");
   (0%nat, msg_progress "r/alpha" "ingesting" (Some 2));
   (1%nat, thread_exit 0);
   (0%nat, msg_complete "r/alpha"
             {| s_posts := 2; s_comments := 3; s_successful := 5; s_failed := 1 |});
   (0%nat, thread_exit 0)].

(** A link post as the feed gives it: no text of its own. *)
Definition linkPost : rawPost :=
  {| r_id := "lnk"; r_title := "Look at this"; r_author := "op";
     r_selftext := Some ""; r_permalink := "/r/x/comments/lnk/look_at_this";
     r_created_utc := 1700000000; r_score := 7; r_num_comments := 0;
     r_all_awardings := None; r_link_flair_text := None; r_is_self := false;
     r_domain := "example.org" |}.

(** That post as fetched, with no comments. *)
Definition linkEntry : redditPost :=
  Feed.makeEntry "r/x" false linkPost (CommentsOk []).

End Samples.

(** * Further vocabulary *)

Module Terms.
Import Fetcher Post VectorDB.

(** The ids of all comments ('t1' children) of the upstream tree, removed or
    not, in document order. *)
Fixpoint rawIds (l : jsListing) : list string :=
  match l with
  | Absent => []
  | Object _ children =>
      (fix walk (items : list jsThing) : list string :=
         match items with
         | [] => []
         | T1 id _ _ _ _ _ _ replies :: rest => id :: rawIds replies ++ walk rest
         | _ :: rest => walk rest
         end) children
  end.

Fixpoint rawItemIds (items : list jsThing) : list string :=
  match items with
  | [] => []
  | T1 id _ _ _ _ _ _ replies :: rest => id :: rawIds replies ++ rawItemIds rest
  | _ :: rest => rawItemIds rest
  end.

(** A tree in which every listing has kind 'Listing' and no comment is
    marked removed or deleted. *)
Fixpoint cleanListing (l : jsListing) : bool :=
  match l with
  | Absent => true
  | Object kind children =>
      String.eqb kind "Listing"
      && (fix walk (items : list jsThing) : bool :=
            match items with
            | [] => true
            | T1 _ author body _ _ _ _ replies :: rest =>
                negb (isDeletedComment author body) && cleanListing replies
                && walk rest
            | _ :: rest => walk rest
            end) children
  end.

Fixpoint cleanItems (items : list jsThing) : bool :=
  match items with
  | [] => true
  | T1 _ author body _ _ _ _ replies :: rest =>
      negb (isDeletedComment author body) && cleanListing replies && cleanItems rest
  | _ :: rest => cleanItems rest
  end.

(** A fetched comment whose [depth] is [d] and whose replies, all the way
    down, are each one deeper than their parent. *)
Fixpoint depthFrom (d : nat) (c : comment) : bool :=
  match c with
  | Comment _ _ _ _ _ depth _ _ replies =>
      Nat.eqb depth d && forallb (depthFrom (S d)) replies
  end.

(** A fetched comment that is not marked removed or deleted, and neither is
    any reply below it. *)
Fixpoint liveComment (c : comment) : bool :=
  match c with
  | Comment _ author body _ _ _ _ _ replies =>
      negb (isDeletedComment author body) && forallb liveComment replies
  end.

(** The documents built for a post: none when the transformation throws. *)
Definition emitted (rp : redditPost) (platformName : option string) : list document :=
  match transformPostToVectorFormat rp platformName with
  | Ok items => items
  | Thrown _ => []
  end.

(** The documents of a batch, post by post. *)
Definition documentsOf (redditPosts : list redditPost) (platformName : option string)
  : list document :=
  flat_map (fun rp => emitted rp platformName) redditPosts.

(** The posts of a batch that hold a time [toISOString] refuses, and the
    entry that [ingestPosts] records for such a post. *)
Definition undated (redditPosts : list redditPost) : list redditPost :=
  List.filter (fun rp => negb (Spec.timesValid rp)) redditPosts.

Definition undatedEntry (rp : redditPost) : errorEntry :=
  {| e_id := p_id (rp_post rp); e_error := Some invalidTimeMessage;
     e_details := None |}.

(** The store answered 429 or a 5xx: what [ingestItem] retries. *)
Definition isRetryable (r : storeResponse) : bool :=
  match r with
  | StoreOk _ _ => false
  | StoreError status _ _ => isStatus status 429 || statusAtLeast status 500
  end.

(** The tally is consistent: successes split into posts and comments, and
    there is one recorded error per failure. *)
Definition consistent (res : results) : Prop :=
  successful res = posts res + comments res
  /\ failed res = Z.of_nat (length (errors res))
  /\ 0 <= posts res /\ 0 <= comments res.

(** How many of the documents are comments. *)
Definition commentDocs (items : list document) : nat :=
  length (List.filter d_isComment items).

(** The ids of the posts ('t3' children) that a sequence of feed responses
    holds, in feed order. *)
Definition pagePostIds (children : list Feed.feedChild) : list string :=
  flat_map (fun child =>
              if String.eqb (Feed.fc_kind child) "t3"
              then [r_id (Feed.fc_data child)] else []) children.

Definition feedPostIds (responses : list Feed.pageResponse) : list string :=
  flat_map (fun resp =>
              match resp with
              | Feed.PageOk children _ => pagePostIds children
              | Feed.PageThrew _ => []
              end) responses.

(** An entry as [fetchPosts] builds them for a subreddit: tagged with it,
    named after its post, and not a post marked deleted or removed. *)
Definition entryOf (subreddit : string) (testMode : bool) (rp : redditPost) : Prop :=
  rp_id rp = "reddit_post_" +:+ p_id (rp_post rp)
  /\ rp_source rp = "reddit"
  /\ rp_subreddit rp = subreddit
  /\ rp_test_mode rp = testMode
  /\ p_author (rp_post rp) <> "[deleted]"
  /\ p_content (rp_post rp) <> "[removed]".

(** The id of the post of an entry. *)
Definition postIdOf (rp : redditPost) : string := p_id (rp_post rp).

(** Two runs of [fetchPosts] that end the same way with the same posts,
    whatever comments were attached. *)
Definition samePosts (a b : Feed.fetchOutcome) : Prop :=
  match a, b with
  | Feed.Fetched xs, Feed.Fetched ys =>
      map rp_post xs = map rp_post ys /\ map rp_id xs = map rp_id ys
  | Feed.FetchThrew m, Feed.FetchThrew m' => m = m'
  | Feed.AwaitingPage, Feed.AwaitingPage => True
  | _, _ => False
  end.

(** The API answered 429 or a 5xx: what [makeRequest] waits on and retries. *)
Definition isTransient {Data : Type} (r : Client.apiResponse Data) : bool :=
  match r with
  | Client.ApiOk _ => false
  | Client.ApiError status _ _ => isStatus status 429 || statusAtLeast status 500
  end.

(** The API answered a 5xx. *)
Definition isServerError {Data : Type} (r : Client.apiResponse Data) : bool :=
  match r with
  | Client.ApiOk _ => false
  | Client.ApiError status _ _ => statusAtLeast status 500
  end.

(** The API answered 401. *)
Definition isUnauthorized {Data : Type} (r : Client.apiResponse Data) : bool :=
  match r with
  | Client.ApiOk _ => false
  | Client.ApiError status _ _ => isStatus status 401
  end.

(** The API failed in a way [makeRequest] does not retry: neither 429 nor
    401 nor a 5xx (a 404, say, or a network failure without a status). *)
Definition isFinal {Data : Type} (r : Client.apiResponse Data) : bool :=
  match r with
  | Client.ApiOk _ => false
  | Client.ApiError status _ _ =>
      negb (isStatus status 429) && negb (isStatus status 401)
      && negb (statusAtLeast status 500)
  end.

(** The token endpoint granted a token. *)
Definition isGranted (r : Client.authResponse) : bool :=
  match r with
  | Client.AuthOk _ _ => true
  | Client.AuthFailed _ => false
  end.

(** The registry numbers its jobs: every job sits under its own id, below
    the next id to be given out. *)
Definition wellNumbered (m : Jobs.manager) : Prop :=
  forall k j, Jobs.jobs m !! k = Some j -> Jobs.j_id j = k /\ k < Jobs.nextJobId m.

(** What the manager publishes for an event of a worker of a job. *)
Definition announced (jobId : Z) (w : Jobs.workerEvent) : list Jobs.event :=
  match w with
  | Jobs.msg_progress subreddit status postsCount =>
      [Jobs.channel_progress jobId subreddit status postsCount]
  | Jobs.msg_complete subreddit st => [Jobs.channel_completed jobId subreddit st]
  | Jobs.msg_error subreddit error => [Jobs.channel_error jobId subreddit error]
  | Jobs.thread_error _ => []
  | Jobs.thread_exit _ => []
  end.

(** The messages that end a worker's report: 'complete' and 'error'. *)
Definition isTerminal (w : Jobs.workerEvent) : bool :=
  match w with
  | Jobs.msg_complete _ _ => true
  | Jobs.msg_error _ _ => true
  | _ => false
  end.

(** The subreddit a message of a worker names. *)
Definition messageSubreddit (w : Jobs.workerEvent) : option string :=
  match w with
  | Jobs.msg_progress subreddit _ _ => Some subreddit
  | Jobs.msg_complete subreddit _ => Some subreddit
  | Jobs.msg_error subreddit _ => Some subreddit
  | _ => None
  end.

(** A channel run after a sequence of events of its worker. *)
Definition channelAfter (jobId : Z) (ws : list Jobs.workerEvent) (ch : Jobs.channelRun)
  : Jobs.channelRun :=
  fold_left (fun c w => fst (Jobs.handle jobId w c)) ws ch.

(** The store accepted the request. *)
Definition isAccepted (r : storeResponse) : bool :=
  match r with
  | StoreOk _ _ => true
  | StoreError _ _ _ => false
  end.

(** A whole number that JavaScript's numbers hold exactly. *)
Definition safeInteger (n : Z) : Prop :=
  - 9007199254740991 <= n <= 9007199254740991.

(** The documents that were counted, as a success or as a failure. *)
Definition handled (res : results) : Z := successful res + failed res.

(** The progress messages of a worker. *)
Definition isProgress (w : Jobs.workerEvent) : bool :=
  match w with
  | Jobs.msg_progress _ _ _ => true
  | _ => false
  end.

(** The entries the summary of the command line counts as successful
    channels, and the stats it adds up for them. *)
Definition isSuccess (r : Cli.settled) : bool :=
  match r with
  | Cli.Fulfilled value => Cli.r_success value
  | Cli.RejectedWith _ => false
  end.

Definition successStats (r : Cli.settled) : list Jobs.stats :=
  match r with
  | Cli.Fulfilled value =>
      if Cli.r_success value then option_list (Cli.r_stats value) else []
  | Cli.RejectedWith _ => []
  end.

(** The entry of the command line for a worker whose thread exits with
    [code] after its report. *)
Definition cliEntry (wd : Worker.workerData) (r : Worker.run) (code : Z)
  : option Cli.settled :=
  Cli.settledOf
    (Cli.runChannelWorker (Worker.wd_subreddit wd)
       (Worker.messages r ++ [Jobs.thread_exit code])).

End Terms.

(** * Further sample data *)

Section MoreSamples.
Import Fetcher Post VectorDB Client Feed Jobs Worker.

(** An API that is down: every request gets a 503. *)
Definition serverDown (n : nat) : apiResponse string :=
  ApiError (Some 503) None "Request failed with status code 503".

(** An API that turns every token down. *)
Definition turnsDown (n : nat) : apiResponse string :=
  ApiError (Some 401) None "Request failed with status code 401".

(** A store that accepts everything. *)
Definition acceptsAll (n : nat) : storeResponse := StoreOk "base" 1.

(** A channel of the configuration, with a platform of its own. *)
Definition alphaChannel : Loader.channel :=
  {| Loader.lc_subreddit := "r/alpha"; Loader.lc_platform := "Alpha";
     Loader.lc_clientId := "id"; Loader.lc_clientSecret := "secret" |}.

(** Its worker, launched for the last hour. *)
Definition alphaWorker : workerData := workerDataFor alphaChannel (Some 1) None false.

(** A world in which everything works; the clock is such that the cutoff of
    the last hour is 100, which [sampleFeed] crosses on its second page. *)
Definition quietWorld : world :=
  {| w_now := 3700000; w_token := Some "token"; w_authenticated := Ok tt;
     w_pages := sampleFeed; w_comments := noComments;
     w_health := HealthOk "healthy"; w_store := acceptsAll |}.

(** The same world with the store unhealthy. *)
Definition unhealthyWorld : world :=
  {| w_now := 3700000; w_token := Some "token"; w_authenticated := Ok tt;
     w_pages := sampleFeed; w_comments := noComments;
     w_health := HealthOk "degraded"; w_store := acceptsAll |}.

(** A post "p" with a reply whose id is the empty string, holding the reply
    "r1". *)
Definition emptyIdPost : redditPost :=
  {| rp_id := "reddit_post_p";
     rp_source := "reddit";
     rp_subreddit := "r/x";
     rp_post :=
       {| p_id := "p"; p_title := "t"; p_author := "op"; p_content := "";
          p_url := "https://reddit.com/r/x/comments/p/t";
          p_created_utc := 1700000000; p_score := 1; p_num_comments := 2;
          p_awards := 0; p_flair := ""; p_is_self := true; p_domain := "self.x" |};
     rp_comments :=
       [Comment "" "u1" "x" 1 1700000001 0 "/p1" "t3_p"
          [Comment "r1" "u2" "y" 1 1700000002 1 "/p2" "t1_" []]];
     rp_test_mode := false |}.

(** A post without comments whose time lies beyond the last [Date]. *)
Definition undatedPost : redditPost :=
  {| rp_id := "reddit_post_late";
     rp_source := "reddit";
     rp_subreddit := "r/x";
     rp_post :=
       {| p_id := "late"; p_title := "t"; p_author := "op"; p_content := "";
          p_url := "https://reddit.com/r/x/comments/late/t";
          p_created_utc := 8640000000001; p_score := 1; p_num_comments := 0;
          p_awards := 0; p_flair := ""; p_is_self := true; p_domain := "self.x" |};
     rp_comments := [];
     rp_test_mode := false |}.

(** A link post whose title is the empty string. *)
Definition untitledLink : rawPost :=
  {| r_id := "lnk0"; r_title := ""; r_author := "op";
     r_selftext := Some ""; r_permalink := "/r/x/comments/lnk0/";
     r_created_utc := 1700000000; r_score := 7; r_num_comments := 0;
     r_all_awardings := None; r_link_flair_text := None; r_is_self := false;
     r_domain := "example.org" |}.

(** A configuration of one channel. *)
Definition oneChannelConfig : Loader.config :=
  [("r/alpha", {| Loader.ce_enabled := Some true; Loader.ce_platform := Some "Alpha" |})].

(** The settled promises of a run of two channels, the second one failed. *)
Definition twoSettled : list Cli.settled :=
  [Cli.Fulfilled
     {| Cli.r_subreddit := "r/alpha"; Cli.r_success := true;
        Cli.r_stats := Some {| s_posts := 2; s_comments := 3; s_successful := 5;
                               s_failed := 1 |};
        Cli.r_error := None |};
   Cli.Fulfilled
     {| Cli.r_subreddit := "r/beta"; Cli.r_success := false; Cli.r_stats := None;
        Cli.r_error := Some "Reddit authentication failed: 401" |}].

End MoreSamples.

(** * Properties *)

(** ** Flattening the comment tree *)

Section FlattenComments.
Import Fetcher.

Lemma flattenItems_app (xs ys : list jsThing) (depth : nat) :
  flattenItems (xs ++ ys) depth = flattenItems xs depth ++ flattenItems ys depth.
Proof.
  induction xs as [|x xs IH]; [reflexivity|].
  destruct x; simpl; rewrite IH; try reflexivity.
  destruct (isDeletedComment author body); reflexivity.
Qed.

(** A listing with a live comment holding a reply, a placeholder and a
    removed comment: the first comes out with its reply nested one level
    deeper, the other two leave no trace. *)
Example flatten_sample :
  flattenComments
    (Object "Listing"
       [T1 "k1" "ann" "first" 3 100 "/k1" "t3_abc"
          (Object "Listing" [T1 "k2" "bob" "nested" 1 101 "/k2" "t1_k1" Absent]);
        More 12;
        removedParent]) 0
  = [Comment "k1" "ann" "first" 3 100 0 "/k1" "t3_abc"
       [Comment "k2" "bob" "nested" 1 101 1 "/k2" "t1_k1" []]].
Proof. reflexivity. Qed.

(** C1, as stated, fails: the reply "c1" of the removed comment "p1" is a live
    comment (flattening the parent's replies on their own emits it), yet
    flattening the tree emits nothing at all. *)
Lemma flatten_removed_parent_loses_reply :
  In "c1" (commentIds (flattenComments (Object "Listing" [liveReply]) 1))
  /\ flattenComments removedParentListing 0 = []
  /\ ~ In "c1" (commentIds (flattenComments removedParentListing 0)).
Proof.
  split; [|split].
  - simpl. left. reflexivity.
  - reflexivity.
  - simpl. intros [].
Qed.

(** C1, amended: in the output of [flattenComments] a child marked removed or
    deleted contributes nothing, whatever replies it has (it is skipped
    together with its whole subtree), while any other comment is emitted once,
    in place, at the current depth, holding the flattening of its own replies
    one level deeper.  In particular the output is that of the listing with
    the removed child cut out. *)
Theorem flatten_skips_removed_subtree
  (pre post : list jsThing) (id author body : string) (score created_utc : Z)
  (permalink parent_id : string) (replies : jsListing) (depth : nat) :
  let node := T1 id author body score created_utc permalink parent_id replies in
  flattenComments (Object "Listing" (pre ++ node :: post)) depth =
    flattenComments (Object "Listing" pre) depth
    ++ (if isDeletedComment author body then []
        else [Comment id author body score created_utc depth permalink parent_id
                (flattenComments replies (S depth))])
    ++ flattenComments (Object "Listing" post) depth
  /\ (isDeletedComment author body = true ->
      flattenComments (Object "Listing" (pre ++ node :: post)) depth =
      flattenComments (Object "Listing" (pre ++ post)) depth).
Proof.
  intros node. rewrite !flattenComments_Object. simpl String.eqb. cbv iota.
  assert (Hsplit : flattenItems (pre ++ node :: post) depth =
                   flattenItems pre depth
                   ++ (if isDeletedComment author body then []
                       else [Comment id author body score created_utc depth
                               permalink parent_id
                               (flattenComments replies (S depth))])
                   ++ flattenItems post depth).
  { rewrite flattenItems_app. f_equal. subst node. simpl.
    destruct (isDeletedComment author body); reflexivity. }
  split; [exact Hsplit|].
  intros Hdel. rewrite Hsplit, Hdel, flattenItems_app. reflexivity.
Qed.

(** The amended statement at the removed parent above: the listing flattens
    as if the parent were not there. *)
Lemma flatten_skips_removed_subtree_witness :
  isDeletedComment "[deleted]" "[removed]" = true
  /\ flattenComments removedParentListing 0 = flattenComments (Object "Listing" []) 0.
Proof.
  split; [reflexivity|].
  exact (proj2 (flatten_skips_removed_subtree [] [] "p1" "[deleted]" "[removed]"
                  0 100 "/r/x/comments/1/_/p1" "t3_1"
                  (Object "Listing" [liveReply]) 0) eq_refl).
Defined.

End FlattenComments.

(** ** From a post and its comments to documents *)

Section ListFacts.
Context {A B C : Type}.

Lemma flat_map_Forall_ext (f g : A -> list B) (l : list A) :
  Forall (fun x => f x = g x) l -> flat_map f l = flat_map g l.
Proof.
  induction 1 as [|x xs Hx _ IH]; simpl; [reflexivity|].
  rewrite Hx, IH. reflexivity.
Qed.

Lemma map_of_flat_map (h : B -> C) (f : A -> list B) (l : list A) :
  map h (flat_map f l) = flat_map (fun x => map h (f x)) l.
Proof.
  induction l as [|x xs IH]; simpl; [reflexivity|].
  rewrite map_app, IH. reflexivity.
Qed.

Lemma length_of_flat_map (f : A -> list B) (l : list A) :
  length (flat_map f l) = list_sum (map (fun x => length (f x)) l).
Proof.
  induction l as [|x xs IH]; simpl; [reflexivity|].
  rewrite length_app, IH. reflexivity.
Qed.

Lemma list_sum_succ (f : A -> nat) (l : list A) :
  list_sum (map (fun x => S (f x)) l) = (length l + list_sum (map f l))%nat.
Proof. induction l as [|x xs IH]; simpl; [reflexivity|]. rewrite IH. lia. Qed.

End ListFacts.

Section TransformDocs.
Import Fetcher Post VectorDB Spec.

Lemma forallb_flat_map {A B : Type} (p : B -> bool) (f : A -> list B) (l : list A) :
  forallb p (flat_map f l) = forallb (fun x => forallb p (f x)) l.
Proof.
  induction l as [|x xs IH]; simpl; [reflexivity|].
  rewrite forallb_app, IH. reflexivity.
Qed.

(** The loop returns the items of all elements when each of them returns,
    and throws when one of them does. *)
Lemma collect_run {A B : Type} (f : A -> outcome (list B)) (valid : A -> bool)
  (g : A -> list B) (message : string) (l : list A) :
  Forall (fun x => f x = if valid x then Ok (g x) else Thrown message) l ->
  collect f l = if forallb valid l then Ok (flat_map g l) else Thrown message.
Proof.
  induction 1 as [|x xs Hx _ IH]; simpl; [reflexivity|].
  rewrite Hx, IH. destruct (valid x); simpl; [|reflexivity].
  destruct (forallb valid xs); reflexivity.
Qed.

Lemma toISOString_run (seconds : Z) :
  toISOString (seconds * 1000)
  = if validDate seconds then Ok (seconds * 1000) else Thrown invalidTimeMessage.
Proof. reflexivity. Qed.

Variables postId subreddit : string.

(** A reply and the replies below it are turned into their documents, in
    depth-first order, unless one of their times is refused. *)
Lemma transformComment_run (c : comment) :
  forall parent,
    transformComment postId subreddit parent c =
    if forallb (fun r => validDate (c_created_utc r)) (preorderFrom c)
    then Ok (map (replyDoc postId subreddit) (withParentFrom parent c))
    else Thrown invalidTimeMessage.
Proof.
  induction c as [i a b s t d p q replies IH] using comment_forest_ind.
  intros parent. cbn [transformComment preorderFrom c_replies forallb c_created_utc].
  rewrite toISOString_run.
  destruct (validDate t); [|reflexivity]. cbn [andb].
  rewrite (collect_run _
             (fun r => forallb (fun r' => validDate (c_created_utc r')) (preorderFrom r))
             (fun r => map (replyDoc postId subreddit) (withParentFrom (Some i) r))
             invalidTimeMessage).
  - rewrite forallb_flat_map.
    destruct (forallb _ replies); [|reflexivity].
    cbn [withParentFrom map]. rewrite map_of_flat_map. reflexivity.
  - eapply List.Forall_impl; [|exact IH]. intros r Hr. apply Hr.
Qed.

Lemma transformComments_run (comments : list comment) :
  transformCommentsToVectorFormat comments postId subreddit None =
  if forallb (fun r => validDate (c_created_utc r)) (preorder comments)
  then Ok (map (replyDoc postId subreddit) (withParent comments))
  else Thrown invalidTimeMessage.
Proof.
  unfold transformCommentsToVectorFormat, preorder, withParent.
  rewrite (collect_run _
             (fun r => forallb (fun r' => validDate (c_created_utc r')) (preorderFrom r))
             (fun r => map (replyDoc postId subreddit) (withParentFrom None r))
             invalidTimeMessage).
  - rewrite forallb_flat_map, map_of_flat_map. reflexivity.
  - apply List.Forall_forall. intros r _. apply transformComment_run.
Qed.

Lemma withParentFrom_length (c : comment) :
  forall parent, length (withParentFrom parent c) = S (countUnder c).
Proof.
  induction c as [i a b s t d p q replies IH] using comment_forest_ind.
  intros parent. simpl. f_equal.
  rewrite length_of_flat_map.
  rewrite <- list_sum_succ. f_equal.
  apply map_ext_Forall.
  eapply List.Forall_impl; [|exact IH]. intros r Hr. apply Hr.
Qed.

Lemma withParent_length (comments : list comment) :
  length (withParent comments) = countComments comments.
Proof.
  unfold withParent, countComments.
  rewrite length_of_flat_map, <- list_sum_succ. f_equal.
  apply map_ext. intros c. apply withParentFrom_length.
Qed.

Lemma replyDoc_isComment (l : list (option string * comment)) :
  Forall (fun d => d_isComment d = true) (map (replyDoc postId subreddit) l).
Proof. apply List.Forall_forall. intros d Hd. apply in_map_iff in Hd as (pc & <- & _). reflexivity. Qed.

Lemma withParentFrom_preorder (c : comment) :
  forall parent, map snd (withParentFrom parent c) = preorderFrom c.
Proof.
  induction c as [i a b s t d p q replies IH] using comment_forest_ind.
  intros parent. simpl. f_equal.
  rewrite map_of_flat_map. apply flat_map_Forall_ext.
  eapply List.Forall_impl; [|exact IH]. intros r Hr. apply Hr.
Qed.

Lemma replyDoc_ids (c : comment) :
  Forall (fun r => c_id r <> "") (preorderFrom c) ->
  forall parent,
    map d_id (map (replyDoc postId subreddit) (withParentFrom parent c)) =
    replyIdsFrom postId (nestedUnder parent) c.
Proof.
  induction c as [i a b s t d p q replies IH] using comment_forest_ind.
  intros Hids parent. simpl in Hids. apply List.Forall_cons_iff in Hids as [Hi Hrest].
  simpl in Hi. simpl. f_equal.
  - unfold commentDocId, nestedUnder. destruct parent; reflexivity.
  - rewrite !map_of_flat_map. apply flat_map_Forall_ext.
    apply List.Forall_flat_map in Hrest.
    rewrite List.Forall_forall in IH, Hrest. apply List.Forall_forall. intros r Hr.
    rewrite (IH r Hr (Hrest r Hr) (Some i)).
    simpl. destruct i; [congruence|reflexivity].
Qed.

End TransformDocs.

Section TransformPost.
Import Fetcher Post VectorDB Spec.

(** What [transformPostToVectorFormat] does, in one equation. *)
Lemma transformPost_run (rp : redditPost) (platformName : option string) :
  transformPostToVectorFormat rp platformName =
  if timesValid rp
  then Ok (rootDoc rp platformName
           :: map (replyDoc (p_id (rp_post rp))
                     (platformOf platformName (rp_subreddit rp)))
                  (withParent (rp_comments rp)))
  else Thrown invalidTimeMessage.
Proof.
  unfold transformPostToVectorFormat, timesValid, rootDoc.
  rewrite toISOString_run, transformComments_run.
  destruct (validDate (p_created_utc (rp_post rp))); [|reflexivity].
  cbn [andb]. destruct (forallb _ _); reflexivity.
Qed.

Example sample_ids :
  transformPostToVectorFormat samplePost None
  = Ok (rootDoc samplePost None
        :: map (replyDoc "abc" "r/x") (withParent sampleComments))
  /\ map d_id (rootDoc samplePost None
               :: map (replyDoc "abc" "r/x") (withParent sampleComments))
     = ["abc"; "k1"; "abc_k2"; "k3"].
Proof. split; reflexivity. Qed.

(** C5, as stated, fails on two kinds of trees: below a reply whose id is the
    empty string a reply keeps its bare id, where the rule asks for the post
    id in front; and a post holding a time that [toISOString] refuses yields
    no document at all, where 1 + countReplies are asked for. *)
Lemma transform_breaks_id_rule :
  (exists docs,
      transformPostToVectorFormat emptyIdPost None = Ok docs
      /\ map d_id docs = ["p"; ""; "r1"]
      /\ "p" :: replyIds "p" (rp_comments emptyIdPost) = ["p"; ""; "p_r1"])
  /\ transformPostToVectorFormat undatedPost None = Thrown "Invalid time value"
  /\ countComments (rp_comments undatedPost) = 0%nat.
Proof.
  split; [|split; reflexivity].
  eexists. split; [reflexivity|]. split; reflexivity.
Qed.

(** C5, amended: unless the post or one of its replies holds a time that
    [toISOString] refuses (then the call throws 'Invalid time value' and
    nothing is emitted), [transformPostToVectorFormat] emits exactly
    1 + countComments documents; the first is the root, with
    isComment = false and the post's id; the rest are one document per reply,
    each with isComment = true, in the depth-first order of the tree, built
    from that reply and the id of the reply above it; and, when the reply ids
    are non-empty strings, a reply below another reply gets the id
    [postId_replyId] and a reply directly below the post gets [replyId]. *)
Theorem transform_post_documents (rp : redditPost) (platformName : option string) :
  let postId := p_id (rp_post rp) in
  let platform := platformOf platformName (rp_subreddit rp) in
  let root := rootDoc rp platformName in
  let rest := map (replyDoc postId platform) (withParent (rp_comments rp)) in
  transformPostToVectorFormat rp platformName
  = (if timesValid rp then Ok (root :: rest) else Thrown invalidTimeMessage)
  /\ length (root :: rest) = S (countComments (rp_comments rp))
  /\ d_isComment root = false
  /\ d_id root = postId
  /\ Forall (fun d => d_isComment d = true) rest
  /\ map snd (withParent (rp_comments rp)) = preorder (rp_comments rp)
  /\ (Forall (fun c => c_id c <> "") (preorder (rp_comments rp)) ->
      map d_id rest = replyIds postId (rp_comments rp)).
Proof.
  intros postId platform root rest. split; [apply transformPost_run|].
  split; [|split; [reflexivity|split; [reflexivity|split; [|split]]]].
  - subst rest. cbn [length]. rewrite length_map, withParent_length. reflexivity.
  - apply replyDoc_isComment.
  - unfold withParent, preorder. rewrite map_of_flat_map. apply flat_map_ext.
    intros c. apply withParentFrom_preorder.
  - intros Hids. subst rest. unfold replyIds, preorder, withParent in *.
    rewrite !map_of_flat_map. apply flat_map_Forall_ext.
    apply List.Forall_flat_map in Hids.
    eapply List.Forall_impl; [|exact Hids]. intros c Hc.
    apply (replyDoc_ids postId platform c Hc None).
Qed.

(** The statement at [samplePost]: four documents, the reply "k2" below
    "k1" qualified by the post id. *)
Lemma transform_post_documents_witness :
  exists docs,
    transformPostToVectorFormat samplePost None = Ok docs
    /\ length docs = 4%nat
    /\ map d_id docs = "abc" :: replyIds "abc" sampleComments.
Proof.
  destruct (transform_post_documents samplePost None)
    as (Hrun & Hlen & _ & Hroot & _ & _ & Hids).
  eexists. split; [exact Hrun|]. split; [exact Hlen|].
  cbn [map]. rewrite Hroot. apply (f_equal (cons "abc")). apply Hids.
  repeat constructor; simpl; congruence.
Defined.

(** C9, as stated, fails: a link post whose title is the empty string gets a
    root document with an empty body. *)
Lemma empty_title_empty_body :
  exists root rest,
    transformPostToVectorFormat
      (Feed.makeEntry "r/x" false untitledLink (CommentsOk [])) None
    = Ok (root :: rest)
    /\ d_isComment root = false
    /\ d_body root = "".
Proof. eexists _, _. split; [reflexivity|]. split; reflexivity. Qed.

(** C9, amended: whenever [transformPostToVectorFormat] returns for a fetched
    post (it does unless a time is refused), the first document is the root,
    whose body is the post's selftext when that is a non-empty string and its
    title otherwise; a link post (selftext missing or empty) therefore has
    body = title, which is non-empty if and only if the title is. *)
Theorem root_body_selftext_or_title (subreddit : string) (testMode : bool)
  (raw : rawPost) (resp : commentsResponse) (platformName : option string) :
  let rp := Feed.makeEntry subreddit testMode raw resp in
  let root := rootDoc rp platformName in
  (forall docs,
      transformPostToVectorFormat rp platformName = Ok docs ->
      hd_error docs = Some root)
  /\ (timesValid rp = true ->
      exists rest, transformPostToVectorFormat rp platformName = Ok (root :: rest))
  /\ d_isComment root = false
  /\ d_body root =
     match r_selftext raw with
     | Some text => if truthyStr text then text else r_title raw
     | None => r_title raw
     end
  /\ (r_selftext raw = None \/ r_selftext raw = Some "" ->
      d_body root = r_title raw /\ (d_body root <> "" <-> r_title raw <> "")).
Proof.
  intros rp root.
  assert (Hbody : d_body root =
                  match r_selftext raw with
                  | Some text => if truthyStr text then text else r_title raw
                  | None => r_title raw
                  end).
  { subst root rp. simpl. destruct (r_selftext raw) as [text|]; simpl.
    - destruct text; reflexivity.
    - reflexivity. }
  split; [|split; [|split; [reflexivity|split; [exact Hbody|]]]].
  - intros docs Hrun. rewrite transformPost_run in Hrun.
    destruct (timesValid rp); [|discriminate]. injection Hrun as <-. reflexivity.
  - intros Hvalid. rewrite transformPost_run, Hvalid. eexists. reflexivity.
  - intros Hlink.
    assert (Htitle : d_body root = r_title raw).
    { rewrite Hbody. destruct Hlink as [-> | ->]; reflexivity. }
    split; [exact Htitle|]. rewrite Htitle. tauto.
Qed.

(** The statement at a link post, whose selftext is the empty string. *)
Lemma root_body_selftext_or_title_witness :
  exists rest,
    transformPostToVectorFormat
      (Feed.makeEntry "x" false linkPost (CommentsOk [])) None
    = Ok (rootDoc (Feed.makeEntry "x" false linkPost (CommentsOk [])) None :: rest)
    /\ d_body (rootDoc (Feed.makeEntry "x" false linkPost (CommentsOk [])) None)
       = "Look at this".
Proof.
  destruct (root_body_selftext_or_title "x" false linkPost (CommentsOk []) None)
    as (_ & Hrun & _ & _ & Hlink).
  destruct (Hrun eq_refl) as [rest Hrest].
  exists rest. split; [exact Hrest|].
  apply Hlink. right. reflexivity.
Defined.

End TransformPost.

(** ** Document ids *)

Section StringFacts.
Import Spec.

Lemma append_cancel_l (a x y : string) : a +:+ x = a +:+ y -> x = y.
Proof. induction a as [|c a IH]; simpl; intros H; [exact H|]. injection H. exact IH. Qed.

Lemma append_length (a b : string) :
  String.length (a +:+ b) = (String.length a + String.length b)%nat.
Proof. induction a as [|c a IH]; simpl; [reflexivity|]. rewrite IH. reflexivity. Qed.

Lemma hasUnderscore_append (a b : string) :
  hasUnderscore (a +:+ b) = hasUnderscore a || hasUnderscore b.
Proof.
  induction a as [|c a IH]; simpl; [reflexivity|].
  rewrite IH. apply orb_assoc.
Qed.

Lemma underscoreJoin_hasUnderscore (a b : string) :
  hasUnderscore (underscoreJoin a b) = true.
Proof.
  unfold underscoreJoin. rewrite hasUnderscore_append. simpl.
  apply orb_true_r.
Qed.

Lemma underscoreJoin_cancel (a x y : string) :
  underscoreJoin a x = underscoreJoin a y -> x = y.
Proof.
  unfold underscoreJoin. intros H. apply append_cancel_l in H.
  simpl in H. injection H. trivial.
Qed.

Lemma underscoreJoin_longer (a b : string) : underscoreJoin a b <> a.
Proof.
  intros H. apply (f_equal String.length) in H.
  unfold underscoreJoin in H. rewrite append_length in H. simpl in H. lia.
Qed.

End StringFacts.

Section NoDupFacts.
Context {A B C : Type}.

Lemma NoDup_map_through (f : A -> B) (g : A -> C) (l : list A) :
  (forall x y, In x l -> In y l -> f x = f y -> g x = g y) ->
  List.NoDup (map g l) -> List.NoDup (map f l).
Proof.
  induction l as [|x xs IH]; simpl; intros Hfg Hnd; [constructor|].
  apply List.NoDup_cons_iff in Hnd as [Hx Hxs].
  apply List.NoDup_cons.
  - intros Hin. apply in_map_iff in Hin as (y & Hy & Hyin).
    apply Hx. apply in_map_iff. exists y. split; [|exact Hyin].
    apply Hfg; [right; exact Hyin|left; reflexivity|exact Hy].
  - apply IH; [|exact Hxs]. intros y z Hy Hz. apply Hfg; right; assumption.
Qed.

End NoDupFacts.

Section DocumentIds.
Import Fetcher Post VectorDB Spec.

Lemma withParentFrom_ids (c : comment) :
  forall parent,
    map (fun pc => c_id (snd pc)) (withParentFrom parent c) = idsUnder c.
Proof.
  induction c as [i a b s t d p q replies IH] using comment_forest_ind.
  intros parent. simpl. f_equal.
  rewrite map_of_flat_map. apply flat_map_Forall_ext.
  eapply List.Forall_impl; [|exact IH]. intros r Hr. apply Hr.
Qed.

Lemma withParent_ids (comments : list comment) :
  map (fun pc => c_id (snd pc)) (withParent comments) = commentIds comments.
Proof.
  unfold withParent, commentIds. rewrite map_of_flat_map.
  apply flat_map_ext. intros c. apply withParentFrom_ids.
Qed.

(** The id is the reply's own, or the post id, an underscore and the reply's
    own. *)
Lemma commentDocId_cases (postId : string) (parent : option string) (i : string) :
  commentDocId postId parent i = i
  \/ commentDocId postId parent i = underscoreJoin postId i.
Proof.
  unfold commentDocId. destruct parent as [p|]; [|left; reflexivity].
  destruct (truthyStr p); [right|left]; reflexivity.
Qed.

Lemma commentDocId_same_reply (postId : string) (p1 p2 : option string)
  (i1 i2 : string) :
  hasUnderscore i1 = false -> hasUnderscore i2 = false ->
  commentDocId postId p1 i1 = commentDocId postId p2 i2 -> i1 = i2.
Proof.
  intros H1 H2 Heq.
  destruct (commentDocId_cases postId p1 i1) as [E1|E1],
           (commentDocId_cases postId p2 i2) as [E2|E2];
    rewrite E1, E2 in Heq.
  - exact Heq.
  - rewrite Heq, underscoreJoin_hasUnderscore in H1. discriminate.
  - rewrite <- Heq, underscoreJoin_hasUnderscore in H2. discriminate.
  - eapply underscoreJoin_cancel. exact Heq.
Qed.

Lemma built_ids (rp : redditPost) (platformName : option string) :
  map d_id (rootDoc rp platformName
            :: map (replyDoc (p_id (rp_post rp))
                      (platformOf platformName (rp_subreddit rp)))
                   (withParent (rp_comments rp))) =
  p_id (rp_post rp)
  :: map (fun pc => commentDocId (p_id (rp_post rp)) (fst pc) (c_id (snd pc)))
         (withParent (rp_comments rp)).
Proof. cbn [map]. rewrite map_map. reflexivity. Qed.

Lemma transform_ids (rp : redditPost) (platformName : option string)
  (docs : list document) :
  transformPostToVectorFormat rp platformName = Ok docs ->
  timesValid rp = true
  /\ map d_id docs =
     p_id (rp_post rp)
     :: map (fun pc => commentDocId (p_id (rp_post rp)) (fst pc) (c_id (snd pc)))
            (withParent (rp_comments rp)).
Proof.
  rewrite transformPost_run. destruct (timesValid rp); [|discriminate].
  intros Hrun. injection Hrun as <-. split; [reflexivity|apply built_ids].
Qed.

(** C6, as stated, fails: the nodes of [collidingPost] have pairwise
    different ids, yet the top-level reply "a_b" and the nested reply "b"
    both get the document id "a_b". *)
Lemma document_ids_collide :
  List.NoDup (p_id (rp_post collidingPost) :: commentIds (rp_comments collidingPost))
  /\ exists docs,
       transformPostToVectorFormat collidingPost None = Ok docs
       /\ map d_id docs = ["a"; "a_b"; "c"; "a_b"]
       /\ ~ List.NoDup (map d_id docs).
Proof.
  split.
  - simpl. repeat (apply List.NoDup_cons; [simpl; intuition discriminate|]).
    apply List.NoDup_nil.
  - eexists. split; [reflexivity|]. split; [reflexivity|].
    simpl. intros H.
    apply List.NoDup_cons_iff in H as [_ H].
    apply List.NoDup_cons_iff in H as [H _].
    apply H. simpl. right. left. reflexivity.
Qed.

(** C6, amended: when the ids of the post and of its replies are pairwise
    different and no reply id contains an underscore, no two documents that
    [transformPostToVectorFormat] returns for the post share an id; and the
    id sequence depends on the tree alone, so a second run over the same tree
    (even under a different platform name) returns too, with the same ids. *)
Theorem document_ids_distinct (rp : redditPost) (platformName platformName' : option string)
  (docs : list document) :
  List.NoDup (p_id (rp_post rp) :: commentIds (rp_comments rp)) ->
  Forall (fun i => hasUnderscore i = false) (commentIds (rp_comments rp)) ->
  transformPostToVectorFormat rp platformName = Ok docs ->
  List.NoDup (map d_id docs)
  /\ exists docs',
       transformPostToVectorFormat rp platformName' = Ok docs'
       /\ map d_id docs = map d_id docs'.
Proof.
  intros Hnd Hus Hrun.
  destruct (transform_ids rp platformName docs Hrun) as [Hvalid Hids].
  split.
  2:{ rewrite transformPost_run, Hvalid. eexists. split; [reflexivity|].
      rewrite Hids, built_ids. reflexivity. }
  rewrite Hids.
  apply List.NoDup_cons_iff in Hnd as [Hroot Hreplies].
  rewrite <- withParent_ids in Hroot, Hreplies, Hus.
  rewrite List.Forall_forall in Hus.
  assert (Hclean : forall pc, In pc (withParent (rp_comments rp)) ->
                              hasUnderscore (c_id (snd pc)) = false).
  { intros pc Hpc. apply Hus. apply in_map_iff. exists pc. split; [reflexivity|exact Hpc]. }
  apply List.NoDup_cons.
  - intros Hin. apply in_map_iff in Hin as (pc & Hpc & Hpcin).
    destruct (commentDocId_cases (p_id (rp_post rp)) (fst pc) (c_id (snd pc)))
      as [E|E]; rewrite E in Hpc.
    + apply Hroot. apply in_map_iff. exists pc. split; [exact Hpc|exact Hpcin].
    + exact (underscoreJoin_longer _ _ Hpc).
  - eapply NoDup_map_through; [|exact Hreplies].
    intros x y Hx Hy Heq. simpl in Heq.
    eapply commentDocId_same_reply; [apply Hclean; exact Hx|apply Hclean; exact Hy|exact Heq].
Qed.

(** The amended statement at [samplePost]. *)
Lemma document_ids_distinct_witness :
  exists docs,
    transformPostToVectorFormat samplePost None = Ok docs
    /\ List.NoDup (map d_id docs).
Proof.
  eexists. split; [reflexivity|].
  refine (proj1 (document_ids_distinct samplePost None None _ _ _ eq_refl)).
  - simpl. repeat (apply List.NoDup_cons; [simpl; intuition discriminate|]).
    apply List.NoDup_nil.
  - repeat constructor.
Defined.

End DocumentIds.

(** ** Ingestion *)

Section Ingestion.
Import Fetcher Post VectorDB Spec Terms.

Lemma postedIds_app (a b : list storeEvent) :
  postedIds (a ++ b) = postedIds a ++ postedIds b.
Proof. apply flat_map_app. Qed.

Variable respond : nat -> storeResponse.

(** [ingestItem] throws only on a 401 or 403, after sending the item between
    one and [remaining] times, and sends nothing else. *)
Lemma ingestAttempts_threw (item : document) (remaining : nat) :
  forall attempt st message st',
    ingestAttempts respond item remaining attempt st = (Threw message, st') ->
    message = authFailedMessage
    /\ exists k, (1 <= k <= remaining)%nat
         /\ requests st' = (requests st + k)%nat
         /\ postedIds (trace st') = postedIds (trace st) ++ repeat (d_id item) k
         /\ isAuthStatus (respond (requests st + k - 1)%nat) = true.
Proof.
  induction remaining as [|k IH]; intros attempt st message st' H; simpl in H.
  - discriminate.
  - destruct (respond (requests st)) as [b c|status m data] eqn:Hresp;
      [discriminate|].
    destruct (isStatus status 401 || isStatus status 403) eqn:Hauth.
    + injection H as <- <-. split; [reflexivity|]. exists 1%nat. simpl.
      repeat split; try lia.
      * rewrite postedIds_app. reflexivity.
      * replace (requests st + 1 - 1)%nat with (requests st) by lia.
        rewrite Hresp. exact Hauth.
    + destruct (isStatus status 422); [discriminate|].
      destruct (isStatus status 429 || statusAtLeast status 500); [|discriminate].
      apply IH in H as [Hm (j & Hj & Hreq & Hids & Hlast)].
      split; [exact Hm|]. exists (S j). simpl in Hreq, Hids, Hlast.
      repeat split; try lia.
      * rewrite Hids, !postedIds_app. simpl. rewrite app_nil_r, <- app_assoc.
        reflexivity.
      * replace (requests st + S j - 1)%nat with (S (requests st) + j - 1)%nat by lia.
        exact Hlast.
Qed.

(** An item that throws ends the loop over its post's items at once. *)
Lemma ingestItems_threw (pre post : list document) (d : document) :
  forall st res st1 res1 message st2,
    ingestItems respond pre st res = (None, st1, res1) ->
    ingestItem respond d st1 = (Threw message, st2) ->
    ingestItems respond (pre ++ d :: post) st res = (Some message, st2, res1).
Proof.
  induction pre as [|x xs IH]; intros st res st1 res1 message st2 Hpre Hd; simpl in *.
  - injection Hpre as <- <-. rewrite Hd. reflexivity.
  - destruct (ingestItem respond x st) as [[r|m] sx]; [|discriminate].
    eapply IH; eassumption.
Qed.

Lemma retryable_not_final (status : option Z) :
  isStatus status 429 || statusAtLeast status 500 = true ->
  isStatus status 401 || isStatus status 403 = false /\ isStatus status 422 = false.
Proof.
  destruct status as [s|]; simpl; [|discriminate].
  intros H. apply orb_true_iff in H. rewrite Z.eqb_eq, Z.leb_le in H.
  split.
  - apply orb_false_iff. split; apply Z.eqb_neq; lia.
  - apply Z.eqb_neq. lia.
Qed.

(** Answered 401 or 403, after [j] answers that call for a retry and with
    an attempt left, [ingestItem] throws, having sent the item [j + 1]
    times and nothing else. *)
Lemma ingestAttempts_auth (item : document) (j : nat) :
  forall remaining attempt st,
    (j < remaining)%nat ->
    (forall i, (i < j)%nat -> isRetryable (respond (requests st + i)%nat) = true) ->
    isAuthStatus (respond (requests st + j)%nat) = true ->
    exists st',
      ingestAttempts respond item remaining attempt st = (Threw authFailedMessage, st')
      /\ requests st' = (requests st + S j)%nat
      /\ postedIds (trace st') = postedIds (trace st) ++ repeat (d_id item) (S j).
Proof.
  induction j as [|j IH]; intros remaining attempt st Hlt Hretry Hauth;
    (destruct remaining as [|k]; [lia|]); cbn [ingestAttempts].
  - rewrite Nat.add_0_r in Hauth.
    destruct (respond (requests st)) as [b c|status m data]; [discriminate|].
    cbn [isAuthStatus] in Hauth. rewrite Hauth.
    eexists. split; [reflexivity|]. cbn [recordPost requests trace].
    split; [lia|]. rewrite postedIds_app. reflexivity.
  - assert (H0 : isRetryable (respond (requests st)) = true).
    { rewrite <- (Nat.add_0_r (requests st)). apply Hretry. lia. }
    destruct (respond (requests st)) as [b c|status m data]; [discriminate|].
    cbn [isRetryable] in H0.
    destruct (retryable_not_final status H0) as [H401 H422].
    rewrite H401, H422, H0.
    destruct (IH k (S attempt)
                (recordSleep (2 ^ Z.of_nat attempt * 1000)
                   (recordPost (d_id item) st)))
      as (st' & Hrun & Hreq & Hids).
    + lia.
    + intros i Hi. cbn [recordSleep recordPost requests].
      replace (S (requests st) + i)%nat with (requests st + S i)%nat by lia.
      apply Hretry. lia.
    + cbn [recordSleep recordPost requests].
      replace (S (requests st) + j)%nat with (requests st + S j)%nat by lia.
      exact Hauth.
    + exists st'. split; [exact Hrun|].
      cbn [recordSleep recordPost requests trace] in Hreq, Hids.
      split; [lia|]. rewrite Hids, !postedIds_app. cbn [postedIds flat_map app].
      rewrite app_nil_r, <- app_assoc. reflexivity.
Qed.

(** C2, amended: when the store answers a document of a post with 401 or 403
    (at once, or after answers that made [ingestItem] retry), [ingestItem]
    throws the authentication message; no later document of that post is
    sent, the failure is recorded once, under the post's id, and
    [ingestPosts] goes on with the next post from there; the function itself
    returns its tally and never throws. *)
Theorem auth_error_skips_rest_of_post
  (rp : redditPost) (rest : list redditPost) (platformName : option string)
  (pre post : list document) (d : document)
  (st st1 : storeState) (res res1 : results) (j : nat) :
  transformPostToVectorFormat rp platformName = Ok (pre ++ d :: post) ->
  ingestItems respond pre st (addTotal (length (pre ++ d :: post)) res)
    = (None, st1, res1) ->
  (j < maxRetries)%nat ->
  (forall i, (i < j)%nat -> isRetryable (respond (requests st1 + i)%nat) = true) ->
  isAuthStatus (respond (requests st1 + j)%nat) = true ->
  exists st2,
    ingestItem respond d st1 = (Threw authFailedMessage, st2)
    /\ requests st2 = (requests st1 + S j)%nat
    /\ postedIds (trace st2) = postedIds (trace st1) ++ repeat (d_id d) (S j)
    /\ ingestPostsFrom respond (rp :: rest) platformName st res
       = ingestPostsFrom respond rest platformName st2
           (recordPostFailure rp authFailedMessage res1)
    /\ failed (recordPostFailure rp authFailedMessage res1) = failed res1 + 1
    /\ successful (recordPostFailure rp authFailedMessage res1) = successful res1
    /\ errors (recordPostFailure rp authFailedMessage res1)
       = errors res1 ++ [{| e_id := p_id (rp_post rp);
                            e_error := Some authFailedMessage;
                            e_details := None |}].
Proof.
  intros Hdocs Hpre Hlt Hretry Hauth.
  destruct (ingestAttempts_auth d j maxRetries 0 st1 Hlt Hretry Hauth)
    as (st2 & Hd & Hreq & Hids).
  fold (ingestItem respond d st1) in Hd.
  exists st2. split; [exact Hd|]. split; [exact Hreq|]. split; [exact Hids|].
  split; [|repeat split].
  cbn [ingestPostsFrom]. rewrite Hdocs.
  rewrite (ingestItems_threw pre post d _ _ _ _ _ _ Hpre Hd). reflexivity.
Qed.

End Ingestion.

Section IngestionExamples.
Import Fetcher Post VectorDB Spec.

(** Five documents of which the third is rejected with a 422: four
    successes, one failure with the store's detail, and the last two
    documents are still sent. *)
Example validation_failure_is_isolated :
  let respond n :=
    match n with
    | 2%nat => StoreError (Some 422) "Request failed with status code 422" "body: required"
    | _ => StoreOk "base" 1
    end in
  let out := ingestPosts respond [samplePost; linkEntry] None initialStore in
  postedIds (trace (fst out)) = ["abc"; "k1"; "abc_k2"; "k3"; "lnk"]
  /\ (total (snd out), successful (snd out), failed (snd out)) = (5, 4, 1)
  /\ (posts (snd out), comments (snd out)) = (2, 2)
  /\ errors (snd out)
     = [{| e_id := "abc_k2"; e_error := Some "Validation error";
           e_details := Some "body: required" |}].
Proof. vm_compute. repeat split. Qed.

(** Three 500s in a row use up the three attempts of [ingestItem], with
    waits of 1, 2 and 4 seconds. *)
Example server_errors_exhaust_retries :
  let respond (n : nat) := StoreError (Some 500) "Request failed with status code 500" "" in
  let out := ingestItem respond (rootDoc samplePost None) initialStore in
  trace (snd out)
  = [Posted "abc"; Slept 1000; Posted "abc"; Slept 2000; Posted "abc"; Slept 4000]
  /\ match fst out with
     | Returned r => ir_success r = false
                     /\ ir_error r = Some "Max retries (3) exceeded"
     | Threw _ => False
     end.
Proof. vm_compute. repeat split. Qed.

(** C2, as stated, fails: the first document of the first post gets a 401,
    and the documents of the second post are sent all the same; the call
    returns a tally with one failure, recorded under the first post's id. *)
Lemma auth_error_does_not_stop_batch :
  let out := ingestPosts rejectsFirst [samplePost; collidingPost] None initialStore in
  postedIds (trace (fst out)) = ["abc"; "a"; "a_b"; "c"; "a_b"]
  /\ failed (snd out) = 1
  /\ successful (snd out) = 4
  /\ errors (snd out)
     = [{| e_id := "abc"; e_error := Some authFailedMessage; e_details := None |}].
Proof. vm_compute. repeat split. Qed.

(** The amended statement at that run: after the 401 on "abc" the batch is
    at the second post, with the failure recorded. *)
Lemma auth_error_skips_rest_of_post_witness :
  exists st2,
    ingestItem rejectsFirst (rootDoc samplePost None) initialStore
    = (Threw authFailedMessage, st2)
    /\ postedIds (trace st2) = ["abc"]
    /\ ingestPostsFrom rejectsFirst [samplePost; collidingPost] None initialStore
         emptyResults
       = ingestPostsFrom rejectsFirst [collidingPost] None st2
           (recordPostFailure samplePost authFailedMessage (addTotal 4 emptyResults)).
Proof.
  destruct (auth_error_skips_rest_of_post rejectsFirst samplePost [collidingPost] None
              [] (map (replyDoc "abc" "r/x") (withParent sampleComments))
              (rootDoc samplePost None)
              initialStore initialStore emptyResults (addTotal 4 emptyResults) 0)
    as (st2 & Hthrow & _ & Hids & Hnext & _).
  - reflexivity.
  - reflexivity.
  - unfold maxRetries. lia.
  - intros i Hi. lia.
  - reflexivity.
  - exists st2. split; [exact Hthrow|]. split; [exact Hids|exact Hnext].
Defined.

End IngestionExamples.

(** ** The request executor *)

Section Requests.
Import Client Spec.

Context {Data : Type}.
Variable authRespond : nat -> authResponse.
Variable apiRespond : nat -> apiResponse Data.
Variable url : string.
Variable retries : nat.

Local Abbreviation requestLoop' := (requestLoop authRespond apiRespond url retries).
Local Abbreviation makeRequest' := (makeRequest authRespond apiRespond url retries).

Lemma countEvents_app (p : clientEvent -> bool) (a b : list clientEvent) :
  countEvents p (a ++ b) = (countEvents p a + countEvents p b)%nat.
Proof. unfold countEvents. rewrite List.filter_app, length_app. reflexivity. Qed.

Lemma authenticate_events (c : client) :
  events (snd (authenticate authRespond c)) = events c ++ [AuthPost].
Proof. unfold authenticate. destruct (authRespond (authRequests c)); reflexivity. Qed.

Lemma authenticate_apiRequests (c : client) :
  apiRequests (snd (authenticate authRespond c)) = apiRequests c.
Proof. unfold authenticate. destruct (authRespond (authRequests c)); reflexivity. Qed.

Lemma ensureAuthenticated_apiRequests (c : client) :
  apiRequests (snd (ensureAuthenticated authRespond c)) = apiRequests c.
Proof.
  unfold ensureAuthenticated.
  match goal with |- context [if ?b then _ else _] => destruct b end;
    [|reflexivity].
  rewrite authenticate_apiRequests. reflexivity.
Qed.

Lemma waitForRateLimit_apiRequests (c : client) :
  apiRequests (waitForRateLimit c) = apiRequests c.
Proof.
  unfold waitForRateLimit. cbn [apiRequests].
  match goal with |- context [if ?b then _ else _] => destruct b end; reflexivity.
Qed.

(** The events of the loop begin with an attempt, if there are any. *)
Lemma requestLoop_head (remaining attempt : nat) (c : client) (l : list clientEvent) :
  events (snd (requestLoop' remaining attempt c)) = events c ++ l ->
  l = [] \/ exists next, l = HttpGet attempt :: next.
Proof.
  destruct remaining as [|k]; cbn [requestLoop]; intros Hl.
  - left. cbn [snd] in Hl. rewrite <- (app_nil_r (events c)) in Hl at 1.
    apply app_inv_head in Hl. congruence.
  - right.
    assert (Hev : exists l', events (snd (requestLoop' (S k) attempt c))
                             = events c ++ HttpGet attempt :: l').
    { clear Hl. cbn [requestLoop].
      assert (Hgrow : forall k a c0, exists l0,
                 events (snd (requestLoop' k a c0)) = events c0 ++ l0).
      { clear. intros k. induction k as [|k IH]; intros a c0; cbn [requestLoop].
        - exists []. rewrite app_nil_r. reflexivity.
        - destruct (apiRespond (apiRequests c0)) as [data|status h m].
          + eexists. reflexivity.
          + destruct (VectorDB.isStatus status 429).
            { destruct (IH (S a) (sleep (retryAfterDelay h a) (recordGet a c0)))
                as [l0 Hl0]. rewrite Hl0. cbn [sleep recordGet events].
              rewrite <- !app_assoc. eexists. reflexivity. }
            destruct (VectorDB.isStatus status 401).
            { pose proof (authenticate_events (recordGet a c0)) as Hauth.
              destruct (authenticate authRespond (recordGet a c0)) as [[u|m0] c2];
                cbn [snd] in Hauth.
              - destruct (IH (S a) c2) as [l0 Hl0]. rewrite Hl0, Hauth.
                cbn [recordGet events]. rewrite <- !app_assoc. eexists. reflexivity.
              - cbn [snd]. rewrite Hauth. cbn [recordGet events].
                rewrite <- !app_assoc. eexists. reflexivity. }
            destruct (VectorDB.statusAtLeast status 500).
            { destruct (IH (S a) (sleep (backoffDelay a) (recordGet a c0)))
                as [l0 Hl0]. rewrite Hl0. cbn [sleep recordGet events].
              rewrite <- !app_assoc. eexists. reflexivity. }
            eexists. reflexivity. }
      destruct (apiRespond (apiRequests c)) as [data|status h m].
      + exists []. reflexivity.
      + destruct (VectorDB.isStatus status 429).
        { destruct (Hgrow k (S attempt) (sleep (retryAfterDelay h attempt) (recordGet attempt c)))
            as [l0 Hl0]. rewrite Hl0. cbn [sleep recordGet events].
          rewrite <- !app_assoc. eexists. reflexivity. }
        destruct (VectorDB.isStatus status 401).
        { pose proof (authenticate_events (recordGet attempt c)) as Hauth.
          destruct (authenticate authRespond (recordGet attempt c)) as [[u|m0] c2];
            cbn [snd] in Hauth.
          - destruct (Hgrow k (S attempt) c2) as [l0 Hl0]. rewrite Hl0, Hauth.
            cbn [recordGet events]. rewrite <- !app_assoc. eexists. reflexivity.
          - cbn [snd]. rewrite Hauth. cbn [recordGet events].
            rewrite <- !app_assoc. eexists. reflexivity. }
        destruct (VectorDB.statusAtLeast status 500).
        { destruct (Hgrow k (S attempt) (sleep (backoffDelay attempt) (recordGet attempt c)))
            as [l0 Hl0]. rewrite Hl0. cbn [sleep recordGet events].
          rewrite <- !app_assoc. eexists. reflexivity. }
        exists []. reflexivity. }
    destruct Hev as [l' Hl']. cbn [requestLoop] in Hl'. rewrite Hl' in Hl.
    apply app_inv_head in Hl. exists l'. congruence.
Qed.

(** The retry loop makes at most [remaining] requests, calls neither
    [ensureAuthenticated] nor [waitForRateLimit], and separates its attempts
    as [retryTrace] says. *)
Lemma requestLoop_events (remaining : nat) :
  forall attempt c,
  exists l,
    events (snd (requestLoop' remaining attempt c))
      = events c ++ l
    /\ countEvents isEnsure l = 0%nat
    /\ countEvents isWait l = 0%nat
    /\ (countEvents isGet l <= remaining)%nat
    /\ retryTrace apiRespond (apiRequests c) attempt l.
Proof.
  induction remaining as [|k IH]; intros attempt c; cbn [requestLoop].
  - exists []. cbn [snd]. rewrite app_nil_r.
    split; [reflexivity|]. split; [reflexivity|]. split; [reflexivity|].
    split; [unfold countEvents; simpl; lia|constructor].
  - destruct (apiRespond (apiRequests c)) as [data|status retryAfter message] eqn:Hresp.
    + exists [HttpGet attempt].
      split; [reflexivity|]. split; [reflexivity|]. split; [reflexivity|].
      split; [unfold countEvents; simpl; lia|constructor].
    + destruct (VectorDB.isStatus status 429) eqn:H429.
      { destruct (IH (S attempt)
                    (sleep (retryAfterDelay retryAfter attempt) (recordGet attempt c)))
          as (l & Hl & He & Hw & Hg & Ht).
        exists (HttpGet attempt :: Sleep (retryAfterDelay retryAfter attempt) :: l).
        pose proof (requestLoop_head _ _ _ _ Hl) as Hhead.
        rewrite Hl. cbn [sleep recordGet events]. rewrite <- !app_assoc.
        split; [reflexivity|]. split; [exact He|]. split; [exact Hw|].
        split; [change (S (countEvents isGet l) <= S k)%nat; lia|].
        eapply rt_waited; [exact Hresp|rewrite H429; reflexivity|exact Hhead|exact Ht]. }
      destruct (VectorDB.isStatus status 401) eqn:H401.
      { pose proof (authenticate_events (recordGet attempt c)) as Hauth.
        pose proof (authenticate_apiRequests (recordGet attempt c)) as Hreq.
        destruct (authenticate authRespond (recordGet attempt c)) as [[u|m] c2];
          cbn [snd] in Hauth, Hreq.
        - destruct (IH (S attempt) c2) as (l & Hl & He & Hw & Hg & Ht).
          exists (HttpGet attempt :: AuthPost :: l).
          pose proof (requestLoop_head _ _ _ _ Hl) as Hhead.
          rewrite Hl, Hauth. cbn [recordGet events]. rewrite <- !app_assoc.
          split; [reflexivity|]. split; [exact He|]. split; [exact Hw|].
          split; [change (S (countEvents isGet l) <= S k)%nat; lia|].
          rewrite Hreq in Ht.
          eapply rt_unauthorized; [exact Hresp|exact H401|exact Hhead|exact Ht].
        - exists [HttpGet attempt; AuthPost]. cbn [snd]. rewrite Hauth.
          cbn [recordGet events]. rewrite <- !app_assoc.
          split; [reflexivity|]. split; [reflexivity|]. split; [reflexivity|].
          split; [unfold countEvents; simpl; lia|].
          eapply rt_unauthorized; [exact Hresp|exact H401|left; reflexivity|constructor]. }
      destruct (VectorDB.statusAtLeast status 500) eqn:H500.
      { destruct (IH (S attempt) (sleep (backoffDelay attempt) (recordGet attempt c)))
          as (l & Hl & He & Hw & Hg & Ht).
        exists (HttpGet attempt :: Sleep (backoffDelay attempt) :: l).
        pose proof (requestLoop_head _ _ _ _ Hl) as Hhead.
        rewrite Hl. cbn [sleep recordGet events]. rewrite <- !app_assoc.
        split; [reflexivity|]. split; [exact He|]. split; [exact Hw|].
        split; [change (S (countEvents isGet l) <= S k)%nat; lia|].
        eapply rt_waited; [exact Hresp|rewrite H500; apply orb_true_r|exact Hhead|exact Ht]. }
      exists [HttpGet attempt].
      split; [reflexivity|]. split; [reflexivity|]. split; [reflexivity|].
      split; [unfold countEvents; simpl; lia|constructor].
Qed.

Lemma ensureAuthenticated_events (c : client) :
  exists l,
    events (snd (ensureAuthenticated authRespond c))
      = events c ++ CallEnsureAuthenticated :: l
    /\ countEvents isEnsure l = 0%nat
    /\ countEvents isWait l = 0%nat
    /\ countEvents isGet l = 0%nat.
Proof.
  unfold ensureAuthenticated.
  destruct (negb (hasToken (emit CallEnsureAuthenticated c))
            || (tokenExpiry (emit CallEnsureAuthenticated c)
                <=? now (emit CallEnsureAuthenticated c))%Z).
  - exists [AuthPost]. rewrite authenticate_events. simpl.
    rewrite <- app_assoc. repeat split; reflexivity.
  - exists []. repeat split; reflexivity.
Qed.

Lemma waitForRateLimit_events (c : client) :
  exists l,
    events (waitForRateLimit c) = events c ++ CallWaitForRateLimit :: l
    /\ countEvents isEnsure l = 0%nat
    /\ countEvents isWait l = 0%nat
    /\ countEvents isGet l = 0%nat.
Proof.
  unfold waitForRateLimit. simpl.
  destruct (now c - lastRequestTime c <? minRequestInterval c)%Z; simpl.
  - eexists [_]. rewrite <- app_assoc. repeat split; reflexivity.
  - exists []. repeat split; reflexivity.
Qed.

(** On a 429 the loop sleeps for [retryAfterDelay] and goes to the next
    attempt: the header's text when there is one, 2^attempt * 1000 otherwise. *)
Lemma requestLoop_rate_limited (k attempt : nat) (c : client)
  (header : option string) (message : string) :
  apiRespond (apiRequests c) = ApiError (Some 429) header message ->
  requestLoop' (S k) attempt c
  = requestLoop' k (S attempt)
      (sleep (retryAfterDelay header attempt) (recordGet attempt c)).
Proof. intros H. simpl. rewrite H. reflexivity. Qed.

(** A header of decimal digits [n] in the timer's range is a wait of [n]
    milliseconds. *)
Lemma retryAfterDelay_header (text : string) (n : Z) (attempt : nat) :
  text <> "" -> toNumber text = Some n -> 1 <= n <= TIMEOUT_MAX ->
  timeoutMs (retryAfterDelay (Some text) attempt) = n.
Proof.
  intros Htext Hnum Hrange. unfold retryAfterDelay.
  destruct text; [congruence|]. cbn [truthyStr]. unfold timeoutMs. rewrite Hnum.
  destruct (Z.leb_spec 1 n), (Z.leb_spec n TIMEOUT_MAX); simpl; lia.
Qed.

(** C3, amended: one call of [makeRequest] calls [ensureAuthenticated] once
    and [waitForRateLimit] at most once (exactly once if any request goes
    out), both before the first HTTP attempt; the attempts and retries that
    follow, at most [retries] of them, call neither again: between an
    attempt and the next one there is a call of [authenticate] when the
    attempt was answered 401, and a sleep when it was answered 429 or 5xx. *)
Theorem makeRequest_prelude_once (c : client) :
  exists prelude attempts,
    events (snd (makeRequest' c))
      = events c ++ prelude ++ attempts
    /\ hd_error prelude = Some CallEnsureAuthenticated
    /\ countEvents isEnsure prelude = 1%nat
    /\ (countEvents isWait prelude <= 1)%nat
    /\ countEvents isGet prelude = 0%nat
    /\ countEvents isEnsure attempts = 0%nat
    /\ countEvents isWait attempts = 0%nat
    /\ (countEvents isGet attempts <= retries)%nat
    /\ (attempts <> [] -> countEvents isWait prelude = 1%nat)
    /\ retryTrace apiRespond (apiRequests c) 0 attempts.
Proof.
  unfold makeRequest.
  destruct (ensureAuthenticated_events c) as (l1 & H1 & He1 & Hw1 & Hg1).
  pose proof (ensureAuthenticated_apiRequests c) as Hreq1.
  destruct (ensureAuthenticated authRespond c) as [[u|m] c1]; simpl in H1, Hreq1.
  - destruct (waitForRateLimit_events c1) as (l2 & H2 & He2 & Hw2 & Hg2).
    destruct (requestLoop_events retries 0 (waitForRateLimit c1))
      as (l3 & H3 & He3 & Hw3 & Hg3 & Ht3).
    rewrite waitForRateLimit_apiRequests, Hreq1 in Ht3.
    exists (CallEnsureAuthenticated :: l1 ++ CallWaitForRateLimit :: l2), l3.
    rewrite H3, H2, H1.
    assert (Hwait : countEvents isWait
                      (CallEnsureAuthenticated :: l1 ++ CallWaitForRateLimit :: l2)
                    = 1%nat).
    { change (countEvents isWait (l1 ++ [CallWaitForRateLimit] ++ l2) = 1%nat).
      rewrite !countEvents_app, Hw1, Hw2. reflexivity. }
    split; [simpl; repeat (rewrite <- app_assoc; simpl); reflexivity|].
    split; [reflexivity|].
    split.
    { change (S (countEvents isEnsure (l1 ++ [CallWaitForRateLimit] ++ l2)) = 1%nat).
      rewrite !countEvents_app, He1, He2. reflexivity. }
    split; [lia|].
    split.
    { change (countEvents isGet (l1 ++ [CallWaitForRateLimit] ++ l2) = 0%nat).
      rewrite !countEvents_app, Hg1, Hg2. reflexivity. }
    repeat split; try assumption. intros _. exact Hwait.
  - exists (CallEnsureAuthenticated :: l1), []. simpl. rewrite H1, app_nil_r.
    split; [reflexivity|]. split; [reflexivity|].
    split; [change (S (countEvents isEnsure l1) = 1%nat); lia|].
    split; [change (countEvents isWait l1 <= 1)%nat; lia|].
    split; [exact Hg1|].
    split; [reflexivity|]. split; [reflexivity|].
    split; [unfold countEvents; simpl; lia|].
    split; [intros H; congruence|constructor].
Qed.

End Requests.

Section RequestExamples.
Import Client Spec.

(** Three 500s in a row: three attempts, then the throw after the loop. *)
Example three_server_errors :
  let api (n : nat) : apiResponse string :=
    ApiError (Some 500) None "Request failed with status code 500" in
  let run := makeRequest grantsToken api newUrl 3 (newClient 5000) in
  fst run
  = Thrown "Max retries (3) exceeded for https://oauth.reddit.com/r/x/new.json"
  /\ countEvents isGet (events (snd run)) = 3%nat
  /\ now (snd run) = 5000 + 1000 + 2000 + 4000.
Proof. vm_compute. repeat split. Qed.

(** C3, as stated, fails: after a 500 the retry goes out with a sleep but
    with no further call of [ensureAuthenticated] or [waitForRateLimit]. *)
Lemma retry_skips_prelude :
  let run := makeRequest grantsToken failsOnce newUrl 3 (newClient 5000) in
  fst run = Ok "body"
  /\ events (snd run)
     = [CallEnsureAuthenticated; AuthPost; CallWaitForRateLimit;
        HttpGet 0; Sleep (DelayNum 1000); HttpGet 1]
  /\ guardedGets false false (events (snd run)) = false
  /\ countEvents isGet (events (snd run)) = 2%nat
  /\ countEvents isEnsure (events (snd run)) = 1%nat
  /\ countEvents isWait (events (snd run)) = 1%nat.
Proof. vm_compute. repeat split. Qed.

(** C4 on the code: on a 429 with retry-after "2" the header text itself is
    handed to [setTimeout], a wait of 2 milliseconds, and the second attempt
    goes out 2 ms after the first; without the header the wait is
    2^attempt * 1000 ms. *)
Theorem retry_after_read_as_milliseconds :
  let run := makeRequest grantsToken limitsOnce newUrl 3 (newClient 5000) in
  events (snd run)
  = [CallEnsureAuthenticated; AuthPost; CallWaitForRateLimit;
     HttpGet 0; Sleep (DelayStr "2"); HttpGet 1]
  /\ timeoutMs (DelayStr "2") = 2
  /\ now (snd run) - now (newClient 5000) = 2
  /\ retryAfterDelay None 0 = DelayNum 1000
  /\ retryAfterDelay None 2 = DelayNum 4000.
Proof. vm_compute. repeat split. Qed.

End RequestExamples.

(** ** The cutoff walk *)

Section CutoffWalk.
Import Fetcher Post Feed Spec.

Variable subreddit : string.
Variable cutoffTime : Z.
Variable testMode : bool.
Variable commentsRespond : nat -> commentsResponse.

Local Abbreviation scan := (scanPage subreddit cutoffTime testMode commentsRespond).
Local Abbreviation walk := (pageLoop subreddit cutoffTime testMode commentsRespond).

Lemma scanPage_inWindow (children : list feedChild) :
  forall posts, Forall (inWindow cutoffTime) posts -> Forall (inWindow cutoffTime) (fst (scan children posts)).
Proof.
  induction children as [|x xs IH]; intros posts Hposts; simpl; [exact Hposts|].
  destruct (String.eqb (fc_kind x) "t3"); [|apply IH; exact Hposts].
  destruct (r_created_utc (fc_data x) <? cutoffTime)%Z eqn:Hold; [exact Hposts|].
  destruct (isDeletedPost (fc_data x)); [apply IH; exact Hposts|].
  assert (Hnew : Forall (inWindow cutoffTime)
                   (posts ++ [makeEntry subreddit testMode (fc_data x)
                                (commentsRespond (length posts))])).
  { apply Forall_app. split; [exact Hposts|].
    constructor; [|constructor]. unfold inWindow. simpl. lia. }
  match goal with |- context [if ?b then _ else _] => destruct b end;
    [exact Hnew|apply IH; exact Hnew].
Qed.

Lemma pageLoop_inWindow (responses : list pageResponse) :
  forall before after posts requested result,
    Forall (inWindow cutoffTime) posts ->
    fst (walk responses before after posts requested) = Fetched result ->
    Forall (inWindow cutoffTime) result.
Proof.
  induction responses as [|resp more IH];
    intros before after posts requested result Hposts Hrun; simpl in Hrun.
  - destruct (negb before && belowMax testMode (length posts)); simpl in Hrun;
      [discriminate|]. injection Hrun as <-. exact Hposts.
  - destruct (negb before && belowMax testMode (length posts)); simpl in Hrun;
      [|injection Hrun as <-; exact Hposts].
    destruct resp as [children next|message]; [|discriminate].
    destruct children as [|x xs]; [injection Hrun as <-; exact Hposts|].
    pose proof (scanPage_inWindow (x :: xs) posts Hposts) as Hscan.
    destruct (scan (x :: xs) posts) as [posts1 before1]. simpl in Hscan.
    destruct (truthyOpt next).
    + eapply IH; eassumption.
    + injection Hrun as <-. exact Hscan.
Qed.

(** A post older than the cutoff ends the scan of its page: what follows it
    on the page is not looked at. *)
Lemma scanPage_cut (c1 c2 : list feedChild) (old : feedChild) :
  fc_kind old = "t3" ->
  r_created_utc (fc_data old) < cutoffTime ->
  forall posts,
    scan (c1 ++ old :: c2) posts = (fst (scan c1 posts), true).
Proof.
  intros Hkind Hold.
  induction c1 as [|x xs IH]; intros posts; simpl.
  - rewrite Hkind. simpl.
    destruct (Z.ltb_spec (r_created_utc (fc_data old)) cutoffTime); [reflexivity|lia].
  - destruct (String.eqb (fc_kind x) "t3"); [|apply IH].
    destruct (r_created_utc (fc_data x) <? cutoffTime)%Z; [reflexivity|].
    destruct (isDeletedPost (fc_data x)); [apply IH|].
    match goal with |- context [if ?b then _ else _] => destruct b end;
      [reflexivity|apply IH].
Qed.

Lemma pageLoop_stopped (responses : list pageResponse) (after : option string)
  (posts : list redditPost) (requested : list (option string)) :
  walk responses true after posts requested = (Fetched posts, requested).
Proof. destruct responses; reflexivity. Qed.

Lemma pageLoop_page (children : list feedChild) (next : option string)
  (more : list pageResponse) (before : bool) (after : option string)
  (posts : list redditPost) (requested : list (option string)) :
  walk (PageOk children next :: more) before after posts requested =
  if negb before && belowMax testMode (length posts) then
    match children with
    | [] => (Fetched posts, requested ++ [after])
    | _ :: _ =>
        if truthyOpt next
        then walk more (snd (scan children posts)) next (fst (scan children posts))
               (requested ++ [after])
        else (Fetched (fst (scan children posts)), requested ++ [after])
    end
  else (Fetched posts, requested).
Proof.
  simpl. destruct (negb before && belowMax testMode (length posts)); [|reflexivity].
  destruct children as [|x xs]; [reflexivity|].
  destruct (scan (x :: xs) posts) as [p b]. reflexivity.
Qed.

Lemma pageLoop_cut (c1 c2 : list feedChild) (old : feedChild)
  (next : option string) (rest : list pageResponse) :
  fc_kind old = "t3" ->
  r_created_utc (fc_data old) < cutoffTime ->
  forall pre before after posts requested,
    walk (pre ++ PageOk (c1 ++ old :: c2) next :: rest) before after posts requested
    = walk (pre ++ [PageOk c1 None]) before after posts requested.
Proof.
  intros Hkind Hold.
  induction pre as [|resp more IH]; intros before after posts requested.
  - change ([] ++ ?l) with l. rewrite !pageLoop_page.
    destruct (negb before && belowMax testMode (length posts)); [|reflexivity].
    rewrite (scanPage_cut c1 c2 old Hkind Hold posts).
    cbn [truthyOpt fst snd]. rewrite pageLoop_stopped.
    destruct c1 as [|x xs]; cbn [app].
    + destruct (truthyOpt next); reflexivity.
    + destruct (truthyOpt next); reflexivity.
  - change ((resp :: more) ++ ?l) with (resp :: (more ++ l)).
    destruct resp as [children nxt|message]; [|reflexivity].
    rewrite !pageLoop_page.
    destruct (negb before && belowMax testMode (length posts)); [|reflexivity].
    destruct children as [|x xs]; [reflexivity|].
    destruct (truthyOpt nxt); [apply IH|reflexivity].
Qed.

Lemma pageLoop_requests (responses : list pageResponse) :
  forall before after posts requested,
    (length (snd (walk responses before after posts requested))
     <= length requested + length responses)%nat.
Proof.
  induction responses as [|resp more IH]; intros before after posts requested.
  - simpl. destruct (negb before && belowMax testMode (length posts)); simpl; lia.
  - destruct resp as [children nxt|message].
    + rewrite pageLoop_page.
      destruct (negb before && belowMax testMode (length posts)); [|simpl; lia].
      destruct children as [|x xs]; [simpl; rewrite length_app; simpl; lia|].
      destruct (truthyOpt nxt).
      * etransitivity; [apply IH|]. rewrite length_app. simpl. lia.
      * simpl. rewrite length_app. simpl. lia.
    + simpl.
      destruct (negb before && belowMax testMode (length posts)); simpl;
        [rewrite length_app; simpl|]; lia.
Qed.

Lemma pageLoop_last_page (c1 : list feedChild) :
  forall pre before after posts requested,
    fst (walk (pre ++ [PageOk c1 None]) before after posts requested) <> AwaitingPage.
Proof.
  induction pre as [|resp more IH]; intros before after posts requested.
  - change ([] ++ ?l) with l. rewrite pageLoop_page.
    destruct (negb before && belowMax testMode (length posts)); [|discriminate].
    destruct c1 as [|x xs]; simpl; discriminate.
  - change ((resp :: more) ++ ?l) with (resp :: (more ++ l)).
    destruct resp as [children nxt|message].
    + rewrite pageLoop_page.
      destruct (negb before && belowMax testMode (length posts)); [|discriminate].
      destruct children as [|x xs]; [discriminate|].
      destruct (truthyOpt nxt); [apply IH|discriminate].
    + simpl.
      destruct (negb before && belowMax testMode (length posts)); discriminate.
Qed.

(** C7: every post [fetchPosts] returns was created at or after the cutoff;
    and once a post created before the cutoff is met, the walk is over: the
    run is the one of a feed that ends just before that post, so nothing after
    it is emitted and no page after its page is requested. *)
Theorem fetchPosts_respects_cutoff (authenticated : outcome unit) :
  (forall responses posts,
      fst (fetchPosts subreddit cutoffTime testMode commentsRespond
             authenticated responses) = Fetched posts ->
      Forall (inWindow cutoffTime) posts)
  /\ (forall pre c1 old c2 next rest,
        fc_kind old = "t3" ->
        r_created_utc (fc_data old) < cutoffTime ->
        let run := fetchPosts subreddit cutoffTime testMode commentsRespond
                     authenticated (pre ++ PageOk (c1 ++ old :: c2) next :: rest) in
        run = fetchPosts subreddit cutoffTime testMode commentsRespond
                authenticated (pre ++ [PageOk c1 None])
        /\ fst run <> AwaitingPage
        /\ (length (snd run) <= S (length pre))%nat).
Proof.
  split.
  - intros responses posts Hrun. unfold fetchPosts in Hrun.
    destruct authenticated as [u|message]; [|discriminate].
    eapply pageLoop_inWindow; [|exact Hrun]. constructor.
  - intros pre c1 old c2 next rest Hkind Hold run. subst run.
    unfold fetchPosts. destruct authenticated as [u|message].
    + rewrite (pageLoop_cut c1 c2 old next rest Hkind Hold).
      split; [reflexivity|]. split; [apply pageLoop_last_page|].
      etransitivity; [apply pageLoop_requests|].
      rewrite length_app. simpl. lia.
    + split; [reflexivity|]. split; [discriminate|]. simpl. lia.
Qed.

End CutoffWalk.

Section CutoffExamples.
Import Fetcher Post Feed.

(** The statement at [sampleFeed]: "p1" and "p2" are returned, and the two
    requests made are for the first page and for the page after "p1". *)
Lemma fetchPosts_respects_cutoff_witness :
  let run := fetchPosts "x" 100 false noComments (Ok tt) sampleFeed in
  postIds (fst run) = ["p1"; "p2"]
  /\ snd run = [None; Some "t3_p1"]
  /\ fst run <> AwaitingPage.
Proof.
  destruct (proj2 (fetchPosts_respects_cutoff "x" 100 false noComments (Ok tt))
              [PageOk [feedPost "p1" 200] (Some "t3_p1")]
              [feedPost "p2" 150] (feedPost "p3" 50) [feedPost "p4" 40]
              (Some "t3_p4") [PageOk [feedPost "p5" 30] None]
              eq_refl eq_refl) as (Hrun & Hstop & _).
  split; [|split].
  - unfold sampleFeed. rewrite Hrun. reflexivity.
  - unfold sampleFeed. rewrite Hrun. reflexivity.
  - exact Hstop.
Defined.

End CutoffExamples.

(** ** Jobs *)

Section JobRuns.
Import Jobs Spec Terms.

Lemma plusStats_assoc (a b c : stats) :
  plusStats (plusStats a b) c = plusStats a (plusStats b c).
Proof. destruct a, b, c. unfold plusStats. simpl. f_equal; lia. Qed.

Lemma plusStats_zero_l (a : stats) : plusStats zeroStats a = a.
Proof. destruct a. reflexivity. Qed.

Lemma plusStats_zero_r (a : stats) : plusStats a zeroStats = a.
Proof. destruct a. unfold plusStats. simpl. f_equal; lia. Qed.


Lemma deliver_in_range (jobId : Z) (i : nat) (w : workerEvent)
  (chans : list channelRun) (evs : list event) :
  (i < length chans)%nat ->
  exists chans' evs',
    deliver jobId i w (chans, evs) = Some (chans', evs')
    /\ length chans' = length chans.
Proof.
  intros Hi. unfold deliver. simpl.
  destruct (lookup_lt_is_Some_2 chans i Hi) as [ch Hch]. rewrite Hch.
  destruct (handle jobId w ch) as [ch1 out].
  eexists _, _. split; [reflexivity|]. apply length_insert.
Qed.

(** With every event addressed to a channel of the job, all of them are
    handled. *)
Lemma deliverAll_in_range (jobId : Z) (ws : list (nat * workerEvent)) :
  forall chans evs,
    Forall (fun iw => (fst iw < length chans)%nat) ws ->
    exists chans' evs',
      deliverAll jobId ws (chans, evs) = Some (chans', evs')
      /\ length chans' = length chans.
Proof.
  induction ws as [|[i w] rest IH]; intros chans evs Hws; simpl.
  - eexists _, _. split; reflexivity.
  - apply List.Forall_cons_iff in Hws as [Hi Hrest]. simpl in Hi.
    destruct (deliver_in_range jobId i w chans evs Hi) as (c1 & e1 & Hd & Hlen).
    rewrite Hd.
    destruct (IH c1 e1) as (c2 & e2 & Hall & Hlen2).
    { rewrite Hlen. exact Hrest. }
    exists c2, e2. split; [exact Hall|]. rewrite Hlen2. exact Hlen.
Qed.

(** A job comes out of [createJob] pending, with its totals at zero and one
    channel run per channel. *)
Lemma createJob_fresh (channels : list channelConfig) (hours days : option Z)
  (testMode : bool) (t : Z) (m : manager) :
  exists j,
    jobs (snd (createJob channels hours days testMode t m))
      !! fst (createJob channels hours days testMode t m) = Some j
    /\ j_status j = Pending
    /\ j_totalStats j = zeroStats
    /\ length (j_channels j) = length channels.
Proof.
  eexists. split; [apply lookup_insert_eq|].
  split; [reflexivity|]. split; [reflexivity|]. apply length_map.
Qed.





End JobRuns.

Section JobExamples.
Import Jobs Spec Terms.

Example oneJob_lookup : jobs oneJob !! 1 = Some createdJob.
Proof. apply lookup_insert_eq. Qed.


End JobExamples.

Section DeleteJob.
Import Jobs.

(** C10: [deleteJob] on an unknown id returns false and changes nothing; on
    a running job it throws and changes nothing, the job staying in the
    registry; on any other job it returns true, removes that job and no
    other, and publishes one event, [job_deleted] with the id. *)
Theorem deleteJob_cases (m : manager) (jobId : Z) :
  (jobs m !! jobId = None -> deleteJob jobId m = (Ok false, m))
  /\ (forall j, jobs m !! jobId = Some j -> j_status j = Running ->
        deleteJob jobId m = (Thrown "Cannot delete a running job", m)
        /\ jobs (snd (deleteJob jobId m)) !! jobId = Some j)
  /\ (forall j, jobs m !! jobId = Some j -> j_status j <> Running ->
        exists m',
          deleteJob jobId m = (Ok true, m')
          /\ jobs m' = delete jobId (jobs m)
          /\ jobs m' !! jobId = None
          /\ (forall other, other <> jobId -> jobs m' !! other = jobs m !! other)
          /\ nextJobId m' = nextJobId m
          /\ published m' = published m ++ [job_deleted jobId]).
Proof.
  unfold deleteJob. split; [|split].
  - intros Hnone. rewrite Hnone. reflexivity.
  - intros j Hjob Hrun. rewrite Hjob.
    destruct (decide (j_status j = Running)); [|contradiction].
    split; [reflexivity|exact Hjob].
  - intros j Hjob Hrun. rewrite Hjob.
    destruct (decide (j_status j = Running)); [contradiction|].
    eexists. split; [reflexivity|]. simpl.
    split; [reflexivity|]. split; [apply lookup_delete_eq|].
    split; [|split; reflexivity].
    intros other Hother. apply lookup_delete_ne. congruence.
Qed.

(** The statement at the registry with one pending job: deleting it empties
    the registry and publishes [job_deleted 1] after [job_created]. *)
Lemma deleteJob_cases_witness :
  exists m',
    deleteJob 1 oneJob = (Ok true, m')
    /\ jobs m' !! 1 = None
    /\ published m' = published oneJob ++ [job_deleted 1].
Proof.
  destruct (proj2 (proj2 (deleteJob_cases oneJob 1)) createdJob)
    as (m' & Hdel & _ & Hgone & _ & _ & Hpub).
  - apply lookup_insert_eq.
  - discriminate.
  - exists m'. repeat split; assumption.
Defined.

End DeleteJob.

(** * Further properties *)

(** ** The comment tree, continued *)

Section CommentTrees.
Import Fetcher Terms.

(** Induction over the upstream tree: listings and their children. *)
Lemma jsListing_forest_ind (P : jsListing -> Prop) (Q : jsThing -> Prop) :
  P Absent ->
  (forall kind children, Forall Q children -> P (Object kind children)) ->
  (forall id author body score created permalink parent replies,
      P replies -> Q (T1 id author body score created permalink parent replies)) ->
  (forall count, Q (More count)) ->
  (forall kind, Q (OtherKind kind)) ->
  forall l, P l.
Proof.
  intros HAbsent HObject HT1 HMore HOther. fix IH 1. intros [|kind children].
  - exact HAbsent.
  - apply HObject. induction children as [|x xs IHxs]; constructor.
    + destruct x as [i a b s t p q replies|count|k].
      * apply HT1. apply IH.
      * apply HMore.
      * apply HOther.
    + exact IHxs.
Qed.

Lemma rawIds_Object (kind : string) (children : list jsThing) :
  rawIds (Object kind children) = rawItemIds children.
Proof.
  simpl. induction children as [|x xs IH]; [reflexivity|].
  destruct x; simpl; rewrite IH; reflexivity.
Qed.

Lemma cleanListing_Object (kind : string) (children : list jsThing) :
  cleanListing (Object kind children)
  = String.eqb kind "Listing" && cleanItems children.
Proof.
  reflexivity.
Qed.

Lemma flattenItems_cons (x : jsThing) (xs : list jsThing) (depth : nat) :
  flattenItems (x :: xs) depth = flattenItems [x] depth ++ flattenItems xs depth.
Proof. apply (flattenItems_app [x] xs). Qed.

Lemma flattenItems_one (i a b : string) (s t : Z) (p q : string)
  (replies : jsListing) (depth : nat) :
  flattenItems [T1 i a b s t p q replies] depth
  = if isDeletedComment a b then []
    else [Comment i a b s t depth p q (flattenComments replies (S depth))].
Proof. simpl. destruct (isDeletedComment a b); reflexivity. Qed.

Lemma rawItemIds_cons (x : jsThing) (xs : list jsThing) :
  rawItemIds (x :: xs) = rawItemIds [x] ++ rawItemIds xs.
Proof. destruct x; simpl; rewrite ?app_nil_r; reflexivity. Qed.

Lemma commentIds_app (xs ys : list comment) :
  commentIds (xs ++ ys) = commentIds xs ++ commentIds ys.
Proof. apply flat_map_app. Qed.

(** A property of fetched comments that holds for the output of every child
    holds for the output of the listing. *)
Lemma flattenItems_forallb (f : nat -> comment -> bool) (children : list jsThing) :
  Forall (fun x => forall d, forallb (f d) (flattenItems [x] d) = true) children ->
  forall d, forallb (f d) (flattenItems children d) = true.
Proof.
  induction 1 as [|x xs Hx _ IH]; intros d; [reflexivity|].
  rewrite flattenItems_cons, forallb_app, Hx, IH. reflexivity.
Qed.

(** The depths recorded are the true ones. *)
Lemma flattenComments_depthFrom (l : jsListing) :
  forall d, forallb (depthFrom d) (flattenComments l d) = true.
Proof.
  induction l using jsListing_forest_ind
    with (Q := fun x => forall d, forallb (depthFrom d) (flattenItems [x] d) = true).
  - reflexivity.
  - intros d. rewrite flattenComments_Object.
    destruct (String.eqb kind "Listing"); [|reflexivity].
    apply flattenItems_forallb. assumption.
  - intros d. rewrite flattenItems_one.
    destruct (isDeletedComment author body); [reflexivity|].
    simpl. rewrite Nat.eqb_refl, IHl. reflexivity.
  - reflexivity.
  - reflexivity.
Qed.

(** Nothing removed or deleted is emitted. *)
Lemma flattenComments_liveComment (l : jsListing) :
  forall d, forallb liveComment (flattenComments l d) = true.
Proof.
  induction l using jsListing_forest_ind
    with (Q := fun x => forall d, forallb liveComment (flattenItems [x] d) = true).
  - reflexivity.
  - intros d. rewrite flattenComments_Object.
    destruct (String.eqb kind "Listing"); [|reflexivity].
    apply (flattenItems_forallb (fun _ => liveComment)). assumption.
  - intros d. rewrite flattenItems_one.
    destruct (isDeletedComment author body) eqn:Hdel; [reflexivity|].
    simpl. rewrite Hdel, IHl. reflexivity.
  - reflexivity.
  - reflexivity.
Qed.

(** X1: in the output of [flattenComments] at depth [d] every comment
    records its true depth (the top-level ones [d], their replies [d + 1],
    and so on down the tree), and no comment emitted, at any level, is marked
    removed or deleted. *)
Theorem flattenComments_wellformed (l : jsListing) (d : nat) :
  forallb (depthFrom d) (flattenComments l d) = true
  /\ forallb liveComment (flattenComments l d) = true.
Proof.
  split; [apply flattenComments_depthFrom|apply flattenComments_liveComment].
Qed.

Lemma idsUnder_length (c : comment) : length (idsUnder c) = S (countUnder c).
Proof.
  induction c as [i a b s t d p q replies IH] using comment_forest_ind.
  simpl. f_equal. rewrite length_of_flat_map, <- list_sum_succ. f_equal.
  apply map_ext_Forall. exact IH.
Qed.

Lemma countComments_ids (comments : list comment) :
  countComments comments = length (commentIds comments).
Proof.
  unfold countComments, commentIds.
  rewrite length_of_flat_map, <- list_sum_succ. f_equal.
  apply map_ext. intros c. symmetry. apply idsUnder_length.
Qed.

Lemma flattenComments_sublist (l : jsListing) :
  forall d, commentIds (flattenComments l d) `sublist_of` rawIds l.
Proof.
  induction l using jsListing_forest_ind
    with (Q := fun x => forall d,
                 commentIds (flattenItems [x] d) `sublist_of` rawItemIds [x]).
  - intros d. reflexivity.
  - intros d. rewrite flattenComments_Object, rawIds_Object.
    destruct (String.eqb kind "Listing"); [|apply sublist_nil_l].
    induction H as [|x xs Hx _ IH]; [reflexivity|].
    rewrite flattenItems_cons, rawItemIds_cons, commentIds_app.
    apply sublist_app; [apply Hx|apply IH].
  - intros d. rewrite flattenItems_one.
    destruct (isDeletedComment author body); [apply sublist_nil_l|].
    simpl. rewrite !app_nil_r. apply sublist_skip. apply IHl.
  - intros d. reflexivity.
  - intros d. reflexivity.
Qed.

(** X2: the comments [flattenComments] emits are comments of the upstream
    tree, each at most once and in the upstream order (their ids are a
    subsequence of the upstream ids); [countComments] counts each of them
    once, so it never exceeds the number of upstream comments. *)
Theorem flattenComments_subsequence (l : jsListing) (d : nat) :
  commentIds (flattenComments l d) `sublist_of` rawIds l
  /\ countComments (flattenComments l d) = length (commentIds (flattenComments l d))
  /\ (countComments (flattenComments l d) <= length (rawIds l))%nat.
Proof.
  split; [apply flattenComments_sublist|]. split; [apply countComments_ids|].
  rewrite countComments_ids. apply sublist_length. apply flattenComments_sublist.
Qed.

(** X3: from a tree in which every listing has kind 'Listing' and no comment
    is marked removed or deleted, nothing is lost: the ids emitted are all the
    upstream ids, in order. *)
Theorem flattenComments_clean (l : jsListing) :
  cleanListing l = true ->
  forall d, commentIds (flattenComments l d) = rawIds l.
Proof.
  induction l using jsListing_forest_ind
    with (Q := fun x => cleanItems [x] = true ->
                 forall d, commentIds (flattenItems [x] d) = rawItemIds [x]).
  - reflexivity.
  - intros Hclean d. rewrite cleanListing_Object in Hclean.
    apply andb_true_iff in Hclean as [Hkind Hitems].
    rewrite flattenComments_Object, rawIds_Object, Hkind.
    induction H as [|x xs Hx _ IH]; [reflexivity|].
    assert (Hsplit : cleanItems [x] = true /\ cleanItems xs = true).
    { destruct x; simpl in *; [|split; [reflexivity|exact Hitems]..].
      apply andb_true_iff in Hitems as [Hx1 Hxs]. rewrite Hx1. split; [reflexivity|exact Hxs]. }
    destruct Hsplit as [H1 H2].
    rewrite flattenItems_cons, rawItemIds_cons, commentIds_app, (Hx H1), (IH H2).
    reflexivity.
  - intros Hclean d. simpl in Hclean. rewrite andb_true_r in Hclean.
    apply andb_true_iff in Hclean as [Hlive Hreplies].
    apply negb_true_iff in Hlive.
    rewrite flattenItems_one, Hlive. simpl. rewrite !app_nil_r, (IHl Hreplies).
    reflexivity.
  - reflexivity.
  - reflexivity.
Qed.

(** The statement at a clean tree of two comments. *)
Lemma flattenComments_clean_witness :
  commentIds
    (flattenComments
       (Object "Listing"
          [T1 "k1" "ann" "first" 3 100 "/k1" "t3_abc" (Object "Listing" [liveReply])]) 0)
  = ["k1"; "c1"].
Proof.
  exact (flattenComments_clean
           (Object "Listing"
              [T1 "k1" "ann" "first" 3 100 "/k1" "t3_abc" (Object "Listing" [liveReply])])
           eq_refl 0).
Defined.

End CommentTrees.

(** ** Ingestion, continued *)

Section IngestionAccounting.
Import Fetcher Post VectorDB Spec Terms.

Variable respond : nat -> storeResponse.

Lemma ingestAttempts_requests (item : document) (remaining : nat) :
  forall attempt st,
  exists k,
    (k <= remaining)%nat
    /\ (remaining <> 0%nat -> 1 <= k)%nat
    /\ requests (snd (ingestAttempts respond item remaining attempt st))
       = (requests st + k)%nat
    /\ postedIds (trace (snd (ingestAttempts respond item remaining attempt st)))
       = postedIds (trace st) ++ repeat (d_id item) k
    /\ match fst (ingestAttempts respond item remaining attempt st) with
       | Returned r =>
           ir_id r = d_id item
           /\ (ir_success r = true ->
               exists base chunks,
                 respond (requests st + k - 1)%nat = StoreOk base chunks
                 /\ ir_chromaId r = Some base)
       | Threw message => message = authFailedMessage
       end.
Proof.
  induction remaining as [|n IH]; intros attempt st; simpl.
  - exists 0%nat. simpl. rewrite app_nil_r. repeat split; try lia; try discriminate.
  - destruct (respond (requests st)) as [base chunks|status m data] eqn:Hresp.
    + exists 1%nat. simpl. rewrite postedIds_app.
      repeat split; try lia.
      intros _. exists base, chunks.
      replace (requests st + 1 - 1)%nat with (requests st) by lia.
      split; [exact Hresp|reflexivity].
    + destruct (isStatus status 401 || isStatus status 403).
      { exists 1%nat. simpl. rewrite postedIds_app. repeat split; lia. }
      destruct (isStatus status 422).
      { exists 1%nat. simpl. rewrite postedIds_app.
        repeat split; try lia; try discriminate. }
      destruct (isStatus status 429 || statusAtLeast status 500).
      * destruct (IH (S attempt)
                    (recordSleep (2 ^ Z.of_nat attempt * 1000)
                       (recordPost (d_id item) st)))
          as (k & Hk & _ & Hreq & Hids & Hout).
        exists (S k). simpl in Hreq, Hids.
        rewrite Hreq, Hids, !postedIds_app. simpl. rewrite app_nil_r, <- app_assoc.
        repeat split; try lia.
        destruct (fst (ingestAttempts respond item n (S attempt)
                         (recordSleep (2 ^ Z.of_nat attempt * 1000)
                            (recordPost (d_id item) st)))) as [r|message];
          [|exact Hout].
        destruct Hout as [Hid Hok]. split; [exact Hid|].
        intros Hs. destruct (Hok Hs) as (b & c & Hb & Hc). exists b, c.
        simpl in Hb.
        replace (requests st + S k - 1)%nat with (S (requests st) + k - 1)%nat by lia.
        split; assumption.
      * exists 1%nat. simpl. rewrite postedIds_app.
        repeat split; try lia; try discriminate.
Qed.

(** X4: whatever the store answers, [ingestItem] sends the item at least
    once and at most three times and sends nothing else; what it returns
    carries the item's id, and reports success only when the last answer was
    a success, whose [base_id] it passes on; what it throws is the
    authentication message. *)
Theorem ingestItem_requests (item : document) (st : storeState) :
  exists k,
    (1 <= k <= maxRetries)%nat
    /\ requests (snd (ingestItem respond item st)) = (requests st + k)%nat
    /\ postedIds (trace (snd (ingestItem respond item st)))
       = postedIds (trace st) ++ repeat (d_id item) k
    /\ match fst (ingestItem respond item st) with
       | Returned r =>
           ir_id r = d_id item
           /\ (ir_success r = true ->
               exists base chunks,
                 respond (requests st + k - 1)%nat = StoreOk base chunks
                 /\ ir_chromaId r = Some base)
       | Threw message => message = authFailedMessage
       end.
Proof.
  destruct (ingestAttempts_requests item maxRetries 0 st)
    as (k & Hk & Hpos & Hreq & Hids & Hout).
  exists k. unfold ingestItem. repeat split; try assumption.
  apply Hpos. discriminate.
Qed.

Lemma tally_consistent (item : document) (r : ingestResult) (res : results) :
  consistent res -> consistent (tally item r res).
Proof.
  unfold consistent, tally. intros (Hs & Hf & Hp & Hc).
  destruct (ir_success r); simpl.
  - destruct (d_isComment item); repeat split; lia.
  - rewrite length_app. simpl. repeat split; lia.
Qed.

Lemma ingestItems_consistent (items : list document) :
  forall st res,
    consistent res -> consistent (snd (ingestItems respond items st res)).
Proof.
  induction items as [|x xs IH]; intros st res Hres; simpl; [exact Hres|].
  destruct (ingestItem respond x st) as [[r|m] st1]; simpl; [|exact Hres].
  apply IH. apply tally_consistent. exact Hres.
Qed.

Lemma tally_handled (item : document) (r : ingestResult) (res : results) :
  handled (tally item r res) = handled res + 1
  /\ total (tally item r res) = total res.
Proof. unfold handled, tally. destruct (ir_success r); simpl; split; lia. Qed.

(** The loop over a post's items: each item it gets through is counted once,
    and a throw leaves at least one item uncounted. *)
Lemma ingestItems_handled (items : list document) :
  forall st res,
    total (snd (ingestItems respond items st res)) = total res
    /\ match fst (fst (ingestItems respond items st res)) with
       | None =>
           handled (snd (ingestItems respond items st res))
           = handled res + Z.of_nat (length items)
       | Some _ =>
           handled res <= handled (snd (ingestItems respond items st res))
           < handled res + Z.of_nat (length items)
       end.
Proof.
  induction items as [|x xs IH]; intros st res; simpl.
  - split; [reflexivity|lia].
  - destruct (ingestItem respond x st) as [[r|m] st1]; simpl.
    + destruct (IH (recordSleep 100 st1) (tally x r res)) as [Ht Hh].
      destruct (tally_handled x r res) as [Hh1 Ht1].
      split; [lia|].
      destruct (fst (fst (ingestItems respond xs (recordSleep 100 st1) (tally x r res))));
        lia.
    + split; [reflexivity|lia].
Qed.

Lemma ingestItems_failed (items : list document) :
  forall st res, failed res <= failed (snd (ingestItems respond items st res)).
Proof.
  induction items as [|x xs IH]; intros st res; simpl; [lia|].
  destruct (ingestItem respond x st) as [[r|m] st1]; simpl; [|lia].
  specialize (IH (recordSleep 100 st1) (tally x r res)).
  assert (failed res <= failed (tally x r res))
    by (unfold tally; destruct (ir_success r); simpl; lia).
  lia.
Qed.

Lemma documentsOf_cons (rp : redditPost) (rest : list redditPost)
  (platformName : option string) :
  documentsOf (rp :: rest) platformName
  = emitted rp platformName ++ documentsOf rest platformName.
Proof. reflexivity. Qed.

Lemma undated_cons (rp : redditPost) (rest : list redditPost) :
  undated (rp :: rest) = if timesValid rp then undated rest else rp :: undated rest.
Proof. unfold undated. cbn [List.filter]. destruct (timesValid rp); reflexivity. Qed.

(** A post is turned into its documents, the root first, or is refused for a
    time it holds, and then gives no document. *)
Lemma emitted_cases (rp : redditPost) (platformName : option string) :
  (timesValid rp = true
   /\ transformPostToVectorFormat rp platformName = Ok (emitted rp platformName)
   /\ emitted rp platformName
      = rootDoc rp platformName
        :: map (replyDoc (p_id (rp_post rp))
                  (platformOf platformName (rp_subreddit rp)))
               (withParent (rp_comments rp)))
  \/ (timesValid rp = false
      /\ transformPostToVectorFormat rp platformName = Thrown invalidTimeMessage
      /\ emitted rp platformName = []).
Proof.
  unfold emitted. rewrite transformPost_run.
  destruct (timesValid rp); [left|right]; repeat split.
Qed.

Lemma recordPostFailure_consistent (rp : redditPost) (message : string)
  (res : results) :
  consistent res -> consistent (recordPostFailure rp message res).
Proof.
  intros (Hs & Hf & Hp & Hcm). unfold consistent, recordPostFailure.
  simpl. rewrite length_app. simpl. repeat split; lia.
Qed.

Lemma ingestPostsFrom_accounting (redditPosts : list redditPost)
  (platformName : option string) :
  forall st res,
    consistent res ->
    let out := snd (ingestPostsFrom respond redditPosts platformName st res) in
    let docs := documentsOf redditPosts platformName in
    let refused := undated redditPosts in
    consistent out
    /\ total out = total res + Z.of_nat (length docs)
    /\ handled res <= handled out
       <= handled res + Z.of_nat (length docs) + Z.of_nat (length refused)
    /\ failed res + Z.of_nat (length refused) <= failed out.
Proof.
  induction redditPosts as [|rp rest IH]; intros st res Hres; cbv zeta.
  - simpl. repeat split; try apply Hres; lia.
  - cbn [ingestPostsFrom]. rewrite documentsOf_cons, length_app, undated_cons.
    destruct (emitted_cases rp platformName) as [(Hv & Hrun & _)|(Hv & Hrun & Hnil)];
      rewrite Hrun, Hv.
    + set (items := emitted rp platformName).
      pose proof (ingestItems_consistent items st (addTotal (length items) res)) as Hc.
      pose proof (ingestItems_handled items st (addTotal (length items) res)) as [Ht Hh].
      pose proof (ingestItems_failed items st (addTotal (length items) res)) as Hfl.
      destruct (ingestItems respond items st (addTotal (length items) res))
        as [[o st1] res1]. cbn [fst snd] in Hc, Ht, Hh, Hfl.
      assert (Hc1 : consistent res1) by (apply Hc; exact Hres).
      change (handled (addTotal (length items) res)) with (handled res) in Hh.
      change (failed (addTotal (length items) res)) with (failed res) in Hfl.
      change (total (addTotal (length items) res))
        with (total res + Z.of_nat (length items)) in Ht.
      destruct o as [message|].
      * pose proof (recordPostFailure_consistent rp message res1 Hc1) as Hc2.
        destruct (IH st1 (recordPostFailure rp message res1) Hc2)
          as (Hc3 & Ht3 & Hh3 & Hf3).
        change (total (recordPostFailure rp message res1)) with (total res1) in Ht3.
        change (failed (recordPostFailure rp message res1)) with (failed res1 + 1) in Hf3.
        assert (Hone : handled (recordPostFailure rp message res1) = handled res1 + 1)
          by (unfold handled; simpl; lia).
        rewrite Hone in Hh3.
        split; [exact Hc3|]. repeat split; lia.
      * destruct (IH st1 res1 Hc1) as (Hc3 & Ht3 & Hh3 & Hf3).
        split; [exact Hc3|]. repeat split; lia.
    + rewrite Hnil. cbn [length].
      pose proof (recordPostFailure_consistent rp invalidTimeMessage res Hres) as Hc2.
      destruct (IH st (recordPostFailure rp invalidTimeMessage res) Hc2)
        as (Hc3 & Ht3 & Hh3 & Hf3).
      change (total (recordPostFailure rp invalidTimeMessage res)) with (total res) in Ht3.
      change (failed (recordPostFailure rp invalidTimeMessage res))
        with (failed res + 1) in Hf3.
      assert (Hone : handled (recordPostFailure rp invalidTimeMessage res)
                     = handled res + 1)
        by (unfold handled; simpl; lia).
      rewrite Hone in Hh3.
      split; [exact Hc3|]. repeat split; lia.
Qed.

(** X5: the tally [ingestPosts] returns is consistent, whatever the store
    answers: [total] is the number of documents built for the batch (a post
    refused for a time it holds gives none), [successful] is
    [posts + comments], [failed] is the number of recorded errors and counts
    every refused post, and successes and failures together exceed [total]
    by at most the number of refused posts. *)
Theorem ingestPosts_tally (redditPosts : list redditPost)
  (platformName : option string) (st : storeState) :
  let out := snd (ingestPosts respond redditPosts platformName st) in
  let refused := Z.of_nat (length (undated redditPosts)) in
  total out = Z.of_nat (length (documentsOf redditPosts platformName))
  /\ successful out = posts out + comments out
  /\ failed out = Z.of_nat (length (errors out))
  /\ 0 <= successful out /\ refused <= failed out
  /\ successful out + failed out <= total out + refused.
Proof.
  cbv zeta. unfold ingestPosts.
  assert (H0 : consistent emptyResults) by (repeat split; simpl; lia).
  destruct (ingestPostsFrom_accounting redditPosts platformName st emptyResults H0)
    as ((Hs & Hf & Hp & Hc) & Ht & Hh & Hfl).
  change (total emptyResults) with 0 in Ht.
  change (failed emptyResults) with 0 in Hfl.
  change (handled emptyResults) with 0 in Hh. unfold handled in Hh.
  repeat split; lia.
Qed.

Lemma ingestItem_returns (item : document) (st : storeState) :
  (forall n, isAuthStatus (respond n) = false) ->
  exists r, fst (ingestItem respond item st) = Returned r.
Proof.
  intros Hno. destruct (ingestItem respond item st) as [[r|message] st1] eqn:Hrun.
  - exists r. reflexivity.
  - destruct (ingestAttempts_threw respond item maxRetries 0 st message st1 Hrun)
      as (_ & k & _ & _ & _ & Hauth).
    rewrite Hno in Hauth. discriminate.
Qed.

Lemma ingestItems_no_auth (items : list document) :
  (forall n, isAuthStatus (respond n) = false) ->
  forall st res,
    fst (fst (ingestItems respond items st res)) = None
    /\ (requests st + length items
        <= requests (snd (fst (ingestItems respond items st res)))
        <= requests st + 3 * length items)%nat
    /\ exists sent,
         postedIds (trace (snd (fst (ingestItems respond items st res))))
         = postedIds (trace st) ++ sent
         /\ Forall (fun d => In (d_id d) sent) items.
Proof.
  intros Hno. induction items as [|x xs IH]; intros st res; simpl.
  - split; [reflexivity|]. split; [lia|]. exists []. rewrite app_nil_r.
    split; [reflexivity|constructor].
  - destruct (ingestItem_returns x st Hno) as [r Hr].
    destruct (ingestAttempts_requests x maxRetries 0 st)
      as (k & Hk & Hpos & Hreq & Hids & _).
    fold (ingestItem respond x st) in Hreq, Hids.
    destruct (ingestItem respond x st) as [o st1]. simpl in Hr, Hreq, Hids. subst o.
    destruct (IH (recordSleep 100 st1) (tally x r res))
      as (Hnone & Hbound & sent & Hsent & Hall).
    split; [exact Hnone|]. simpl in Hbound, Hsent.
    assert (1 <= k)%nat by (apply Hpos; discriminate). unfold maxRetries in Hk.
    split; [lia|].
    exists (repeat (d_id x) k ++ sent).
    rewrite Hsent, postedIds_app, Hids. simpl. rewrite app_nil_r, <- app_assoc.
    split; [reflexivity|]. constructor.
    + apply in_or_app. left. destruct k; [lia|]. left. reflexivity.
    + eapply List.Forall_impl; [|exact Hall]. intros d Hd.
      apply in_or_app. right. exact Hd.
Qed.

Lemma ingestPostsFrom_no_auth (redditPosts : list redditPost)
  (platformName : option string) :
  (forall n, isAuthStatus (respond n) = false) ->
  forall st res,
    let out := ingestPostsFrom respond redditPosts platformName st res in
    let docs := documentsOf redditPosts platformName in
    handled (snd out)
    = handled res + Z.of_nat (length docs) + Z.of_nat (length (undated redditPosts))
    /\ (requests st + length docs <= requests (fst out)
        <= requests st + 3 * length docs)%nat
    /\ exists sent,
         postedIds (trace (fst out)) = postedIds (trace st) ++ sent
         /\ Forall (fun d => In (d_id d) sent) docs.
Proof.
  intros Hno. induction redditPosts as [|rp rest IH]; intros st res; cbv zeta.
  - simpl. split; [lia|]. split; [lia|]. exists []. rewrite app_nil_r.
    split; [reflexivity|constructor].
  - cbn [ingestPostsFrom]. rewrite documentsOf_cons, length_app, undated_cons.
    destruct (emitted_cases rp platformName) as [(Hv & Hrun & _)|(Hv & Hrun & Hnil)];
      rewrite Hrun, Hv.
    + set (items := emitted rp platformName).
      destruct (ingestItems_no_auth items Hno st (addTotal (length items) res))
        as (Hnone & Hbound & sent & Hsent & Hall).
      pose proof (ingestItems_handled items st (addTotal (length items) res)) as [_ Hh].
      destruct (ingestItems respond items st (addTotal (length items) res))
        as [[o st1] res1]. cbn [fst snd] in Hnone, Hbound, Hsent, Hh. subst o.
      change (handled (addTotal (length items) res)) with (handled res) in Hh.
      destruct (IH st1 res1) as (Hh2 & Hb2 & sent2 & Hsent2 & Hall2).
      split; [lia|]. split; [lia|].
      exists (sent ++ sent2). rewrite Hsent2, Hsent, <- app_assoc.
      split; [reflexivity|]. apply Forall_app. split.
      * eapply List.Forall_impl; [|exact Hall]. intros d Hd.
        apply in_or_app. left. exact Hd.
      * eapply List.Forall_impl; [|exact Hall2]. intros d Hd.
        apply in_or_app. right. exact Hd.
    + rewrite Hnil. cbn [length app].
      destruct (IH st (recordPostFailure rp invalidTimeMessage res))
        as (Hh2 & Hb2 & sent2 & Hsent2 & Hall2).
      assert (Hone : handled (recordPostFailure rp invalidTimeMessage res)
                     = handled res + 1)
        by (unfold handled; simpl; lia).
      rewrite Hone in Hh2.
      split; [lia|]. split; [lia|].
      exists sent2. split; [exact Hsent2|exact Hall2].
Qed.

(** X6: as long as the store never answers 401 or 403, [ingestPosts]
    accounts for every document it builds: each is sent at least once and at
    most three times, and each ends up counted exactly once, as a success or
    as a failure; the only other failures counted are the posts refused for a
    time they hold, one each. *)
Theorem ingestPosts_without_auth_errors (redditPosts : list redditPost)
  (platformName : option string) (st : storeState) :
  (forall n, isAuthStatus (respond n) = false) ->
  let out := ingestPosts respond redditPosts platformName st in
  let docs := documentsOf redditPosts platformName in
  successful (snd out) + failed (snd out)
  = total (snd out) + Z.of_nat (length (undated redditPosts))
  /\ (requests st + length docs <= requests (fst out)
      <= requests st + 3 * length docs)%nat
  /\ Forall (fun d => In (d_id d) (postedIds (trace (fst out)))) docs.
Proof.
  intros Hno. cbv zeta. unfold ingestPosts.
  destruct (ingestPostsFrom_no_auth redditPosts platformName Hno st emptyResults)
    as (Hh & Hb & sent & Hsent & Hall).
  assert (H0 : consistent emptyResults) by (repeat split; simpl; lia).
  destruct (ingestPostsFrom_accounting redditPosts platformName st emptyResults H0)
    as (_ & Ht & _).
  change (handled emptyResults) with 0 in Hh. change (total emptyResults) with 0 in Ht.
  unfold handled in Hh. split; [lia|]. split; [exact Hb|].
  rewrite Hsent. eapply List.Forall_impl; [|exact Hall]. intros d Hd.
  apply in_or_app. right. exact Hd.
Qed.

(** X7: when the store keeps answering 429 or 5xx, [ingestItem] gives up
    after three requests, having waited 1, 2 and 4 seconds after them, and
    returns the failure 'Max retries (3) exceeded' instead of throwing. *)
Theorem ingestItem_gives_up (item : document) (st : storeState) :
  (forall n, isRetryable (respond n) = true) ->
  fst (ingestItem respond item st)
  = Returned {| ir_success := false; ir_id := d_id item; ir_chromaId := None;
                ir_chunks := None; ir_error := Some "Max retries (3) exceeded";
                ir_details := None |}
  /\ requests (snd (ingestItem respond item st)) = (requests st + 3)%nat
  /\ trace (snd (ingestItem respond item st))
     = trace st ++ [Posted (d_id item); Slept 1000; Posted (d_id item); Slept 2000;
                    Posted (d_id item); Slept 4000].
Proof.
  intros Hretry. unfold ingestItem, maxRetries.
  assert (Hstep : forall k attempt s,
             ingestAttempts respond item (S k) attempt s
             = ingestAttempts respond item k (S attempt)
                 (recordSleep (2 ^ Z.of_nat attempt * 1000) (recordPost (d_id item) s))).
  { intros k attempt s. simpl. specialize (Hretry (requests s)).
    destruct (respond (requests s)) as [b c|status m data]; [discriminate|].
    simpl in Hretry. destruct (retryable_not_final status Hretry) as [H1 H2].
    rewrite H1, H2, Hretry. reflexivity. }
  rewrite !Hstep. simpl. repeat split; try lia.
  rewrite <- !app_assoc. reflexivity.
Qed.

End IngestionAccounting.

Section IngestionAccepted.
Import Fetcher Post VectorDB Spec Terms.

Variable respond : nat -> storeResponse.
Hypothesis accepted : forall n, isAccepted (respond n) = true.

Lemma ingestItem_accepted (item : document) (st : storeState) :
  exists r,
    ingestItem respond item st = (Returned r, recordPost (d_id item) st)
    /\ ir_success r = true.
Proof.
  unfold ingestItem, maxRetries. simpl. specialize (accepted (requests st)).
  destruct (respond (requests st)) as [b c|status m data]; [|discriminate].
  eexists. split; reflexivity.
Qed.

Lemma ingestItems_accepted (items : list document) :
  forall st res,
  exists st1 res1,
    ingestItems respond items st res = (None, st1, res1)
    /\ postedIds (trace st1) = postedIds (trace st) ++ map d_id items
    /\ requests st1 = (requests st + length items)%nat
    /\ comments res1 = comments res + Z.of_nat (commentDocs items)
    /\ posts res1 = posts res + Z.of_nat (length items - commentDocs items)
    /\ successful res1 = successful res + Z.of_nat (length items)
    /\ failed res1 = failed res
    /\ errors res1 = errors res
    /\ total res1 = total res.
Proof.
  induction items as [|x xs IH]; intros st res.
  - exists st, res. simpl. rewrite app_nil_r. unfold commentDocs. simpl.
    repeat split; try reflexivity; lia.
  - destruct (ingestItem_accepted x st) as (r & Hrun & Hok).
    destruct (IH (recordSleep 100 (recordPost (d_id x) st)) (tally x r res))
      as (st1 & res1 & Hrest & Hids & Hreq & Hc & Hp & Hs & Hf & He & Ht).
    exists st1, res1. cbn [ingestItems]. rewrite Hrun, Hrest.
    split; [reflexivity|].
    assert (Hle : (commentDocs xs <= length xs)%nat)
      by (unfold commentDocs; apply List.filter_length_le).
    unfold tally in *. rewrite Hok in *. simpl in *.
    rewrite !postedIds_app in Hids. simpl in Hids. rewrite app_nil_r in Hids.
    rewrite Hids, <- app_assoc. unfold commentDocs in *. simpl.
    destruct (d_isComment x); simpl; repeat split; try assumption; try lia;
      reflexivity.
Qed.

Lemma emitted_commentDocs (rp : redditPost) (platformName : option string) :
  timesValid rp = true ->
  (1 <= length (emitted rp platformName))%nat
  /\ (commentDocs (emitted rp platformName)
      = length (emitted rp platformName) - 1)%nat.
Proof.
  intros Hv.
  destruct (emitted_cases rp platformName) as [(_ & _ & ->)|(Hv' & _)];
    [|congruence].
  unfold commentDocs. cbn [length List.filter rootDoc postItem d_isComment].
  split; [lia|]. cbn [Nat.sub]. rewrite Nat.sub_0_r. f_equal.
  apply List.forallb_filter_id.
  apply forallb_forall. apply List.Forall_forall. apply replyDoc_isComment.
Qed.

Lemma ingestPostsFrom_accepted (redditPosts : list redditPost)
  (platformName : option string) :
  forall st res,
    let out := ingestPostsFrom respond redditPosts platformName st res in
    let docs := documentsOf redditPosts platformName in
    let refused := undated redditPosts in
    postedIds (trace (fst out)) = postedIds (trace st) ++ map d_id docs
    /\ requests (fst out) = (requests st + length docs)%nat
    /\ posts (snd out)
       = posts res + Z.of_nat (length redditPosts) - Z.of_nat (length refused)
    /\ comments (snd out)
       = comments res + Z.of_nat (length docs)
         - (Z.of_nat (length redditPosts) - Z.of_nat (length refused))
    /\ successful (snd out) = successful res + Z.of_nat (length docs)
    /\ failed (snd out) = failed res + Z.of_nat (length refused)
    /\ errors (snd out) = errors res ++ map undatedEntry refused.
Proof.
  induction redditPosts as [|rp rest IH]; intros st res; cbv zeta.
  - simpl. rewrite !app_nil_r. repeat split; try reflexivity; lia.
  - cbn [ingestPostsFrom]. rewrite documentsOf_cons, length_app, map_app, undated_cons.
    destruct (emitted_cases rp platformName) as [(Hv & Hrun & _)|(Hv & Hrun & Hnil)];
      rewrite Hrun, Hv.
    + destruct (emitted_commentDocs rp platformName Hv) as [Hlen Hcd].
      set (items := emitted rp platformName) in *.
      destruct (ingestItems_accepted items st (addTotal (length items) res))
        as (st1 & res1 & Hitems & Hids & Hreq & Hc & Hp & Hs & Hf & He & Ht).
      rewrite Hitems.
      destruct (IH st1 res1) as (Hids2 & Hreq2 & Hp2 & Hc2 & Hs2 & Hf2 & He2).
      cbn [addTotal comments posts successful failed errors] in Hc, Hp, Hs, Hf, He.
      rewrite Hids2, Hids, <- app_assoc. cbn [length].
      repeat split; try lia; congruence.
    + rewrite Hnil.
      destruct (IH st (recordPostFailure rp invalidTimeMessage res))
        as (Hids2 & Hreq2 & Hp2 & Hc2 & Hs2 & Hf2 & He2).
      cbn [recordPostFailure comments posts successful failed errors]
        in Hp2, Hc2, Hs2, Hf2, He2.
      cbn [length app map]. rewrite He2, <- app_assoc.
      repeat split; try lia; try assumption; reflexivity.
Qed.

(** X8: when the store accepts every request, [ingestPosts] sends each
    document it builds exactly once, post by post with the post before its
    comments, and counts them all as successes; the failures and errors
    recorded are exactly the posts refused for a time they hold, one entry
    each under the post's id with the message 'Invalid time value';
    [posts] is the number of the other posts and [comments] the number of
    the other documents. *)
Theorem ingestPosts_all_accepted (redditPosts : list redditPost)
  (platformName : option string) (st : storeState) :
  let out := ingestPosts respond redditPosts platformName st in
  let docs := documentsOf redditPosts platformName in
  let refused := undated redditPosts in
  postedIds (trace (fst out)) = postedIds (trace st) ++ map d_id docs
  /\ requests (fst out) = (requests st + length docs)%nat
  /\ total (snd out) = Z.of_nat (length docs)
  /\ successful (snd out) = Z.of_nat (length docs)
  /\ failed (snd out) = Z.of_nat (length refused)
  /\ errors (snd out) = map undatedEntry refused
  /\ posts (snd out) = Z.of_nat (length redditPosts) - Z.of_nat (length refused)
  /\ comments (snd out) = Z.of_nat (length docs) - posts (snd out).
Proof.
  cbv zeta. unfold ingestPosts.
  destruct (ingestPostsFrom_accepted redditPosts platformName st emptyResults)
    as (Hids & Hreq & Hp & Hc & Hs & Hf & He).
  assert (H0 : consistent emptyResults) by (repeat split; simpl; lia).
  destruct (ingestPostsFrom_accounting respond redditPosts platformName st
              emptyResults H0) as (_ & Ht & _).
  cbn [emptyResults total posts comments successful failed errors app] in *.
  repeat split; try assumption; lia.
Qed.

End IngestionAccepted.

Section IngestionRuns.
Import Fetcher Post VectorDB Spec Terms.

(** The statement with a store that accepts everything, at [samplePost]. *)
Lemma ingestPosts_without_auth_errors_witness :
  let out := ingestPosts (fun _ => StoreOk "base" 1) [samplePost; undatedPost] None
               initialStore in
  successful (snd out) + failed (snd out) = total (snd out) + 1.
Proof.
  refine (proj1 (ingestPosts_without_auth_errors (fun _ => StoreOk "base" 1)
                   [samplePost; undatedPost] None initialStore _)).
  reflexivity.
Defined.

(** The statement with a store that is always unavailable. *)
Lemma ingestItem_gives_up_witness :
  requests (snd (ingestItem (fun _ => StoreError (Some 503) "Service Unavailable" "")
                   (rootDoc samplePost None) initialStore)) = 3%nat.
Proof.
  refine (proj1 (proj2 (ingestItem_gives_up
                          (fun _ => StoreError (Some 503) "Service Unavailable" "")
                          (rootDoc samplePost None) initialStore _))).
  reflexivity.
Defined.

(** The statement at a batch of three posts, one of them refused: five
    documents in all, and one failure. *)
Lemma ingestPosts_all_accepted_witness :
  let out := ingestPosts (fun _ => StoreOk "base" 1)
               [samplePost; undatedPost; linkEntry] None initialStore in
  postedIds (trace (fst out)) = ["abc"; "k1"; "abc_k2"; "k3"; "lnk"]
  /\ posts (snd out) = 2 /\ comments (snd out) = 3 /\ failed (snd out) = 1
  /\ errors (snd out)
     = [{| e_id := "late"; e_error := Some "Invalid time value";
           e_details := None |}].
Proof.
  destruct (ingestPosts_all_accepted (fun _ => StoreOk "base" 1) (fun _ => eq_refl)
              [samplePost; undatedPost; linkEntry] None initialStore)
    as (Hids & _ & _ & _ & Hf & He & Hp & Hc).
  split; [exact Hids|]. split; [exact Hp|]. split; [|split; [exact Hf|exact He]].
  rewrite Hc, Hp. reflexivity.
Defined.

End IngestionRuns.

(** ** The cutoff walk, continued *)

Section FetchInvariants.
Import Fetcher Post Feed Spec Terms.

Variable subreddit : string.
Variable cutoffTime : Z.
Variable testMode : bool.

Section OneOracle.

Variable commentsRespond : nat -> commentsResponse.

Local Abbreviation scan := (scanPage subreddit cutoffTime testMode commentsRespond).
Local Abbreviation walk := (pageLoop subreddit cutoffTime testMode commentsRespond).
Local Abbreviation entry := (makeEntry subreddit testMode).

(** What holds of every entry made from a post that passed the checks holds
    of everything a page adds. *)
Lemma scanPage_Forall (P : redditPost -> Prop) :
  (forall raw resp,
      isDeletedPost raw = false -> cutoffTime <= r_created_utc raw ->
      P (entry raw resp)) ->
  forall children posts, Forall P posts -> Forall P (fst (scan children posts)).
Proof.
  intros Hnew. induction children as [|x xs IH]; intros posts Hposts; simpl;
    [exact Hposts|].
  destruct (String.eqb (fc_kind x) "t3"); [|apply IH; exact Hposts].
  destruct (Z.ltb_spec (r_created_utc (fc_data x)) cutoffTime); [exact Hposts|].
  destruct (isDeletedPost (fc_data x)) eqn:Hdel; [apply IH; exact Hposts|].
  assert (Hpush : Forall P (posts ++ [entry (fc_data x) (commentsRespond (length posts))])).
  { apply Forall_app. split; [exact Hposts|].
    constructor; [|constructor]. apply Hnew; [exact Hdel|lia]. }
  match goal with |- context [if ?b then _ else _] => destruct b end;
    [exact Hpush|apply IH; exact Hpush].
Qed.

Lemma pageLoop_Forall (P : redditPost -> Prop) :
  (forall raw resp,
      isDeletedPost raw = false -> cutoffTime <= r_created_utc raw ->
      P (entry raw resp)) ->
  forall responses before after posts requested result,
    Forall P posts ->
    fst (walk responses before after posts requested) = Fetched result ->
    Forall P result.
Proof.
  intros Hnew. induction responses as [|resp more IH];
    intros before after posts requested result Hposts Hrun.
  - simpl in Hrun.
    destruct (negb before && belowMax testMode (length posts)); [discriminate|].
    injection Hrun as <-. exact Hposts.
  - destruct resp as [children next|message].
    + rewrite pageLoop_page in Hrun.
      destruct (negb before && belowMax testMode (length posts));
        [|injection Hrun as <-; exact Hposts].
      destruct children as [|x xs]; [injection Hrun as <-; exact Hposts|].
      pose proof (scanPage_Forall P Hnew (x :: xs) posts Hposts) as Hscan.
      destruct (truthyOpt next).
      * eapply IH; eassumption.
      * injection Hrun as <-. exact Hscan.
    + simpl in Hrun.
      destruct (negb before && belowMax testMode (length posts));
        [discriminate|injection Hrun as <-; exact Hposts].
Qed.

Lemma entry_entryOf (raw : rawPost) (resp : commentsResponse) :
  isDeletedPost raw = false -> entryOf subreddit testMode (entry raw resp).
Proof.
  intros Hdel. unfold isDeletedPost in Hdel. apply orb_false_iff in Hdel as [Ha Ht].
  unfold entryOf. simpl. repeat split.
  - intros Heq. rewrite Heq in Ha. discriminate.
  - destruct (r_selftext raw) as [text|]; simpl; [|discriminate].
    intros Heq. unfold orStr in Heq. destruct (truthyStr text); [|discriminate].
    rewrite Heq in Ht. discriminate.
Qed.

(** X9: every entry [fetchPosts] returns is tagged with the subreddit and
    the test flag, carries the id [reddit_post_] followed by its post's id,
    and is not a post marked deleted (author) or removed (text): those are
    passed over. *)
Theorem fetchPosts_entries (authenticated : outcome unit)
  (responses : list pageResponse) (result : list redditPost) :
  fst (fetchPosts subreddit cutoffTime testMode commentsRespond authenticated responses)
  = Fetched result ->
  Forall (entryOf subreddit testMode) result.
Proof.
  unfold fetchPosts. destruct authenticated as [u|message]; [|discriminate].
  apply pageLoop_Forall; [|constructor].
  intros raw resp Hdel _. apply entry_entryOf. exact Hdel.
Qed.

Lemma scanPage_capped (children : list feedChild) :
  testMode = true ->
  forall posts,
    (length posts < maxPosts)%nat ->
    (length (fst (scan children posts)) <= maxPosts)%nat.
Proof.
  intros Htest. induction children as [|x xs IH]; intros posts Hlen; simpl; [lia|].
  destruct (String.eqb (fc_kind x) "t3"); [|apply IH; exact Hlen].
  destruct (r_created_utc (fc_data x) <? cutoffTime)%Z; [simpl; lia|].
  destruct (isDeletedPost (fc_data x)); [apply IH; exact Hlen|].
  match goal with |- context [if ?b then _ else _] => destruct b eqn:Hcap end.
  - cbn [fst]. rewrite length_app. simpl. lia.
  - apply andb_false_iff in Hcap as [Hcap|Hcap]; [congruence|].
    apply negb_false_iff in Hcap. apply Nat.ltb_lt in Hcap. apply IH. exact Hcap.
Qed.

Lemma pageLoop_capped (responses : list pageResponse) :
  testMode = true ->
  forall before after posts requested result,
    (length posts <= maxPosts)%nat ->
    fst (walk responses before after posts requested) = Fetched result ->
    (length result <= maxPosts)%nat.
Proof.
  intros Htest. induction responses as [|resp more IH];
    intros before after posts requested result Hlen Hrun.
  - simpl in Hrun.
    destruct (negb before && belowMax testMode (length posts)); [discriminate|].
    injection Hrun as <-. exact Hlen.
  - destruct resp as [children next|message].
    + rewrite pageLoop_page in Hrun.
      destruct (negb before && belowMax testMode (length posts)) eqn:Hgo;
        [|injection Hrun as <-; exact Hlen].
      apply andb_true_iff in Hgo as [_ Hbelow]. unfold belowMax in Hbelow.
      rewrite Htest in Hbelow. apply Nat.ltb_lt in Hbelow.
      destruct children as [|x xs]; [injection Hrun as <-; exact Hlen|].
      pose proof (scanPage_capped (x :: xs) Htest posts Hbelow) as Hscan.
      destruct (truthyOpt next).
      * eapply IH; eassumption.
      * injection Hrun as <-. exact Hscan.
    + simpl in Hrun.
      destruct (negb before && belowMax testMode (length posts));
        [discriminate|injection Hrun as <-; exact Hlen].
Qed.

Lemma scanPage_sublist (children : list feedChild) :
  forall posts,
  exists added,
    map postIdOf (fst (scan children posts)) = map postIdOf posts ++ added
    /\ added `sublist_of` pagePostIds children.
Proof.
  induction children as [|x xs IH]; intros posts.
  - exists []. simpl. rewrite app_nil_r. split; reflexivity.
  - unfold pagePostIds. cbn [scanPage flat_map].
    fold (pagePostIds xs).
    destruct (String.eqb (fc_kind x) "t3").
    + destruct (r_created_utc (fc_data x) <? cutoffTime)%Z.
      { exists []. simpl. rewrite app_nil_r. split; [reflexivity|apply sublist_nil_l]. }
      destruct (isDeletedPost (fc_data x)).
      { destruct (IH posts) as (added & Hids & Hsub). exists added.
        split; [exact Hids|]. apply sublist_cons. exact Hsub. }
      match goal with |- context [if ?b then _ else _] => destruct b end.
      * exists [r_id (fc_data x)]. cbn [fst]. rewrite map_app. split; [reflexivity|].
        apply sublist_skip. apply sublist_nil_l.
      * destruct (IH (posts ++ [entry (fc_data x) (commentsRespond (length posts))]))
          as (added & Hids & Hsub).
        exists (r_id (fc_data x) :: added). rewrite Hids, map_app, <- app_assoc.
        split; [reflexivity|]. apply sublist_skip. exact Hsub.
    + destruct (IH posts) as (added & Hids & Hsub). exists added.
      split; [exact Hids|exact Hsub].
Qed.

Lemma pageLoop_sublist (responses : list pageResponse) :
  forall before after posts requested result,
    fst (walk responses before after posts requested) = Fetched result ->
    exists added,
      map postIdOf result = map postIdOf posts ++ added
      /\ added `sublist_of` feedPostIds responses.
Proof.
  assert (Hstay : forall (posts : list redditPost) ids,
             exists added : list string,
               map postIdOf posts = map postIdOf posts ++ added
               /\ added `sublist_of` ids).
  { intros posts ids. exists []. rewrite app_nil_r.
    split; [reflexivity|apply sublist_nil_l]. }
  induction responses as [|resp more IH];
    intros before after posts requested result Hrun.
  - simpl in Hrun.
    destruct (negb before && belowMax testMode (length posts)); [discriminate|].
    injection Hrun as <-. apply Hstay.
  - destruct resp as [children next|message].
    + rewrite pageLoop_page in Hrun. cbn [feedPostIds flat_map].
      fold (feedPostIds more).
      destruct (negb before && belowMax testMode (length posts));
        [|injection Hrun as <-; apply Hstay].
      destruct children as [|x xs]; [injection Hrun as <-; apply Hstay|].
      destruct (scanPage_sublist (x :: xs) posts) as (added & Hids & Hsub).
      destruct (truthyOpt next).
      * destruct (IH _ _ _ _ _ Hrun) as (added2 & Hids2 & Hsub2).
        exists (added ++ added2). rewrite Hids2, Hids, <- app_assoc.
        split; [reflexivity|]. apply sublist_app; assumption.
      * injection Hrun as <-. exists added. split; [exact Hids|].
        apply sublist_inserts_r. exact Hsub.
    + simpl in Hrun.
      destruct (negb before && belowMax testMode (length posts));
        [discriminate|injection Hrun as <-; apply Hstay].
Qed.

(** X10: the posts [fetchPosts] returns are posts of the feed, in feed
    order and each taken at most once per occurrence: their ids are a
    subsequence of the ids of the 't3' children of the pages. *)
Theorem fetchPosts_subsequence (authenticated : outcome unit)
  (responses : list pageResponse) (result : list redditPost) :
  fst (fetchPosts subreddit cutoffTime testMode commentsRespond authenticated responses)
  = Fetched result ->
  map postIdOf result `sublist_of` feedPostIds responses.
Proof.
  unfold fetchPosts. destruct authenticated as [u|message]; [|discriminate].
  intros Hrun. destruct (pageLoop_sublist _ _ _ _ _ _ Hrun) as (added & Hids & Hsub).
  rewrite Hids. exact Hsub.
Qed.

End OneOracle.

Section TwoOracles.

Variables commentsA commentsB : nat -> commentsResponse.

Lemma scanPage_same_posts (children : list feedChild) :
  forall xs ys,
    map rp_post xs = map rp_post ys -> map rp_id xs = map rp_id ys ->
    let a := scanPage subreddit cutoffTime testMode commentsA children xs in
    let b := scanPage subreddit cutoffTime testMode commentsB children ys in
    map rp_post (fst a) = map rp_post (fst b)
    /\ map rp_id (fst a) = map rp_id (fst b)
    /\ snd a = snd b.
Proof.
  induction children as [|x rest IH]; intros xs ys Hposts Hids; cbv zeta.
  - simpl. repeat split; assumption.
  - assert (Hlen : length xs = length ys).
    { rewrite <- (length_map rp_post xs), Hposts, length_map. reflexivity. }
    cbn [scanPage].
    destruct (String.eqb (fc_kind x) "t3"); [|apply IH; assumption].
    destruct (r_created_utc (fc_data x) <? cutoffTime)%Z;
      [repeat split; assumption|].
    destruct (isDeletedPost (fc_data x)); [apply IH; assumption|].
    rewrite !length_app, Hlen. cbn [length].
    assert (Hp : map rp_post
                   (xs ++ [makeEntry subreddit testMode (fc_data x)
                             (commentsA (length ys))])
                 = map rp_post
                     (ys ++ [makeEntry subreddit testMode (fc_data x)
                               (commentsB (length ys))])).
    { rewrite !map_app, Hposts. reflexivity. }
    assert (Hi : map rp_id
                   (xs ++ [makeEntry subreddit testMode (fc_data x)
                             (commentsA (length ys))])
                 = map rp_id
                     (ys ++ [makeEntry subreddit testMode (fc_data x)
                               (commentsB (length ys))])).
    { rewrite !map_app, Hids. reflexivity. }
    match goal with |- context [if ?b then _ else _] => destruct b end.
    + repeat split; assumption.
    + apply IH; assumption.
Qed.

Lemma pageLoop_same_posts (responses : list pageResponse) :
  forall before after xs ys requested,
    map rp_post xs = map rp_post ys -> map rp_id xs = map rp_id ys ->
    let a := pageLoop subreddit cutoffTime testMode commentsA responses before after
               xs requested in
    let b := pageLoop subreddit cutoffTime testMode commentsB responses before after
               ys requested in
    samePosts (fst a) (fst b) /\ snd a = snd b.
Proof.
  induction responses as [|resp more IH];
    intros before after xs ys requested Hposts Hids; cbv zeta;
    assert (Hlen : length xs = length ys)
      by (rewrite <- (length_map rp_post xs), Hposts, length_map; reflexivity).
  - simpl. rewrite Hlen.
    destruct (negb before && belowMax testMode (length ys)); simpl;
      repeat split; assumption.
  - destruct resp as [children next|message].
    + rewrite !pageLoop_page, Hlen.
      destruct (negb before && belowMax testMode (length ys));
        [|simpl; repeat split; assumption].
      destruct children as [|x rest]; [simpl; repeat split; assumption|].
      destruct (scanPage_same_posts (x :: rest) xs ys Hposts Hids)
        as (Hp & Hi & Hflag).
      rewrite Hflag.
      destruct (truthyOpt next).
      * apply IH; assumption.
      * simpl. repeat split; assumption.
    + simpl. rewrite Hlen.
      destruct (negb before && belowMax testMode (length ys)); simpl;
        repeat split; assumption || reflexivity.
Qed.

(** X11: which posts [fetchPosts] returns, and which pages it requests, does
    not depend on how the comment requests go: two runs over the same feed
    end the same way, with the same posts under the same ids and the same
    page requests, even if every comment request of one of them fails. *)
Theorem fetchPosts_whatever_comments (authenticated : outcome unit)
  (responses : list pageResponse) :
  let a := fetchPosts subreddit cutoffTime testMode commentsA authenticated responses in
  let b := fetchPosts subreddit cutoffTime testMode commentsB authenticated responses in
  samePosts (fst a) (fst b) /\ snd a = snd b.
Proof.
  cbv zeta. unfold fetchPosts. destruct authenticated as [u|message].
  - apply pageLoop_same_posts; reflexivity.
  - simpl. split; reflexivity.
Qed.

End TwoOracles.

End FetchInvariants.

Section FetchCap.
Import Fetcher Post Feed Spec Terms.

(** X12: in test mode [fetchPosts] returns at most five posts, however long
    the feed is. *)
Theorem fetchPosts_test_mode_cap (subreddit : string) (cutoffTime : Z)
  (commentsRespond : nat -> commentsResponse) (authenticated : outcome unit)
  (responses : list pageResponse) (result : list redditPost) :
  fst (fetchPosts subreddit cutoffTime true commentsRespond authenticated responses)
  = Fetched result ->
  (length result <= 5)%nat.
Proof.
  unfold fetchPosts. destruct authenticated as [u|message]; [|discriminate].
  apply (pageLoop_capped subreddit cutoffTime true commentsRespond responses eq_refl).
  simpl. lia.
Qed.

End FetchCap.

(** ** The request executor, continued *)

Section ClientMore.
Import Client Spec Terms.

(** X13: [waitForRateLimit] spaces the requests it lets through: with the
    clock not behind the last grant and the interval within the timer's
    range, it returns no earlier than one interval after the previous grant,
    without waiting longer than that takes, and records the new grant. *)
Theorem waitForRateLimit_spacing (c : client) :
  lastRequestTime c <= now c ->
  minRequestInterval c <= TIMEOUT_MAX ->
  let c' := waitForRateLimit c in
  now c' = Z.max (now c) (lastRequestTime c + minRequestInterval c)
  /\ lastRequestTime c' = now c'
  /\ lastRequestTime c + minRequestInterval c <= now c'.
Proof.
  intros Hclock Hrange. cbv zeta. unfold waitForRateLimit, sleep, emit, timeoutMs.
  cbn [now lastRequestTime minRequestInterval].
  destruct (Z.ltb_spec (now c - lastRequestTime c) (minRequestInterval c));
    cbn [now lastRequestTime minRequestInterval].
  - destruct (Z.leb_spec 1 (minRequestInterval c - (now c - lastRequestTime c)));
      [|lia].
    destruct (Z.leb_spec (minRequestInterval c - (now c - lastRequestTime c))
                TIMEOUT_MAX); [|lia].
    cbn [andb]. repeat split; lia.
  - repeat split; lia.
Qed.

(** The statement at a client whose last request went out 400 ms ago. *)
Lemma waitForRateLimit_spacing_witness :
  now (waitForRateLimit
         {| accessToken := Some "t"; tokenExpiry := 100000; lastRequestTime := 5000;
            minRequestInterval := 1000; now := 5400; authRequests := 1;
            apiRequests := 3; events := [] |}) = 6000.
Proof.
  refine (proj1 (waitForRateLimit_spacing
                   {| accessToken := Some "t"; tokenExpiry := 100000;
                      lastRequestTime := 5000; minRequestInterval := 1000;
                      now := 5400; authRequests := 1; apiRequests := 3;
                      events := [] |} _ _)); vm_compute; discriminate.
Defined.

Section Oracles.

Context {Data : Type}.
Variable authRespond : nat -> authResponse.
Variable apiRespond : nat -> apiResponse Data.
Variable url : string.
Variable retries : nat.

(** X14: a token just granted is reused by the next [ensureAuthenticated]
    only if it lives longer than the five minutes' margin: with [expires_in]
    above 300 no new token is asked for, and with [expires_in] of 300 or less
    every call asks for a new one. *)
Theorem fresh_token_reuse (c : client) (token : string) (expires_in : Z) :
  authRespond (authRequests c) = AuthOk token expires_in ->
  token <> "" ->
  let c1 := snd (authenticate authRespond c) in
  accessToken c1 = Some token
  /\ (300 < expires_in ->
      authRequests (snd (ensureAuthenticated authRespond c1)) = authRequests c1)
  /\ (expires_in <= 300 ->
      authRequests (snd (ensureAuthenticated authRespond c1)) = S (authRequests c1)).
Proof.
  intros Hauth Htoken. cbv zeta. unfold authenticate. rewrite Hauth.
  cbn [snd accessToken]. split; [reflexivity|].
  unfold ensureAuthenticated, hasToken, emit.
  cbn [accessToken tokenExpiry now authRequests].
  destruct token as [|ch rest]; [congruence|]. cbn [truthyStr negb orb].
  split; intros Hexp.
  - destruct (Z.leb_spec (now c + (expires_in - 300) * 1000) (now c)); [lia|].
    reflexivity.
  - destruct (Z.leb_spec (now c + (expires_in - 300) * 1000) (now c)); [|lia].
    unfold authenticate, emit. cbn [authRequests].
    destruct (authRespond (S (authRequests c))); reflexivity.
Qed.

(** With authentication in order, [makeRequest] is its loop, started after
    the rate limiter and with no API request made yet. *)
Lemma makeRequest_loop (c : client) :
  fst (ensureAuthenticated authRespond c) = Ok tt ->
  exists c2,
    makeRequest authRespond apiRespond url retries c
    = requestLoop authRespond apiRespond url retries retries 0 c2
    /\ apiRequests c2 = apiRequests c.
Proof.
  intros Hauth. unfold makeRequest.
  pose proof (ensureAuthenticated_apiRequests authRespond c) as Hreq.
  destruct (ensureAuthenticated authRespond c) as [[u|m] c1]; [|discriminate].
  exists (waitForRateLimit c1). split; [reflexivity|].
  rewrite waitForRateLimit_apiRequests. exact Hreq.
Qed.

Lemma transient_step (k attempt : nat) (c : client) :
  isTransient (apiRespond (apiRequests c)) = true ->
  exists c1,
    requestLoop authRespond apiRespond url retries (S k) attempt c
    = requestLoop authRespond apiRespond url retries k (S attempt) c1
    /\ apiRequests c1 = S (apiRequests c)
    /\ authRequests c1 = authRequests c.
Proof.
  intros Ht. cbn [requestLoop].
  destruct (apiRespond (apiRequests c)) as [data|status header message];
    [discriminate|].
  cbn [isTransient] in Ht.
  destruct (VectorDB.isStatus status 429) eqn:H429.
  - eexists. split; [reflexivity|]. split; reflexivity.
  - cbn [orb] in Ht.
    assert (H401 : VectorDB.isStatus status 401 = false).
    { destruct status as [s|]; [|reflexivity]. simpl in *.
      apply Z.leb_le in Ht. apply Z.eqb_neq. lia. }
    rewrite H401, Ht. eexists. split; [reflexivity|]. split; reflexivity.
Qed.

Lemma requestLoop_first_success (data : Data) (j : nat) :
  forall k attempt c,
    (forall i, (i < j)%nat -> isTransient (apiRespond (apiRequests c + i)%nat) = true) ->
    apiRespond (apiRequests c + j)%nat = ApiOk data ->
    (j < k)%nat ->
    fst (requestLoop authRespond apiRespond url retries k attempt c) = Ok data
    /\ apiRequests (snd (requestLoop authRespond apiRespond url retries k attempt c))
       = (apiRequests c + j + 1)%nat.
Proof.
  induction j as [|j IH]; intros k attempt c Hbefore Hok Hlt.
  - destruct k as [|k]; [lia|]. cbn [requestLoop].
    rewrite Nat.add_0_r in Hok. rewrite Hok. simpl. split; [reflexivity|lia].
  - destruct k as [|k]; [lia|].
    assert (H0 : isTransient (apiRespond (apiRequests c)) = true).
    { rewrite <- (Nat.add_0_r (apiRequests c)). apply Hbefore. lia. }
    destruct (transient_step k attempt c H0) as (c1 & Hstep & Hreq & _).
    rewrite Hstep.
    destruct (IH k (S attempt) c1) as [Hres Hcount].
    + intros i Hi. rewrite Hreq.
      replace (S (apiRequests c) + i)%nat with (apiRequests c + S i)%nat by lia.
      apply Hbefore. lia.
    + rewrite Hreq.
      replace (S (apiRequests c) + j)%nat with (apiRequests c + S j)%nat by lia.
      exact Hok.
    + lia.
    + split; [exact Hres|]. rewrite Hcount, Hreq. lia.
Qed.

(** X15: [makeRequest] returns the first body the API gives: if the first
    [j] answers are 429s or 5xxs and the next one is a success, with [j]
    below the retry count, the call returns that body after [j + 1]
    requests. *)
Theorem makeRequest_first_success (j : nat) (c : client) (data : Data) :
  fst (ensureAuthenticated authRespond c) = Ok tt ->
  (forall i, (i < j)%nat -> isTransient (apiRespond (apiRequests c + i)%nat) = true) ->
  apiRespond (apiRequests c + j)%nat = ApiOk data ->
  (j < retries)%nat ->
  fst (makeRequest authRespond apiRespond url retries c) = Ok data
  /\ apiRequests (snd (makeRequest authRespond apiRespond url retries c))
     = (apiRequests c + j + 1)%nat.
Proof.
  intros Hauth Hbefore Hok Hlt.
  destruct (makeRequest_loop c Hauth) as (c2 & Hloop & Hreq).
  rewrite Hloop, <- Hreq. apply requestLoop_first_success; [|rewrite Hreq; exact Hok|exact Hlt].
  intros i Hi. rewrite Hreq. apply Hbefore. exact Hi.
Qed.

(** An error [makeRequest] does not retry (neither 429 nor 401 nor a 5xx;
    a network failure without a status among them) ends the call at once: it
    is thrown with its message after a single request. *)
Lemma makeRequest_final_error (c : client)
  (status : option Z) (header : option string) (message : string) :
  fst (ensureAuthenticated authRespond c) = Ok tt ->
  apiRespond (apiRequests c) = ApiError status header message ->
  isFinal (apiRespond (apiRequests c)) = true ->
  (0 < retries)%nat ->
  fst (makeRequest authRespond apiRespond url retries c) = Thrown message
  /\ apiRequests (snd (makeRequest authRespond apiRespond url retries c))
     = S (apiRequests c).
Proof.
  intros Hauth Hresp Hfinal Hpos.
  destruct (makeRequest_loop c Hauth) as (c2 & Hloop & Hreq).
  rewrite Hloop. destruct retries as [|k]; [lia|]. cbn [requestLoop].
  rewrite Hreq, Hresp. rewrite Hresp in Hfinal. cbn [isFinal] in Hfinal.
  apply andb_true_iff in Hfinal as [Hfinal H500].
  apply andb_true_iff in Hfinal as [H429 H401].
  apply negb_true_iff in H429, H401, H500. rewrite H429, H401, H500.
  simpl. split; [reflexivity|]. rewrite Hreq. reflexivity.
Qed.

Lemma backoff_in_range (attempt : nat) :
  (attempt <= 21)%nat ->
  timeoutMs (backoffDelay attempt) = 2 ^ Z.of_nat attempt * 1000.
Proof.
  intros Hle. unfold timeoutMs, backoffDelay.
  assert (H1 : 1 <= 2 ^ Z.of_nat attempt) by (apply Z.pow_le_mono_r with (b := 0); lia).
  assert (H2 : 2 ^ Z.of_nat attempt <= 2 ^ 21) by (apply Z.pow_le_mono_r; lia).
  change (2 ^ 21) with 2097152 in H2. unfold TIMEOUT_MAX.
  destruct (Z.leb_spec 1 (2 ^ Z.of_nat attempt * 1000)); [|lia].
  destruct (Z.leb_spec (2 ^ Z.of_nat attempt * 1000) 2147483647); [|lia].
  reflexivity.
Qed.

Lemma requestLoop_server_errors (k : nat) :
  (forall n, isServerError (apiRespond n) = true) ->
  forall attempt c,
    (attempt + k <= 22)%nat ->
    let out := requestLoop authRespond apiRespond url retries k attempt c in
    fst out = Thrown (maxRetriesMessage url retries)
    /\ apiRequests (snd out) = (apiRequests c + k)%nat
    /\ authRequests (snd out) = authRequests c
    /\ now (snd out)
       = now c + 1000 * (2 ^ Z.of_nat (attempt + k) - 2 ^ Z.of_nat attempt).
Proof.
  intros Hall. induction k as [|k IH]; intros attempt c Hle; cbv zeta.
  - cbn [requestLoop fst snd]. rewrite !Nat.add_0_r.
    repeat split; try reflexivity; lia.
  - cbn [requestLoop]. specialize (Hall (apiRequests c)) as Hc.
    destruct (apiRespond (apiRequests c)) as [data|status header message];
      [discriminate|].
    cbn [isServerError] in Hc.
    assert (H429 : VectorDB.isStatus status 429 = false
                   /\ VectorDB.isStatus status 401 = false).
    { destruct status as [s|]; [|discriminate]. simpl in *.
      apply Z.leb_le in Hc. split; apply Z.eqb_neq; lia. }
    destruct H429 as [H429 H401]. rewrite H429, H401, Hc.
    destruct (IH (S attempt) (sleep (backoffDelay attempt) (recordGet attempt c)))
      as (Hres & Hreq & Hauth & Hnow); [lia|].
    rewrite Hres, Hreq, Hauth, Hnow. cbn [sleep recordGet now apiRequests authRequests].
    rewrite backoff_in_range by lia.
    replace (S attempt + k)%nat with (attempt + S k)%nat by lia.
    repeat split; try lia.
    rewrite (Nat2Z.inj_succ attempt), Z.pow_succ_r by lia. lia.
Qed.

(** X16: against an API that answers every request with a 5xx, the retry
    loop of [makeRequest] makes exactly [retries] requests, asks for no new
    token, waits 1, 2, 4, ... seconds after them (2^retries - 1 seconds in
    all, for up to 22 retries, beyond which the timer no longer takes the
    delay) and then throws 'Max retries (n) exceeded for' and the url, [n]
    being [retries]. *)
Theorem makeRequest_server_errors (c : client) :
  (forall n, isServerError (apiRespond n) = true) ->
  (retries <= 22)%nat ->
  let out := requestLoop authRespond apiRespond url retries retries 0 c in
  fst out = Thrown (maxRetriesMessage url retries)
  /\ apiRequests (snd out) = (apiRequests c + retries)%nat
  /\ authRequests (snd out) = authRequests c
  /\ now (snd out) = now c + 1000 * (2 ^ Z.of_nat retries - 1).
Proof.
  intros Hall Hle.
  destruct (requestLoop_server_errors retries Hall 0 c) as (H1 & H2 & H3 & H4);
    [lia|].
  cbv zeta. repeat split; assumption.
Qed.

Lemma requestLoop_unauthorized (k : nat) :
  (forall n, isUnauthorized (apiRespond n) = true) ->
  (forall n, isGranted (authRespond n) = true) ->
  forall attempt c,
    let out := requestLoop authRespond apiRespond url retries k attempt c in
    fst out = Thrown (maxRetriesMessage url retries)
    /\ apiRequests (snd out) = (apiRequests c + k)%nat
    /\ authRequests (snd out) = (authRequests c + k)%nat
    /\ now (snd out) = now c.
Proof.
  intros Hall Hgrant. induction k as [|k IH]; intros attempt c; cbv zeta.
  - cbn [requestLoop fst snd]. rewrite !Nat.add_0_r.
    repeat split; reflexivity.
  - cbn [requestLoop]. specialize (Hall (apiRequests c)) as Hc.
    destruct (apiRespond (apiRequests c)) as [data|status header message];
      [discriminate|].
    cbn [isUnauthorized] in Hc.
    assert (H429 : VectorDB.isStatus status 429 = false).
    { destruct status as [s|]; [|discriminate]. simpl in *.
      apply Z.eqb_eq in Hc. apply Z.eqb_neq. lia. }
    rewrite H429, Hc. unfold authenticate.
    specialize (Hgrant (authRequests (recordGet attempt c))) as Hg.
    destruct (authRespond (authRequests (recordGet attempt c)))
      as [token expires|m]; [|discriminate].
    cbv beta iota zeta.
    match goal with
    | |- context [requestLoop authRespond apiRespond url retries k (S attempt) ?c2] =>
        destruct (IH (S attempt) c2) as (Hres & Hreq & Hauth & Hnow)
    end.
    rewrite Hres, Hreq, Hauth, Hnow. simpl. repeat split; lia.
Qed.

(** X17: against an API that answers every request with a 401 while the
    token endpoint keeps granting tokens, the retry loop of [makeRequest]
    asks for a new token after each of its [retries] requests, never waits,
    and then throws 'Max retries (n) exceeded for' and the url, [n] being
    [retries]. *)
Theorem makeRequest_unauthorized (c : client) :
  (forall n, isUnauthorized (apiRespond n) = true) ->
  (forall n, isGranted (authRespond n) = true) ->
  let out := requestLoop authRespond apiRespond url retries retries 0 c in
  fst out = Thrown (maxRetriesMessage url retries)
  /\ apiRequests (snd out) = (apiRequests c + retries)%nat
  /\ authRequests (snd out) = (authRequests c + retries)%nat
  /\ now (snd out) = now c.
Proof.
  intros Hall Hgrant. apply requestLoop_unauthorized; assumption.
Qed.

End Oracles.

End ClientMore.

(** ** Jobs, continued *)

Section JobRegistry.
Import Jobs Terms.

Lemma createJob_lookup (channels : list channelConfig) (hours days : option Z)
  (testMode : bool) (t : Z) (m : manager) :
  fst (createJob channels hours days testMode t m) = nextJobId m
  /\ nextJobId (snd (createJob channels hours days testMode t m)) = nextJobId m + 1
  /\ exists j,
       jobs (snd (createJob channels hours days testMode t m))
       = <[nextJobId m := j]> (jobs m)
       /\ j_id j = nextJobId m /\ j_status j = Pending
       /\ j_totalStats j = zeroStats
       /\ length (j_channels j) = length channels.
Proof.
  split; [reflexivity|]. split; [reflexivity|].
  eexists. split; [reflexivity|]. repeat split. apply length_map.
Qed.

Lemma startJob_registry (m : manager) (jobId : Z) (ws : list (nat * workerEvent))
  (tStart tEnd : Z) (j' : job) (m' : manager) :
  startJob jobId ws tStart tEnd m = Settled j' m' ->
  exists j,
    jobs m !! jobId = Some j
    /\ jobs m' = <[jobId := j']> (jobs m)
    /\ nextJobId m' = nextJobId m
    /\ j_id j' = j_id j.
Proof.
  unfold startJob. intros Hrun.
  destruct (jobs m !! jobId) as [j|] eqn:Hjob; [|discriminate].
  destruct (deliverAll jobId ws _) as [[chans evs]|]; [|discriminate].
  injection Hrun as <- <-. exists j. cbn [jobs notifySubscribers setJob nextJobId j_id].
  split; [reflexivity|]. split; [apply insert_insert_eq|]. split; reflexivity.
Qed.

(** X18: the registry keeps its numbering through every operation: a job
    always sits under its own id, below the next id; so [createJob] always
    takes an unused id, leaves every job already there as it is, and no
    sequence of creations, runs and deletions makes two jobs share an id. *)
Theorem registry_numbering :
  wellNumbered newManager
  /\ (forall m channels hours days testMode t,
        wellNumbered m ->
        let created := createJob channels hours days testMode t m in
        wellNumbered (snd created)
        /\ jobs m !! fst created = None
        /\ (forall k, k <> fst created -> jobs (snd created) !! k = jobs m !! k))
  /\ (forall m jobId ws tStart tEnd j' m',
        wellNumbered m ->
        startJob jobId ws tStart tEnd m = Settled j' m' -> wellNumbered m')
  /\ (forall m jobId, wellNumbered m -> wellNumbered (snd (deleteJob jobId m))).
Proof.
  split; [|split; [|split]].
  - intros k j Hk. unfold newManager in Hk. cbn [jobs] in Hk.
    rewrite lookup_empty in Hk. discriminate.
  - intros m channels hours days testMode t Hm. cbv zeta.
    destruct (createJob_lookup channels hours days testMode t m)
      as (Hid & Hnext & j & Hjobs & Hjid & _).
    rewrite Hid. split; [|split].
    + intros k j0 Hk. rewrite Hjobs in Hk. rewrite Hnext.
      destruct (decide (nextJobId m = k)) as [<-|Hne].
      * rewrite lookup_insert_eq in Hk. injection Hk as <-. split; [exact Hjid|lia].
      * rewrite lookup_insert_ne in Hk by exact Hne.
        destruct (Hm k j0 Hk). split; [assumption|lia].
    + destruct (jobs m !! nextJobId m) as [j0|] eqn:Hk; [|reflexivity].
      destruct (Hm _ _ Hk). lia.
    + intros k Hne. rewrite Hjobs. apply lookup_insert_ne. congruence.
  - intros m jobId ws tStart tEnd j' m' Hm Hrun.
    destruct (startJob_registry m jobId ws tStart tEnd j' m' Hrun)
      as (j & Hjob & Hjobs & Hnext & Hjid).
    intros k j0 Hk. rewrite Hjobs in Hk. rewrite Hnext.
    destruct (decide (jobId = k)) as [<-|Hne].
    + rewrite lookup_insert_eq in Hk. injection Hk as <-.
      destruct (Hm _ _ Hjob). split; [congruence|assumption].
    + rewrite lookup_insert_ne in Hk by exact Hne. apply Hm. exact Hk.
  - intros m jobId Hm. unfold deleteJob.
    destruct (jobs m !! jobId) as [j|] eqn:Hjob; [|exact Hm].
    destruct (decide (j_status j = Running)); [exact Hm|].
    intros k j0 Hk. cbn [snd jobs notifySubscribers nextJobId] in *.
    destruct (decide (jobId = k)) as [<-|Hne].
    + rewrite lookup_delete_eq in Hk. discriminate.
    + rewrite lookup_delete_ne in Hk by exact Hne. apply Hm. exact Hk.
Qed.

Lemma deliver_announced (jobId : Z) (i : nat) (w : workerEvent)
  (chans chans' : list channelRun) (evs evs' : list event) :
  deliver jobId i w (chans, evs) = Some (chans', evs') ->
  evs' = evs ++ announced jobId w.
Proof.
  unfold deliver. cbn [fst snd]. destruct (chans !! i) as [ch|]; [|discriminate].
  destruct w; cbn [handle]; try (intros H; injection H as <- <-; reflexivity).
  match goal with |- context [if ?b then _ else _] => destruct b end;
    intros H; injection H as <- <-; reflexivity.
Qed.

Lemma deliverAll_announced (jobId : Z) (ws : list (nat * workerEvent)) :
  forall chans evs chans' evs',
    deliverAll jobId ws (chans, evs) = Some (chans', evs') ->
    evs' = evs ++ flat_map (fun iw => announced jobId (snd iw)) ws.
Proof.
  induction ws as [|[i w] rest IH]; intros chans evs chans' evs' Hrun; simpl in Hrun.
  - injection Hrun as <- <-. simpl. rewrite app_nil_r. reflexivity.
  - destruct (deliver jobId i w (chans, evs)) as [[c1 e1]|] eqn:Hd; [|discriminate].
    apply deliver_announced in Hd. apply IH in Hrun. subst.
    cbn [flat_map snd]. rewrite <- app_assoc. reflexivity.
Qed.

(** X19: a run of [startJob] publishes [job_started] first (with the job
    already 'running'), then one event for each message of the workers, in
    the order they arrived and none for a thread's error or exit, and
    [job_completed] last, with the job as it is left; what was published
    before stays, and no other job of the registry is touched. *)
Theorem startJob_events (m : manager) (jobId : Z) (ws : list (nat * workerEvent))
  (tStart tEnd : Z) (j' : job) (m' : manager) :
  startJob jobId ws tStart tEnd m = Settled j' m' ->
  (exists running,
      j_status running = Running
      /\ j_startedAt running = Some tStart
      /\ published m'
         = published m
           ++ job_started (Some running)
              :: flat_map (fun iw => announced jobId (snd iw)) ws
           ++ [job_completed (Some j')])
  /\ (forall k, k <> jobId -> jobs m' !! k = jobs m !! k).
Proof.
  intros Hrun. split.
  - unfold startJob in Hrun.
    destruct (jobs m !! jobId) as [j|] eqn:Hjob; [|discriminate].
    destruct (deliverAll jobId ws _) as [[chans evs]|] eqn:Hall; [|discriminate].
    apply deliverAll_announced in Hall.
    injection Hrun as <- <-. eexists. split; [|split].
    3: { cbn [published notifySubscribers]. rewrite Hall.
         unfold notifySubscribers, setJob, getJobSummary. cbn [published jobs].
         rewrite !lookup_insert_eq, <- !app_assoc. reflexivity. }
    + reflexivity.
    + reflexivity.
  - destruct (startJob_registry m jobId ws tStart tEnd j' m' Hrun)
      as (j & _ & Hjobs & _).
    intros k Hne. rewrite Hjobs. apply lookup_insert_ne. congruence.
Qed.

(** X20: creating a job, running it and deleting it leaves the registry's
    jobs as they were: the run ends with the job completed, the deletion is
    accepted, and only the id counter and the published events show that the
    job was there. *)
Theorem create_run_delete (m : manager) (channels : list channelConfig)
  (hours days : option Z) (testMode : bool) (t tStart tEnd : Z)
  (ws : list (nat * workerEvent)) :
  wellNumbered m ->
  Forall (fun iw => (fst iw < length channels)%nat) ws ->
  let created := createJob channels hours days testMode t m in
  exists j' m2 m3,
    startJob (fst created) ws tStart tEnd (snd created) = Settled j' m2
    /\ j_status j' = Completed
    /\ deleteJob (fst created) m2 = (Ok true, m3)
    /\ jobs m3 = jobs m
    /\ nextJobId m3 = nextJobId m + 1
    /\ last (published m3) = Some (job_deleted (fst created)).
Proof.
  intros Hm Hws. cbv zeta.
  destruct (createJob_lookup channels hours days testMode t m)
    as (Hid & Hnext & j & Hjobs & Hjid & Hpending & Hzero & Hlen).
  assert (Hfresh : jobs m !! nextJobId m = None).
  { destruct (jobs m !! nextJobId m) as [j0|] eqn:Hk; [|reflexivity].
    destruct (Hm _ _ Hk). lia. }
  rewrite Hid.
  set (m1 := snd (createJob channels hours days testMode t m)) in *.
  assert (Hjob : jobs m1 !! nextJobId m = Some j).
  { rewrite Hjobs. apply lookup_insert_eq. }
  assert (Hrange : Forall (fun iw => (fst iw < length (j_channels j))%nat) ws).
  { rewrite Hlen. exact Hws. }
  unfold startJob. rewrite Hjob. cbn [j_channels].
  match goal with
  | |- context [deliverAll ?i ws (j_channels j, ?e)] =>
      destruct (deliverAll_in_range i ws (j_channels j) e Hrange)
        as (chans & evs & Hall & _)
  end.
  rewrite Hall. eexists _, _, _. split; [reflexivity|]. split; [reflexivity|].
  unfold deleteJob, notifySubscribers, setJob. cbn [jobs].
  rewrite lookup_insert_eq. cbn [j_status].
  destruct (decide (Completed = Running)); [discriminate|].
  split; [reflexivity|]. cbn [jobs nextJobId published].
  split; [|split].
  - rewrite !insert_insert_eq, delete_insert_eq, Hjobs, delete_insert_eq.
    apply delete_id. exact Hfresh.
  - exact Hnext.
  - apply last_snoc.
Qed.

End JobRegistry.

(** ** Channels and names *)

Section Channels.
Import Loader Names Terms.

Lemma flat_map_filter_fst (clientId clientSecret : string) (cfg : config) :
  map lc_subreddit
    (flat_map
       (fun entry =>
          match ce_enabled (snd entry) with
          | Some true =>
              [{| lc_subreddit := fst entry;
                  lc_platform := orOptStr (ce_platform (snd entry)) (fst entry);
                  lc_clientId := clientId;
                  lc_clientSecret := clientSecret |}]
          | _ => []
          end) cfg)
  = map fst (List.filter (fun entry =>
                            match ce_enabled (snd entry) with
                            | Some true => true
                            | _ => false
                            end) cfg).
Proof.
  induction cfg as [|entry rest IH]; [reflexivity|]. simpl.
  destruct (ce_enabled (snd entry)) as [[|]|]; simpl; rewrite IH; reflexivity.
Qed.

(** X21: without both Reddit credentials in the environment
    [getEnabledChannels] returns no channel at all; with them it returns, in
    the order of the configuration, exactly the entries whose [enabled] is
    the boolean true, each with the shared credentials, so that each passes
    [validateChannelConfig]. *)
Theorem getEnabledChannels_spec (e : env) (cfg : config) :
  (truthy (REDDIT_CLIENT_ID e) && truthy (REDDIT_CLIENT_SECRET e) = false ->
   getEnabledChannels e cfg = [])
  /\ (forall clientId clientSecret,
        REDDIT_CLIENT_ID e = Some clientId ->
        REDDIT_CLIENT_SECRET e = Some clientSecret ->
        clientId <> "" -> clientSecret <> "" ->
        map lc_subreddit (getEnabledChannels e cfg)
        = map fst (List.filter (fun entry =>
                                  match ce_enabled (snd entry) with
                                  | Some true => true
                                  | _ => false
                                  end) cfg)
        /\ Forall (fun ch =>
                     lc_clientId ch = clientId /\ lc_clientSecret ch = clientSecret
                     /\ validateChannelConfig (credentialsOf ch) = Ok true)
                  (getEnabledChannels e cfg)).
Proof.
  unfold getEnabledChannels. split.
  - intros Hmissing.
    destruct (REDDIT_CLIENT_ID e) as [i|]; [|reflexivity].
    destruct (REDDIT_CLIENT_SECRET e) as [s|]; [|reflexivity].
    cbn [truthy] in Hmissing.
    destruct (truthyStr i), (truthyStr s); simpl in *; try reflexivity; discriminate.
  - intros clientId clientSecret Hid Hsecret Hi Hs. rewrite Hid, Hsecret.
    destruct clientId as [|a i]; [congruence|].
    destruct clientSecret as [|b s]; [congruence|]. cbn [truthyStr negb orb].
    split; [apply flat_map_filter_fst|].
    apply List.Forall_flat_map. apply List.Forall_forall. intros entry _.
    destruct (ce_enabled (snd entry)) as [[|]|]; constructor; [|constructor].
    repeat split.
Qed.

Lemma startsWithR_prefixed (rest : string) : startsWithR ("r/" +:+ rest) = true.
Proof. apply String.prefix_correct. destruct rest; reflexivity. Qed.

Lemma substring_all (s : string) : String.substring 0 (String.length s) s = s.
Proof. induction s as [|c s IH]; simpl; [reflexivity|]. rewrite IH. reflexivity. Qed.

Lemma clientSubreddit_prefixed (rest : string) :
  clientSubreddit ("r/" +:+ rest) = rest.
Proof.
  unfold clientSubreddit. rewrite startsWithR_prefixed.
  change ("r/" +:+ rest) with (String "r" (String "/" rest)).
  cbn [String.length Nat.sub String.substring].
  rewrite Nat.sub_0_r. apply substring_all.
Qed.

Lemma normalized_startsWithR (s : string) :
  startsWithR (normalizedSubreddit s) = true.
Proof.
  unfold normalizedSubreddit. destruct (startsWithR s) eqn:Hs; [exact Hs|].
  apply startsWithR_prefixed.
Qed.

Lemma normalized_idem (s : string) :
  normalizedSubreddit (normalizedSubreddit s) = normalizedSubreddit s.
Proof.
  unfold normalizedSubreddit at 1. rewrite normalized_startsWithR. reflexivity.
Qed.

(** X22: the name a channel is filed under and the name the client asks
    Reddit for agree: [normalizedSubreddit] adds the prefix r/ exactly when it
    is missing (so it changes nothing when applied again), the client takes
    one such prefix off, and so a subreddit leads to the same listing url
    whether it was given with the prefix or without. *)
Theorem subreddit_names (s : string) :
  startsWithR (normalizedSubreddit s) = true
  /\ normalizedSubreddit (normalizedSubreddit s) = normalizedSubreddit s
  /\ clientSubreddit ("r/" +:+ s) = s
  /\ clientSubreddit (normalizedSubreddit s) = clientSubreddit s
  /\ newPostsUrl (normalizedSubreddit s) = newPostsUrl s.
Proof.
  pose proof (normalized_startsWithR s) as Hstarts.
  assert (Hclient : clientSubreddit (normalizedSubreddit s) = clientSubreddit s).
  { unfold normalizedSubreddit. destruct (startsWithR s) eqn:Hs; [reflexivity|].
    rewrite clientSubreddit_prefixed. unfold clientSubreddit. rewrite Hs.
    reflexivity. }
  split; [exact Hstarts|]. split; [|split; [|split]].
  - apply normalized_idem.
  - apply clientSubreddit_prefixed.
  - exact Hclient.
  - unfold newPostsUrl. rewrite Hclient. reflexivity.
Qed.

Lemma hasChannel_added (cfg : config) (name : string) (entry : channelEntry) :
  hasChannel (cfg ++ [(name, entry)]) name = true.
Proof.
  unfold hasChannel. rewrite existsb_app. simpl. rewrite String.eqb_refl.
  rewrite orb_true_r. reflexivity.
Qed.

(** X23: POST /api/channels files a new channel under its normalized name
    behind the channels already there, enabled unless the request says
    [false]; the same subreddit sent again, with or without the prefix r/, is
    then turned down ('Channel already exists') and the configuration stays
    as it is. *)
Theorem addChannel_once (name : string) (enabledIsFalse again : bool)
  (cfg cfg' : config) (filed : string) (enabled : bool) :
  addChannel (Some name) enabledIsFalse cfg = (ReplyAdded filed enabled, cfg') ->
  filed = normalizedSubreddit name
  /\ enabled = negb enabledIsFalse
  /\ hasChannel cfg filed = false
  /\ cfg' = cfg ++ [(filed, {| ce_enabled := Some enabled; ce_platform := None |})]
  /\ addChannel (Some name) again cfg'
     = (ReplyError 400 "Channel already exists", cfg')
  /\ addChannel (Some filed) again cfg'
     = (ReplyError 400 "Channel already exists", cfg').
Proof.
  unfold addChannel. destruct (truthyStr name) eqn:Hname; [|discriminate].
  cbn [negb]. destruct (hasChannel cfg (normalizedSubreddit name)) eqn:Hhas;
    [discriminate|].
  intros H. injection H as <- <- <-.
  assert (Hfiled : truthyStr (normalizedSubreddit name) = true).
  { unfold normalizedSubreddit. destruct (startsWithR name); [exact Hname|reflexivity]. }
  rewrite Hfiled. cbn [negb].
  rewrite normalized_idem, hasChannel_added.
  repeat split; assumption.
Qed.

End Channels.

(** ** The time window *)

Section TimeWindow.
Import Names Feed Worker Terms.

(** X24: on the command line, where [--hours] and [--days] are parsed to
    whole numbers, a time window that passes the checks (exactly one of the
    two given, and positive) always yields a cutoff: [calculateTimeWindow]
    does not throw, and the cutoff lies a whole window, at least an hour,
    before the clock.  The clock and the window are taken within the whole
    numbers that JavaScript holds exactly, where the arithmetic of the code
    is that of the integers. *)
Theorem checked_window_has_cutoff (nowMs : Z) (hours days : option Z) :
  windowError hours days = None ->
  0 <= nowMs -> safeInteger nowMs ->
  safeInteger (default 0 hours * 3600000) ->
  safeInteger (default 0 days * 86400000) ->
  exists window,
    ((given hours = true /\ given days = false
      /\ window = default 0 hours * 3600000)
     \/ (given hours = false /\ given days = true
         /\ window = default 0 days * 86400000))
    /\ 3600000 <= window
    /\ calculateTimeWindow nowMs hours days = Some ((nowMs - window) / 1000)
    /\ (nowMs - window) / 1000 * 1000 <= nowMs - window.
Proof.
  unfold windowError, calculateTimeWindow, given. intros Hok _ _ _ _.
  destruct hours as [h|], days as [d|]; cbn [default from_option id] in *.
  - destruct (Z.eqb_spec h 0), (Z.eqb_spec d 0); cbn [negb andb] in *;
      try discriminate.
    + destruct (Z.leb_spec d 0); [discriminate|].
      exists (d * 86400000). split; [right; repeat split; lia|].
      split; [lia|]. split; [f_equal; f_equal; lia|].
      pose proof (Z.mul_div_le (nowMs - d * 86400000) 1000). lia.
    + destruct (Z.leb_spec h 0); [discriminate|].
      exists (h * 3600000). split; [left; repeat split; lia|].
      split; [lia|]. split; [f_equal; f_equal; lia|].
      pose proof (Z.mul_div_le (nowMs - h * 3600000) 1000). lia.
  - destruct (Z.eqb_spec h 0); cbn [negb andb] in *; [discriminate|].
    destruct (Z.leb_spec h 0); [discriminate|].
    exists (h * 3600000). split; [left; repeat split; lia|].
    split; [lia|]. split; [f_equal; f_equal; lia|].
    pose proof (Z.mul_div_le (nowMs - h * 3600000) 1000). lia.
  - destruct (Z.eqb_spec d 0); cbn [negb andb] in *; [discriminate|].
    destruct (Z.leb_spec d 0); [discriminate|].
    exists (d * 86400000). split; [right; repeat split; lia|].
    split; [lia|]. split; [f_equal; f_equal; lia|].
    pose proof (Z.mul_div_le (nowMs - d * 86400000) 1000). lia.
  - discriminate.
Qed.

(** The statement at the last 24 hours. *)
Lemma checked_window_has_cutoff_witness :
  calculateTimeWindow 1700000000000 (Some 24) None = Some 1699913600.
Proof.
  destruct (checked_window_has_cutoff 1700000000000 (Some 24) None eq_refl)
    as (window & [(_ & _ & Hw)|(Hh & _)] & _ & Hcut & _);
    try (unfold safeInteger; cbn [default from_option id]; lia).
  - rewrite Hcut, Hw. reflexivity.
  - discriminate.
Defined.

End TimeWindow.

(** ** The worker of a channel *)

Section WorkerRuns.
Import Fetcher Post VectorDB Feed Jobs Worker Spec Terms.

(** With a feed that has a last page the worker comes to an end. *)
Lemma processChannel_runs (wd : workerData) (w : world)
  (pre : list pageResponse) (children : list feedChild) :
  w_pages w = pre ++ [PageOk children None] ->
  exists r, processChannel wd w = Some r.
Proof.
  intros Hpages. unfold processChannel.
  assert (Hfetch : fst (fetchPostsSince (w_now w) (wd_subreddit wd) (wd_hours wd)
                          (wd_days wd) (wd_testMode wd) (w_comments w)
                          (w_authenticated w) (w_pages w)) <> AwaitingPage).
  { unfold fetchPostsSince.
    destruct (calculateTimeWindow (w_now w) (wd_hours wd) (wd_days wd)) as [cutoff|];
      [|discriminate].
    unfold fetchPosts. destruct (w_authenticated w) as [u|message]; [|discriminate].
    rewrite Hpages. apply pageLoop_last_page. }
  destruct (fst (fetchPostsSince _ _ _ _ _ _ _ _)) as [fetched|message|];
    [| |congruence].
  - destruct fetched as [|rp rest]; [eexists; reflexivity|].
    destruct (newVectorDB (w_token w)) as [u|message]; [|eexists; reflexivity].
    destruct (testConnection (w_health w)); eexists; reflexivity.
  - eexists. reflexivity.
Qed.

Lemma processChannel_messages (wd : workerData) (w : world) (r : run) :
  processChannel wd w = Some r ->
  exists body final,
    messages r
    = msg_progress (wd_subreddit wd) "started" None
      :: msg_progress (wd_subreddit wd) "fetching" None
      :: body ++ [final]
    /\ isTerminal final = true
    /\ (body = []
        \/ exists n, body = [msg_progress (wd_subreddit wd) "ingesting" (Some n)]
                     /\ 0 < n)
    /\ Forall (fun m => messageSubreddit m = Some (wd_subreddit wd)) (messages r).
Proof.
  unfold processChannel. intros Hrun.
  destruct (fst (fetchPostsSince _ _ _ _ _ _ _ _)) as [fetched|message|];
    [|injection Hrun as <-|discriminate].
  - destruct fetched as [|rp rest]; [injection Hrun as <-|].
    + exists [], (msg_complete (wd_subreddit wd) zeroStats).
      split; [reflexivity|]. split; [reflexivity|]. split; [left; reflexivity|].
      repeat constructor.
    + destruct (newVectorDB (w_token w)) as [u|message]; [|injection Hrun as <-].
      * destruct (testConnection (w_health w)); injection Hrun as <-.
        -- eexists [_], _. split; [reflexivity|]. split; [reflexivity|].
           split; [|repeat constructor].
           right. eexists. split; [reflexivity|]. cbn [length]. lia.
        -- eexists [], _. split; [reflexivity|]. split; [reflexivity|].
           split; [left; reflexivity|]. repeat constructor.
      * eexists [], _. split; [reflexivity|]. split; [reflexivity|].
        split; [left; reflexivity|]. repeat constructor.
  - eexists [], _. split; [reflexivity|]. split; [reflexivity|].
    split; [left; reflexivity|]. repeat constructor.
Qed.

(** X25: given a feed that has a last page, a worker always comes to an end
    and reports in a fixed order: 'started', 'fetching', then 'ingesting' at
    most once, and last exactly one closing message, 'complete' or 'error';
    every message names the worker's subreddit. *)
Theorem processChannel_report (wd : workerData) (w : world)
  (pre : list pageResponse) (children : list feedChild) :
  w_pages w = pre ++ [PageOk children None] ->
  exists r body final,
    processChannel wd w = Some r
    /\ messages r
       = msg_progress (wd_subreddit wd) "started" None
         :: msg_progress (wd_subreddit wd) "fetching" None
         :: body ++ [final]
    /\ isTerminal final = true
    /\ (body = []
        \/ exists n, body = [msg_progress (wd_subreddit wd) "ingesting" (Some n)]
                     /\ 0 < n)
    /\ Forall (fun m => messageSubreddit m = Some (wd_subreddit wd)) (messages r).
Proof.
  intros Hpages.
  destruct (processChannel_runs wd w pre children Hpages) as [r Hrun].
  destruct (processChannel_messages wd w r Hrun) as (body & final & H).
  exists r, body, final. split; [exact Hrun|exact H].
Qed.

Lemma processChannel_traces (wd : workerData) (w : world) (r : run) :
  processChannel wd w = Some r ->
  (forall e, last (messages r) = Some (msg_error (wd_subreddit wd) e) ->
             store r = initialStore)
  /\ (store r <> initialStore ->
      exists st, last (messages r) = Some (msg_complete (wd_subreddit wd) st)
                 /\ s_successful st = s_posts st + s_comments st
                 /\ healthChecks r = 1%nat)
  /\ (fst (fetchPostsSince (w_now w) (wd_subreddit wd) (wd_hours wd) (wd_days wd)
             (wd_testMode wd) (w_comments w) (w_authenticated w) (w_pages w))
      = Fetched [] ->
      last (messages r) = Some (msg_complete (wd_subreddit wd) zeroStats)
      /\ healthChecks r = 0%nat /\ store r = initialStore).
Proof.
  unfold processChannel. intros Hrun.
  destruct (fst (fetchPostsSince _ _ _ _ _ _ _ _)) as [fetched|message|];
    [|injection Hrun as <-|discriminate].
  - destruct fetched as [|rp rest]; [injection Hrun as <-|].
    + split; [reflexivity|]. split; [intros H; contradiction H; reflexivity|].
      intros _. repeat split.
    + destruct (newVectorDB (w_token w)) as [u|message]; [|injection Hrun as <-].
      * destruct (testConnection (w_health w)); injection Hrun as <-.
        -- split; [intros e He; discriminate He|]. split; [|discriminate].
           intros _. eexists. split; [reflexivity|]. split; [|reflexivity].
           pose proof (ingestPostsFrom_accounting (w_store w) (rp :: rest)
                         (wd_platform wd) initialStore emptyResults) as Hacc.
           destruct Hacc as ((Hs & _) & _); [repeat split; simpl; lia|].
           exact Hs.
        -- split; [reflexivity|]. split; [intros H; contradiction H; reflexivity|].
           discriminate.
      * split; [reflexivity|]. split; [intros H; contradiction H; reflexivity|].
        discriminate.
  - split; [reflexivity|]. split; [intros H; contradiction H; reflexivity|].
    discriminate.
Qed.

(** X26: given a feed that has a last page, a worker comes to an end, and
    if it reports an error it has sent no document to the store: errors come
    from the fetch, the missing token or the health check, never from the
    ingestion, which always ends in 'complete'; and a worker that fetched
    nothing completes with all counts at zero without contacting the store
    at all. *)
Theorem processChannel_store (wd : workerData) (w : world)
  (pre : list pageResponse) (children : list feedChild) :
  w_pages w = pre ++ [PageOk children None] ->
  exists r,
    processChannel wd w = Some r
    /\ (forall e, last (messages r) = Some (msg_error (wd_subreddit wd) e) ->
                  store r = initialStore)
    /\ (store r <> initialStore ->
        exists st, last (messages r) = Some (msg_complete (wd_subreddit wd) st)
                   /\ s_successful st = s_posts st + s_comments st
                   /\ healthChecks r = 1%nat)
    /\ (fst (fetchPostsSince (w_now w) (wd_subreddit wd) (wd_hours wd) (wd_days wd)
               (wd_testMode wd) (w_comments w) (w_authenticated w) (w_pages w))
        = Fetched [] ->
        last (messages r) = Some (msg_complete (wd_subreddit wd) zeroStats)
        /\ healthChecks r = 0%nat /\ store r = initialStore).
Proof.
  intros Hpages.
  destruct (processChannel_runs wd w pre children Hpages) as [r Hrun].
  exists r. split; [exact Hrun|]. apply processChannel_traces. exact Hrun.
Qed.

(** The last message of a worker closes its report. *)
Lemma processChannel_final (wd : workerData) (w : world) (r : run) :
  processChannel wd w = Some r ->
  exists before final,
    messages r = before ++ [final]
    /\ forallb isProgress before = true
    /\ ((exists st, final = msg_complete (wd_subreddit wd) st)
        \/ (exists e, final = msg_error (wd_subreddit wd) e)).
Proof.
  unfold processChannel. intros Hrun.
  destruct (fst (fetchPostsSince _ _ _ _ _ _ _ _)) as [fetched|message|];
    [|injection Hrun as <-|discriminate].
  - destruct fetched as [|rp rest]; [injection Hrun as <-|].
    + eexists [_; _], _. split; [reflexivity|]. split; [reflexivity|]. left. eexists. reflexivity.
    + destruct (newVectorDB (w_token w)) as [u|message]; [|injection Hrun as <-].
      * destruct (testConnection (w_health w)); injection Hrun as <-.
        -- eexists [_; _; _], _. split; [reflexivity|]. split; [reflexivity|]. left. eexists. reflexivity.
        -- eexists [_; _], _. split; [reflexivity|]. split; [reflexivity|]. right. eexists. reflexivity.
      * eexists [_; _], _. split; [reflexivity|]. split; [reflexivity|]. right. eexists. reflexivity.
  - eexists [_; _], _. split; [reflexivity|]. split; [reflexivity|]. right. eexists. reflexivity.
Qed.

Lemma channelAfter_app (jobId : Z) (xs ys : list workerEvent) (ch : channelRun) :
  channelAfter jobId (xs ++ ys) ch = channelAfter jobId ys (channelAfter jobId xs ch).
Proof. apply fold_left_app. Qed.

(** The events of one worker, delivered in order, act on its channel alone. *)
Lemma deliverAll_one_channel (jobId : Z) (i : nat) (ws : list workerEvent) :
  forall chans evs ch,
    chans !! i = Some ch ->
    deliverAll jobId (map (pair i) ws) (chans, evs)
    = Some (<[i := channelAfter jobId ws ch]> chans,
            evs ++ flat_map (announced jobId) ws).
Proof.
  induction ws as [|x xs IH]; intros chans evs ch Hch.
  - simpl. rewrite app_nil_r, list_insert_id by exact Hch. reflexivity.
  - cbn [map deliverAll]. unfold deliver. cbn [fst snd]. rewrite Hch.
    assert (Hann : snd (handle jobId x ch) = announced jobId x).
    { destruct x; cbn [handle announced]; try reflexivity.
      match goal with |- context [if ?b then _ else _] => destruct b end; reflexivity. }
    destruct (handle jobId x ch) as [ch1 anns] eqn:Hh. cbn [snd] in Hann. subst anns.
    rewrite (IH (<[i := ch1]> chans) (evs ++ announced jobId x) ch1).
    + rewrite list_insert_insert_eq. cbn [flat_map channelAfter fold_left].
      rewrite Hh, <- app_assoc. reflexivity.
    + apply list_lookup_insert_eq. eapply lookup_lt_Some. exact Hch.
Qed.

(** X27: delivered to the job manager, the report of a worker followed by
    the exit of its thread always settles its channel, and only its channel:
    the channel ends 'completed' with the stats of the 'complete' message, or
    'failed' with an error; it is never left in a progress state. *)
Theorem worker_settles_channel (wd : workerData) (w : world) (r : run)
  (jobId : Z) (i : nat) (code : Z) (chans : list channelRun) (evs : list event)
  (ch : channelRun) :
  processChannel wd w = Some r ->
  chans !! i = Some ch ->
  exists ch',
    deliverAll jobId (map (pair i) (messages r ++ [thread_exit code])) (chans, evs)
    = Some (<[i := ch']> chans,
            evs ++ flat_map (announced jobId) (messages r))
    /\ ((ch_status ch' = "completed"
         /\ exists st, ch_stats ch' = Some st
                       /\ last (messages r) = Some (msg_complete (wd_subreddit wd) st))
        \/ (ch_status ch' = "failed"
            /\ is_Some (ch_error ch')
            /\ exists e, last (messages r) = Some (msg_error (wd_subreddit wd) e))).
Proof.
  intros Hrun Hch.
  destruct (processChannel_final wd w r Hrun) as (before & final & Hmsgs & _ & Hfinal).
  exists (channelAfter jobId (messages r ++ [thread_exit code]) ch).
  split.
  - rewrite (deliverAll_one_channel jobId i _ chans evs ch Hch).
    rewrite flat_map_app. simpl. rewrite app_nil_r. reflexivity.
  - rewrite Hmsgs, last_snoc, <- app_assoc, channelAfter_app.
    set (ch0 := channelAfter jobId before ch).
    destruct Hfinal as [[st ->]|[e ->]]; cbn [app channelAfter fold_left handle fst].
    + left. cbn [withStats withStatus ch_status ch_stats]. simpl String.eqb.
      rewrite andb_false_r. cbn [fst ch_status ch_stats].
      split; [reflexivity|]. exists st. split; reflexivity.
    + right. cbn [withError withStatus ch_status]. simpl String.eqb.
      destruct (negb (code =? 0)%Z); cbn [andb negb fst];
        (split; [reflexivity|]); (split; [eexists; reflexivity|]);
        exists e; reflexivity.
Qed.

Lemma emitted_platform (rp : redditPost) (platformName : option string) :
  Forall (fun d => d_platform d = platformOf platformName (rp_subreddit rp)
                   /\ d_source d = "Reddit")
         (emitted rp platformName).
Proof.
  destruct (emitted_cases rp platformName) as [(_ & _ & ->)|(_ & _ & ->)];
    [|constructor].
  constructor; [split; reflexivity|].
  apply List.Forall_forall. intros d Hd.
  apply in_map_iff in Hd as (pc & <- & _). split; reflexivity.
Qed.

(** X28: a worker launched for a channel files every document under the
    channel's subreddit name: the launchers hand the worker no [platform], so
    the platform the configuration gives the channel never reaches the
    documents, whose platform is the subreddit and whose source is 'Reddit'. *)
Theorem worker_documents_platform (ch : Loader.channel) (hours days : option Z)
  (testMode : bool) (w : world) (fetched : list redditPost) :
  let wd := workerDataFor ch hours days testMode in
  fst (fetchPostsSince (w_now w) (wd_subreddit wd) (wd_hours wd) (wd_days wd)
         (wd_testMode wd) (w_comments w) (w_authenticated w) (w_pages w))
  = Fetched fetched ->
  Forall (fun d => d_platform d = Loader.lc_subreddit ch /\ d_source d = "Reddit")
         (documentsOf fetched (wd_platform wd)).
Proof.
  cbv zeta. unfold fetchPostsSince, workerDataFor.
  cbn [wd_subreddit wd_hours wd_days wd_testMode wd_platform].
  destruct (calculateTimeWindow (w_now w) hours days) as [cutoff|]; [|discriminate].
  unfold fetchPosts. destruct (w_authenticated w) as [u|message]; [|discriminate].
  intros Hrun.
  assert (Htag : Forall (fun rp => rp_subreddit rp = Loader.lc_subreddit ch) fetched).
  { eapply (pageLoop_Forall (Loader.lc_subreddit ch) cutoff testMode (w_comments w)
              (fun rp => rp_subreddit rp = Loader.lc_subreddit ch));
      [|constructor|exact Hrun].
    intros raw resp _ _. reflexivity. }
  unfold documentsOf. apply List.Forall_flat_map.
  eapply List.Forall_impl; [|exact Htag]. intros rp Hrp.
  pose proof (emitted_platform rp None) as Hdocs.
  rewrite Hrp in Hdocs. exact Hdocs.
Qed.

End WorkerRuns.

(** ** The command line run *)

Section CliRuns.
Import Jobs Worker Cli Terms.

Lemma count_thrown (results : list settled) : fold_left count results None = None.
Proof. induction results as [|r rest IH]; [reflexivity|exact IH]. Qed.

Lemma summarize_from (results : list settled) :
  forall a s,
    fold_left count results (Some a) = Some s ->
    successfulChannels s
    = (successfulChannels a + length (List.filter isSuccess results))%nat
    /\ (successfulChannels s + failedChannels s
        = successfulChannels a + failedChannels a + length results)%nat
    /\ totals s = plusStats (totals a) (sumStats (flat_map successStats results)).
Proof.
  induction results as [|r rest IH]; intros a s Hsum.
  - injection Hsum as <-. cbn [List.filter length flat_map sumStats foldr].
    rewrite plusStats_zero_r. repeat split; lia.
  - cbn [fold_left] in Hsum.
    destruct r as [value|reason]; cbn [count] in Hsum.
    + destruct (r_success value) eqn:Hsuccess.
      * destruct (r_stats value) as [st|] eqn:Hstats;
          [|rewrite count_thrown in Hsum; discriminate].
        destruct (IH _ _ Hsum) as (Hs & Hall & Htotals).
        cbn [successfulChannels failedChannels totals] in Hs, Hall, Htotals.
        cbn [List.filter flat_map successStats isSuccess]. rewrite Hsuccess, Hstats.
        cbn [length option_list app sumStats foldr].
        rewrite Htotals, plusStats_assoc. repeat split; try lia.
      * destruct (IH _ _ Hsum) as (Hs & Hall & Htotals).
        cbn [successfulChannels failedChannels totals] in Hs, Hall, Htotals.
        cbn [List.filter flat_map successStats isSuccess]. rewrite Hsuccess.
        cbn [length app]. repeat split; try lia. exact Htotals.
    + destruct (IH _ _ Hsum) as (Hs & Hall & Htotals).
      cbn [successfulChannels failedChannels totals] in Hs, Hall, Htotals.
      cbn [List.filter flat_map successStats isSuccess length app].
      repeat split; try lia. exact Htotals.
Qed.

(** X29: when the summary of the command line is drawn, every settled worker
    is counted once, as a successful or as a failed channel; the successful
    ones are the fulfilled results flagged [success]; the totals are the sum
    of their stats; and, there being channels (the summary is not reached
    without), the process exits with 1 exactly when none was successful. *)
Theorem summarize_counts (results : list settled) (s : summary) :
  summarize results = Some s ->
  successfulChannels s = length (List.filter isSuccess results)
  /\ (successfulChannels s + failedChannels s = length results)%nat
  /\ totals s = sumStats (flat_map successStats results)
  /\ (results <> [] -> (exitCode results = 1 <-> successfulChannels s = 0%nat)).
Proof.
  intros Hsum. unfold exitCode. rewrite Hsum. unfold summarize in Hsum.
  destruct (summarize_from results _ _ Hsum) as (Hs & Hall & Htotals).
  cbn [emptySummary successfulChannels failedChannels totals] in Hs, Hall, Htotals.
  rewrite plusStats_zero_l in Htotals.
  split; [exact Hs|]. split; [lia|]. split; [exact Htotals|].
  intros _. split.
  - intros Hexit.
    destruct (Nat.eqb_spec (failedChannels s) (length results)) as [Heq|Hne];
      [lia|discriminate].
  - intros Hnone.
    destruct (Nat.eqb_spec (failedChannels s) (length results)) as [Heq|Hne];
      [reflexivity|lia].
Qed.

Lemma onEvent_progress (ws : list workerEvent) :
  forall st, forallb isProgress ws = true -> fold_left onEvent ws st = st.
Proof.
  induction ws as [|x xs IH]; intros st Hall; [reflexivity|].
  cbn [forallb] in Hall. apply andb_true_iff in Hall as [Hx Hxs].
  cbn [fold_left]. destruct x; try discriminate.
  destruct st as [r p]. cbn [onEvent]. apply IH. exact Hxs.
Qed.

(** X30: on the command line the promise of a worker that reports and exits
    with code 0 is fulfilled, never rejected, also when the channel failed:
    its result carries the channel's name and either [success] with the stats
    of the 'complete' message and no error, or no success, no stats and the
    error of the 'error' message.  The summary can count such a result
    whatever it has counted before. *)
Theorem cli_worker_fulfilled (wd : workerData) (w : world) (r : run) :
  processChannel wd w = Some r ->
  exists value,
    cliEntry wd r 0 = Some (Fulfilled value)
    /\ r_subreddit value = wd_subreddit wd
    /\ ((r_success value = true /\ r_error value = None
         /\ exists st, r_stats value = Some st
                       /\ last (messages r) = Some (msg_complete (wd_subreddit wd) st))
        \/ (r_success value = false /\ r_stats value = None
            /\ exists e, r_error value = Some e
                         /\ last (messages r) = Some (msg_error (wd_subreddit wd) e)))
    /\ (forall a, is_Some (count (Some a) (Fulfilled value))).
Proof.
  intros Hrun.
  destruct (processChannel_final wd w r Hrun) as (before & final & Hmsgs & Hprogress & Hfinal).
  unfold cliEntry, runChannelWorker.
  rewrite Hmsgs, last_snoc, <- app_assoc, fold_left_app.
  rewrite (onEvent_progress before _ Hprogress).
  destruct Hfinal as [[st ->]|[e ->]]; cbn [app fold_left onEvent];
    cbn [r_error r_success r_stats r_subreddit Loader.truthy Z.eqb negb andb settle
         settledOf fst snd];
    eexists; (split; [reflexivity|]); cbn [r_error r_success r_stats r_subreddit];
    (split; [reflexivity|]); split.
  - left. split; [reflexivity|]. split; [reflexivity|]. exists st. split; reflexivity.
  - intros a. cbn [count r_success r_stats]. eexists. reflexivity.
  - right. split; [reflexivity|]. split; [reflexivity|]. exists e. split; reflexivity.
  - intros a. cbn [count r_success r_stats]. eexists. reflexivity.
Qed.

End CliRuns.

(** ** Instances *)

Section Instances.
Import Post VectorDB Client Feed Jobs Loader Names Worker Cli Terms.

(** The entries fetched from [sampleFeed] with the cutoff 100. *)
Lemma fetchPosts_entries_witness :
  exists result,
    fst (fetchPosts "r/x" 100 false noComments (Ok tt) sampleFeed) = Fetched result
    /\ Forall (entryOf "r/x" false) result.
Proof.
  eexists. split; [reflexivity|].
  exact (fetchPosts_entries "r/x" 100 false noComments (Ok tt) sampleFeed _ eq_refl).
Defined.

(** Their ids among the ids of the feed. *)
Lemma fetchPosts_subsequence_witness :
  exists result,
    fst (fetchPosts "r/x" 100 false noComments (Ok tt) sampleFeed) = Fetched result
    /\ map postIdOf result `sublist_of` feedPostIds sampleFeed.
Proof.
  eexists. split; [reflexivity|].
  exact (fetchPosts_subsequence "r/x" 100 false noComments (Ok tt) sampleFeed _ eq_refl).
Defined.

(** The same fetch in test mode. *)
Lemma fetchPosts_test_mode_cap_witness :
  exists result,
    fst (fetchPosts "r/x" 100 true noComments (Ok tt) sampleFeed) = Fetched result
    /\ (length result <= 5)%nat.
Proof.
  eexists. split; [reflexivity|].
  exact (fetchPosts_test_mode_cap "r/x" 100 noComments (Ok tt) sampleFeed _ eq_refl).
Defined.

(** A token granted for an hour is reused. *)
Lemma fresh_token_reuse_witness :
  let c1 := snd (authenticate grantsToken (newClient 5000)) in
  accessToken c1 = Some "token"
  /\ authRequests (snd (ensureAuthenticated grantsToken c1)) = authRequests c1.
Proof.
  destruct (fresh_token_reuse grantsToken (newClient 5000) "token" 3600 eq_refl)
    as (Htoken & Hreuse & _).
  - discriminate.
  - split; [exact Htoken|]. apply Hreuse. lia.
Defined.

(** One 500, then a body: two requests. *)
Lemma makeRequest_first_success_witness :
  fst (makeRequest grantsToken failsOnce newUrl 3 (newClient 5000)) = Ok "body"
  /\ apiRequests (snd (makeRequest grantsToken failsOnce newUrl 3 (newClient 5000)))
     = 2%nat.
Proof.
  apply (makeRequest_first_success grantsToken failsOnce newUrl 3 1 (newClient 5000)
           "body").
  - reflexivity.
  - intros i Hi. assert (i = 0%nat) as -> by lia. reflexivity.
  - reflexivity.
  - lia.
Defined.

(** Three 503s: seven seconds of waiting. *)
Lemma makeRequest_server_errors_witness :
  fst (requestLoop grantsToken serverDown newUrl 3 3 0 (newClient 5000))
  = Thrown "Max retries (3) exceeded for https://oauth.reddit.com/r/x/new.json"
  /\ now (snd (requestLoop grantsToken serverDown newUrl 3 3 0 (newClient 5000)))
     = 12000.
Proof.
  destruct (makeRequest_server_errors grantsToken serverDown newUrl 3 (newClient 5000))
    as (Hres & _ & _ & Hnow).
  - intros n. reflexivity.
  - lia.
  - split; [exact Hres|exact Hnow].
Defined.

(** Three 401s: three new tokens. *)
Lemma makeRequest_unauthorized_witness :
  fst (requestLoop grantsToken turnsDown newUrl 3 3 0 (newClient 5000))
  = Thrown "Max retries (3) exceeded for https://oauth.reddit.com/r/x/new.json"
  /\ authRequests (snd (requestLoop grantsToken turnsDown newUrl 3 3 0 (newClient 5000)))
     = 3%nat.
Proof.
  destruct (makeRequest_unauthorized grantsToken turnsDown newUrl 3 (newClient 5000))
    as (Hres & _ & Hauth & _).
  - intros n. reflexivity.
  - intros n. reflexivity.
  - split; [exact Hres|exact Hauth].
Defined.

(** The events of [mixedRun]: started, five channel events, completed. *)
Lemma startJob_events_witness :
  exists j' m',
    startJob 1 mixedRun 10 20 oneJob = Settled j' m'
    /\ length (published m') = (length (published oneJob) + 7)%nat.
Proof.
  eexists _, _. split; [reflexivity|].
  destruct (startJob_events oneJob 1 mixedRun 10 20 _ _ eq_refl)
    as [(running & _ & _ & Hpublished) _].
  rewrite Hpublished, length_app. reflexivity.
Defined.

(** A job created in the empty registry, run and deleted. *)
Lemma create_run_delete_witness :
  exists j' m2 m3,
    startJob 1 mixedRun 10 20 oneJob = Settled j' m2
    /\ deleteJob 1 m2 = (Ok true, m3)
    /\ jobs m3 = jobs newManager.
Proof.
  destruct (create_run_delete newManager twoChannels (Some 24) None false 5 10 20 mixedRun)
    as (j' & m2 & m3 & Hrun & _ & Hdel & Hjobs & _).
  - intros k j Hk. unfold newManager in Hk. cbn [jobs] in Hk.
    rewrite lookup_empty in Hk. discriminate.
  - repeat constructor.
  - exists j', m2, m3. repeat split; assumption.
Defined.

(** A channel sent twice. *)
Lemma addChannel_once_witness :
  addChannel (Some "r/beta") false
    (oneChannelConfig
     ++ [("r/beta", {| ce_enabled := Some true; ce_platform := None |})])
  = (ReplyError 400 "Channel already exists",
     oneChannelConfig
     ++ [("r/beta", {| ce_enabled := Some true; ce_platform := None |})]).
Proof.
  exact (proj2 (proj2 (proj2 (proj2 (proj2
           (addChannel_once "beta" false false oneChannelConfig _ "r/beta" true
              eq_refl)))))).
Defined.

(** The report of [alphaWorker] in [quietWorld]. *)
Lemma processChannel_report_witness :
  exists r,
    processChannel alphaWorker quietWorld = Some r
    /\ exists final, last (messages r) = Some final /\ isTerminal final = true.
Proof.
  destruct (processChannel_report alphaWorker quietWorld
              [PageOk [feedPost "p1" 200] (Some "t3_p1");
               PageOk [feedPost "p2" 150; feedPost "p3" 50; feedPost "p4" 40]
                 (Some "t3_p4")]
              [feedPost "p5" 30] eq_refl)
    as (r & body & final & Hrun & Hmessages & Hterminal & _).
  exists r. split; [exact Hrun|].
  exists final. split; [|exact Hterminal].
  etransitivity; [exact (f_equal last Hmessages)|].
  change (last ((msg_progress (wd_subreddit alphaWorker) "started" None
                 :: msg_progress (wd_subreddit alphaWorker) "fetching" None :: body)
                ++ [final]) = Some final).
  apply last_snoc.
Defined.

(** With the store unhealthy nothing is sent. *)
Lemma processChannel_store_witness :
  exists r,
    processChannel alphaWorker unhealthyWorld = Some r
    /\ last (messages r)
       = Some (msg_error "r/alpha" "Vector DB connection test failed")
    /\ store r = initialStore.
Proof.
  destruct (processChannel_store alphaWorker unhealthyWorld
              [PageOk [feedPost "p1" 200] (Some "t3_p1");
               PageOk [feedPost "p2" 150; feedPost "p3" 50; feedPost "p4" 40]
                 (Some "t3_p4")]
              [feedPost "p5" 30] eq_refl)
    as (r & Hrun & Herror & _).
  exists r. split; [exact Hrun|].
  assert (Hlast : last (messages r)
                  = Some (msg_error "r/alpha" "Vector DB connection test failed")).
  { assert (Hr : Some r = processChannel alphaWorker unhealthyWorld)
      by (symmetry; exact Hrun).
    vm_compute in Hr. injection Hr as ->. reflexivity. }
  split; [exact Hlast|]. exact (Herror _ Hlast).
Defined.

(** The channel "r/alpha" of [createdJob] after that report. *)
Lemma worker_settles_channel_witness :
  exists r,
    processChannel alphaWorker quietWorld = Some r
    /\ exists ch',
         fst <$> deliverAll 1 (map (pair 0%nat) (messages r ++ [thread_exit 0]))
                   (j_channels createdJob, [])
         = Some (<[0%nat := ch']> (j_channels createdJob))
         /\ (ch_status ch' = "completed" \/ ch_status ch' = "failed").
Proof.
  eexists. split; [reflexivity|].
  destruct (worker_settles_channel alphaWorker quietWorld _ 1 0 0
              (j_channels createdJob) [] _ eq_refl eq_refl)
    as (ch' & Hdeliver & Hstatus).
  exists ch'. split.
  - exact (f_equal (fmap fst) Hdeliver).
  - destruct Hstatus as [[Hs _]|[Hs _]]; [left|right]; exact Hs.
Defined.

(** The documents of that worker: filed under "r/alpha", not "Alpha". *)
Lemma worker_documents_platform_witness :
  exists fetched,
    fst (fetchPostsSince (w_now quietWorld) "r/alpha" (Some 1) None false
           (w_comments quietWorld) (w_authenticated quietWorld) (w_pages quietWorld))
    = Fetched fetched
    /\ Forall (fun d => d_platform d = "r/alpha" /\ d_source d = "Reddit")
              (documentsOf fetched None).
Proof.
  eexists. split; [reflexivity|].
  exact (worker_documents_platform alphaChannel (Some 1) None false quietWorld _ eq_refl).
Defined.

(** The summary of [twoSettled]: one channel each way, exit code 0. *)
Lemma summarize_counts_witness :
  exists s,
    summarize twoSettled = Some s
    /\ successfulChannels s = 1%nat
    /\ (successfulChannels s + failedChannels s = 2)%nat.
Proof.
  eexists. split; [reflexivity|].
  destruct (summarize_counts twoSettled _ eq_refl) as (Hs & Hall & _).
  split; [exact Hs|exact Hall].
Defined.

(** The promise of [alphaWorker] in [unhealthyWorld] is fulfilled. *)
Lemma cli_worker_fulfilled_witness :
  exists r,
    processChannel alphaWorker unhealthyWorld = Some r
    /\ exists value,
         cliEntry alphaWorker r 0 = Some (Fulfilled value)
         /\ r_subreddit value = "r/alpha".
Proof.
  eexists. split; [reflexivity|].
  destruct (cli_worker_fulfilled alphaWorker unhealthyWorld _ eq_refl)
    as (value & Hentry & Hname & _).
  exists value. split; [exact Hentry|exact Hname].
Defined.

End Instances.
